(** * open-canvas: the stream-reconciliation hook [useGraph]

    A shallow embedding of [src/hooks/use-graph/useGraph.tsx]:
    the fence stripper [removeCodeBlockFormatting], the frame loop of
    [streamMessageV2] with its per-stream variables, and the state setters
    [setArtifactContent] and [switchSelectedThread].

    Conventions.
    - A JavaScript string is the list of its UTF-16 code units ([str]).
    - A JavaScript number used as an index or an offset is a [Z].
    - [undefined] is [None].
    - React state ([messages], [artifact], [isStreaming]) is threaded
      explicitly; a functional update [setArtifact (fun prev => ...)] is
      applied to the value the previous updates left.
    - Notifications ([toast]) and [console.error] calls are appended to an
      effect log, so that "an error is reported" can be stated. *)

From Stdlib Require Import List ZArith NArith Bool String Ascii Lia.
Import ListNotations.

Local Open Scope Z_scope.

(* ================================================================== *)
(** * JavaScript strings *)
(* ================================================================== *)

Module JS.

(** One UTF-16 code unit. *)
Definition char := N.
Definition str := list char.

(** A string literal of the source (ASCII only). *)
Definition lit (s : string) : str :=
  map N_of_ascii (list_ascii_of_string s).

Definition LF : char := 10%N.
Definition backtick : char := 96%N.
Definition slash : char := 47%N.

Definition char_eqb (a b : char) : bool := N.eqb a b.

(** [a === b] on strings. *)
Fixpoint str_eqb (a b : str) : bool :=
  match a, b with
  | [], [] => true
  | x :: a', y :: b' => char_eqb x y && str_eqb a' b'
  | _, _ => false
  end.

(** Truthiness of a string: only the empty string is falsy. *)
Definition truthy (s : str) : bool :=
  match s with [] => false | _ :: _ => true end.

(** Truthiness of a possibly undefined string. *)
Definition truthy_opt (o : option str) : bool :=
  match o with Some s => truthy s | None => false end.

(** [String(x)] of a possibly undefined string, as string concatenation and
    template literals apply it. *)
Definition to_text (o : option str) : str :=
  match o with Some s => s | None => lit "undefined" end.

(** [o ?? ""] *)
Definition to_text_or_empty (o : option str) : str :=
  match o with Some s => s | None => [] end.

(** A present string equal to the literal [n]. *)
Definition opt_is (o : option str) (n : string) : bool :=
  match o with Some s => str_eqb s (lit n) | None => false end.

Definition len (s : str) : Z := Z.of_nat (List.length s).

(** Relative index of [slice]: a negative index counts from the end, and
    the result is clamped to [0, len]. *)
Definition rel_index (n i : Z) : Z :=
  if i <? 0 then Z.max (n + i) 0 else Z.min i n.

(** [s.slice(b, e)] *)
Definition slice (s : str) (b e : Z) : str :=
  let from := rel_index (len s) b in
  let to := rel_index (len s) e in
  firstn (Z.to_nat (to - from)) (skipn (Z.to_nat from) s).

(** [s.slice(b)] *)
Definition slice_from (s : str) (b : Z) : str :=
  slice s b (len s).

Fixpoint starts_with (p s : str) : bool :=
  match p, s with
  | [], _ => true
  | x :: p', y :: s' => char_eqb x y && starts_with p' s'
  | _ :: _, [] => false
  end.

Fixpoint indexOf_from (s sub : str) (i : Z) : Z :=
  if starts_with sub s then i
  else match s with
       | [] => -1
       | _ :: s' => indexOf_from s' sub (i + 1)
       end.

(** [s.indexOf(sub)]: the first occurrence, or [-1]. *)
Definition indexOf (s sub : str) : Z := indexOf_from s sub 0.

(** White space and line terminators, the code units [trim] removes. *)
Definition is_space (c : char) : bool :=
  ((9 <=? c) && (c <=? 13) || (c =? 32) || (c =? 160) || (c =? 5760)
   || (8192 <=? c) && (c <=? 8202) || (c =? 8232) || (c =? 8233)
   || (c =? 8239) || (c =? 8287) || (c =? 12288) || (c =? 65279))%N.

Fixpoint trimStart (s : str) : str :=
  match s with
  | c :: s' => if is_space c then trimStart s' else s
  | [] => []
  end.

Definition trimEnd (s : str) : str := rev (trimStart (rev s)).

(** [s.trim()] *)
Definition trim (s : str) : str := trimEnd (trimStart s).

(** The text of [s] before the first occurrence of a non-empty separator
    and the text after it; [None] when the separator does not occur. *)
Fixpoint cut (sep s : str) (before : str) : option (str * str) :=
  if starts_with sep s then Some (before, skipn (List.length sep) s)
  else match s with
       | [] => None
       | c :: s' => cut sep s' (before ++ [c])
       end.

(** [s.split(sep)[0]] for a non-empty separator. *)
Definition split_0 (s sep : str) : str :=
  match cut sep s [] with
  | Some (before, _) => before
  | None => s
  end.

(** [s.split(sep)[1]] for a non-empty separator: [undefined] when the
    separator does not occur in [s]. *)
Definition split_1 (s sep : str) : option str :=
  match cut sep s [] with
  | Some (_, after) => Some (split_0 after sep)
  | None => None
  end.

(** ** Regular expressions

    The fragment the source uses: literal characters, a character class
    under a greedy star, one capture group holding a character class under
    a lazy star, and the two anchors (without the [m] flag).  [exec] is the
    backtracking matcher: it returns the text of capture group 1 of the
    first match in priority order. *)

Inductive atom :=
| Bos                                   (* ^ *)
| Eos                                   (* $ *)
| Chr (c : char)                        (* a literal character *)
| StarGreedy (cls : char -> bool)       (* [cls]* *)
| GroupLazyStar (cls : char -> bool).   (* ([cls]*?) *)

Definition regex := list atom.

(** [[cls]*] followed by the rest [k] of the pattern: the longest run
    first, then shorter ones.  [bos] tells whether [input] is the whole
    subject string. *)
Fixpoint star_greedy (cls : char -> bool) (k : bool -> str -> option str)
  (bos : bool) (input : str) : option str :=
  match input with
  | x :: r =>
      if cls x then
        match star_greedy cls k false r with
        | Some m => Some m
        | None => k bos input
        end
      else k bos input
  | [] => k bos input
  end.

(** [([cls]*?)] followed by the rest [k] of the pattern: the shortest run
    first, then longer ones; [acc] is the text captured so far. *)
Fixpoint star_lazy (cls : char -> bool)
  (k : bool -> str -> str -> option str)
  (bos : bool) (input : str) (acc : str) : option str :=
  match k bos input acc with
  | Some m => Some m
  | None =>
      match input with
      | x :: r => if cls x then star_lazy cls k false r (acc ++ [x]) else None
      | [] => None
      end
  end.

Fixpoint exec (re : regex) (bos : bool) (input : str) (g1 : str)
  {struct re} : option str :=
  match re with
  | [] => Some g1
  | Bos :: k => if bos then exec k bos input g1 else None
  | Eos :: k =>
      match input with
      | [] => exec k bos input g1
      | _ :: _ => None
      end
  | Chr c :: k =>
      match input with
      | x :: r => if char_eqb x c then exec k false r g1 else None
      | [] => None
      end
  | StarGreedy cls :: k =>
      star_greedy cls (fun b i => exec k b i g1) bos input
  | GroupLazyStar cls :: k =>
      star_lazy cls (exec k) bos input []
  end.

(** The first match, searching start positions from left to right. *)
Fixpoint search (re : regex) (bos : bool) (input : str) : option str :=
  match exec re bos input [] with
  | Some m => Some m
  | None =>
      match input with
      | _ :: r => search re false r
      | [] => None
      end
  end.

(** [text.match(re)] for a regex without the [g] flag, reduced to what the
    source reads of the result: [match[1]], or [None] for a [null] result. *)
Definition match_group1 (text : str) (re : regex) : option str :=
  search re true text.

(** [\w] *)
Definition is_word (c : char) : bool :=
  ((48 <=? c) && (c <=? 57) || (65 <=? c) && (c <=? 90)
   || (97 <=? c) && (c <=? 122) || (c =? 95))%N.

(** [[\w-]] *)
Definition is_word_or_hyphen (c : char) : bool :=
  is_word c || (c =? 45)%N.

(** [[\s\S]] *)
Definition any_char (c : char) : bool := true.

End JS.

Import JS.

(* ================================================================== *)
(** * The fence stripper *)
(* ================================================================== *)

(** [/^```[\w-]*\n([\s\S]*?)\n```$/] *)
Definition codeBlockRegex : regex :=
  [ Bos; Chr backtick; Chr backtick; Chr backtick;
    StarGreedy is_word_or_hyphen; Chr LF;
    GroupLazyStar any_char;
    Chr LF; Chr backtick; Chr backtick; Chr backtick; Eos ].

(** The closing part of the pattern, [\n```$]. *)
Definition closing : regex :=
  [Chr LF; Chr backtick; Chr backtick; Chr backtick; Eos].

Definition removeCodeBlockFormatting (text : str) : str :=
  if negb (truthy text) then text
  else
    match match_group1 text codeBlockRegex with
    | Some g1 => trim g1
    | None => text
    end.

Definition fence : str := [backtick; backtick; backtick].

(** A fenced block: an opening fence line with an optional language tag,
    the body, and a closing fence line. *)
Definition wrap_in_fence (lang c : str) : str :=
  fence ++ lang ++ [LF] ++ c ++ [LF] ++ fence.

(** The text is, as a whole, a fenced block. *)
Definition Fenced (text : str) : Prop :=
  exists lang c,
    forallb is_word_or_hyphen lang = true /\ text = wrap_in_fence lang c.

(* ================================================================== *)
(** * Data model *)
(* ================================================================== *)

(** The type declarations of [@/types] are not part of the source file;
    the records below follow the fields the source reads and writes. *)

Record ArtifactMarkdownV3 := {
  md_index : Z;
  md_title : str;
  fullMarkdown : str
}.

Record ArtifactCodeV3 := {
  code_index : Z;
  code_title : str;
  language : str;
  code : str
}.

(** A content snapshot: the [type] field is ["text"] or ["code"]. *)
Inductive ArtifactContent :=
| Markdown (m : ArtifactMarkdownV3)
| Code (c : ArtifactCodeV3).

Definition index (a : ArtifactContent) : Z :=
  match a with Markdown m => md_index m | Code c => code_index c end.

Definition title (a : ArtifactContent) : str :=
  match a with Markdown m => md_title m | Code c => code_title c end.

Definition type (a : ArtifactContent) : str :=
  match a with Markdown _ => lit "text" | Code _ => lit "code" end.

Record ArtifactV3 := {
  currentIndex : Z;
  contents : list ArtifactContent
}.

(** [isArtifactMarkdownContent] and [isArtifactCodeContent], the type
    guards of [@/lib/artifact_content_types]. *)
Definition isArtifactMarkdownContent (a : ArtifactContent) : bool :=
  match a with Markdown _ => true | Code _ => false end.

Definition isArtifactCodeContent (a : ArtifactContent) : bool :=
  match a with Markdown _ => false | Code _ => true end.

(** The highlight of a text span. *)
Record TextHighlight := {
  th_fullMarkdown : str;
  th_markdownBlock : str
}.

(** The highlight of a code span. *)
Record Highlight := {
  startCharIndex : Z;
  endCharIndex : Z
}.

(** The fields of [GraphInput] that the frame loop reads; the others are
    only forwarded to the transport. *)
Record GraphInput := {
  highlighted : option Highlight;
  portLanguage : option str
}.

(** The arguments of the [generate_artifact] tool call, as far as parsed. *)
Record ArtifactToolResponse := {
  tr_artifact : option str;
  tr_title : option str;
  tr_language : option str;
  tr_type : option str
}.

Record RewriteArtifactMetaToolResponse := {
  meta_type : str;
  meta_title : str;
  programmingLanguage : option str
}.

Inductive ToolArgs :=
| SharedRunArgs (sharedRunURL : option str)
| OtherArgs (json : str).

Record ToolCall := {
  tc_name : str;
  tc_args : ToolArgs;
  tc_id : option str
}.

(** A message: [langSmithRunURL] stands for
    [response_metadata?.langSmithRunURL]. *)
Record BaseMessage := {
  msg_id : option str;
  msg_content : str;
  tool_calls : option (list ToolCall);
  langSmithRunURL : option str
}.

(** The payload [chunk.data.data.chunk[1]] of a stream frame:
    [chunk_tool_args] stands for [tool_call_chunks?.[0]?.args]. *)
Record MessageChunk := {
  chunk_id : option str;
  chunk_content : option str;
  chunk_tool_args : option str
}.

(** One frame of the event stream ([chunk.data] in the source):
    [run_id] and [langgraph_node] are the fields of [metadata],
    [input_highlightedText] is [data?.input?.highlightedText],
    [payload] is [data.chunk[1]] ([None] when the frame has no [chunk]),
    [output_args] is [data.output.tool_calls[0].args] ([None] when the
    frame has no such output, in which case reading it throws). *)
Record Frame := {
  event : str;
  name : option str;
  run_id : option str;
  langgraph_node : str;
  input_highlightedText : option TextHighlight;
  payload : option MessageChunk;
  output_args : option RewriteArtifactMetaToolResponse
}.

(** What the hook reports or triggers outside its own state. *)
Inductive Effect :=
| Toast (title description : string)
| ConsoleError (message : string)
| StreamOpened
| ShareRun (runId : str)
| SetThreadId (id : str)
| SetCookie (id : str).

(** The React state of the hook, with the log of its effects. *)
Record Hook := {
  messages : list BaseMessage;
  artifact : option ArtifactV3;
  selectedBlocks : option TextHighlight;
  isStreaming : bool;
  effects : list Effect
}.

Record UseGraphInput := {
  userId : str;
  threadId : option str;
  assistantId : option str
}.

(* ================================================================== *)
(** * Snapshot construction ([./utils]) *)
(* ================================================================== *)

(** Modelled from the spec: [createNewGeneratedArtifactFromTool] of
    [./utils] is not part of the source file.  Section 4.3 rule 4: with a
    content payload and a resolvable type (and, for code, a resolvable
    language) the new artifact has exactly one snapshot at index 1. *)
Definition createNewGeneratedArtifactFromTool (t : ArtifactToolResponse)
  : option ArtifactContent :=
  let ty := to_text_or_empty (tr_type t) in
  if str_eqb ty (lit "text") then
    Some (Markdown {| md_index := 1;
                      md_title := to_text_or_empty (tr_title t);
                      fullMarkdown := to_text_or_empty (tr_artifact t) |})
  else if str_eqb ty (lit "code") && truthy_opt (tr_language t) then
    Some (Code {| code_index := 1;
                  code_title := to_text_or_empty (tr_title t);
                  language := to_text_or_empty (tr_language t);
                  code := to_text_or_empty (tr_artifact t) |})
  else None.

(** Modelled from the spec: the snapshot updaters of [./utils]
    ([updateHighlightedMarkdown], [updateHighlightedCode] and
    [updateRewrittenArtifact]) are not part of the source file.  Section 4.3:
    the materialized snapshot is appended at the reserved index on the first
    update of the fold and replaces the snapshot written at that index on
    every later one; the artifact's [currentIndex] is repointed to it. *)
Definition write_snapshot (prevArtifact : ArtifactV3)
  (snapshot : ArtifactContent) (isFirstUpdate : bool) : ArtifactV3 :=
  {| currentIndex := index snapshot;
     contents :=
       if isFirstUpdate then contents prevArtifact ++ [snapshot]
       else map (fun c => if index c =? index snapshot then snapshot else c)
                (contents prevArtifact) |}.

(** Modelled from the spec: section 4.3 rule 5, the new text snapshot
    keeps the previous snapshot's title and carries the materialized
    markdown. *)
Definition updateHighlightedMarkdown (prevArtifact : ArtifactV3)
  (content : str) (newArtifactIndex : Z)
  (prevCurrentContent : ArtifactMarkdownV3) (isFirstUpdate : bool)
  : ArtifactV3 :=
  write_snapshot prevArtifact
    (Markdown {| md_index := newArtifactIndex;
                 md_title := md_title prevCurrentContent;
                 fullMarkdown := content |})
    isFirstUpdate.

(** Modelled from the spec: section 4.3 rule 6, the new code snapshot
    keeps the previous snapshot's title and language and carries the
    materialized code. *)
Definition updateHighlightedCode (prevArtifact : ArtifactV3)
  (content : str) (newArtifactIndex : Z)
  (prevCurrentContent : ArtifactCodeV3) (isFirstUpdate : bool)
  : ArtifactV3 :=
  write_snapshot prevArtifact
    (Code {| code_index := newArtifactIndex;
             code_title := code_title prevCurrentContent;
             language := language prevCurrentContent;
             code := content |})
    isFirstUpdate.

(** Modelled from the spec: section 4.3 rules 8 and 9, the new snapshot
    has the type and title of the rewrite metadata and, for code, the
    resolved language. *)
Definition updateRewrittenArtifact (prevArtifact : ArtifactV3)
  (newArtifactContent : str)
  (rewriteArtifactMeta : RewriteArtifactMetaToolResponse)
  (newArtifactIndex : Z) (isFirstUpdate : bool) (artifactLanguage : str)
  : ArtifactV3 :=
  write_snapshot prevArtifact
    (if str_eqb (meta_type rewriteArtifactMeta) (lit "code") then
       Code {| code_index := newArtifactIndex;
               code_title := meta_title rewriteArtifactMeta;
               language := artifactLanguage;
               code := newArtifactContent |}
     else
       Markdown {| md_index := newArtifactIndex;
                   md_title := meta_title rewriteArtifactMeta;
                   fullMarkdown := newArtifactContent |})
    isFirstUpdate.

(* ================================================================== *)
(** * The frame loop of [streamMessageV2] *)
(* ================================================================== *)

(** The variables of one stream, together with the React state the
    functional updates act on ([cur_messages], [cur_artifact]) and the
    effects logged so far.  A functional update is applied where it is
    issued, reading the stream variables as they are at that point. *)
Record Loop := {
  cur_messages : list BaseMessage;
  cur_artifact : option ArtifactV3;
  runId : str;
  followupMessageId : option str;
  newArtifactIndex : option Z;
  rewriteArtifactMeta : option RewriteArtifactMetaToolResponse;
  generateArtifactToolCallStr : str;
  updatedArtifactStartContent : option str;
  updatedArtifactRestContent : option str;
  isFirstUpdate : bool;
  newArtifactContent : str;
  highlightedText : option TextHighlight;
  logged : list Effect
}.

Definition set_cur_messages (v : list BaseMessage) (s : Loop) : Loop :=
  {| cur_messages := v; cur_artifact := cur_artifact s; runId := runId s;
     followupMessageId := followupMessageId s;
     newArtifactIndex := newArtifactIndex s;
     rewriteArtifactMeta := rewriteArtifactMeta s;
     generateArtifactToolCallStr := generateArtifactToolCallStr s;
     updatedArtifactStartContent := updatedArtifactStartContent s;
     updatedArtifactRestContent := updatedArtifactRestContent s;
     isFirstUpdate := isFirstUpdate s;
     newArtifactContent := newArtifactContent s;
     highlightedText := highlightedText s; logged := logged s |}.

Definition set_cur_artifact (v : option ArtifactV3) (s : Loop) : Loop :=
  {| cur_messages := cur_messages s; cur_artifact := v; runId := runId s;
     followupMessageId := followupMessageId s;
     newArtifactIndex := newArtifactIndex s;
     rewriteArtifactMeta := rewriteArtifactMeta s;
     generateArtifactToolCallStr := generateArtifactToolCallStr s;
     updatedArtifactStartContent := updatedArtifactStartContent s;
     updatedArtifactRestContent := updatedArtifactRestContent s;
     isFirstUpdate := isFirstUpdate s;
     newArtifactContent := newArtifactContent s;
     highlightedText := highlightedText s; logged := logged s |}.

Definition set_runId (v : str) (s : Loop) : Loop :=
  {| cur_messages := cur_messages s; cur_artifact := cur_artifact s;
     runId := v;
     followupMessageId := followupMessageId s;
     newArtifactIndex := newArtifactIndex s;
     rewriteArtifactMeta := rewriteArtifactMeta s;
     generateArtifactToolCallStr := generateArtifactToolCallStr s;
     updatedArtifactStartContent := updatedArtifactStartContent s;
     updatedArtifactRestContent := updatedArtifactRestContent s;
     isFirstUpdate := isFirstUpdate s;
     newArtifactContent := newArtifactContent s;
     highlightedText := highlightedText s; logged := logged s |}.

Definition set_followupMessageId (v : option str) (s : Loop) : Loop :=
  {| cur_messages := cur_messages s; cur_artifact := cur_artifact s;
     runId := runId s;
     followupMessageId := v;
     newArtifactIndex := newArtifactIndex s;
     rewriteArtifactMeta := rewriteArtifactMeta s;
     generateArtifactToolCallStr := generateArtifactToolCallStr s;
     updatedArtifactStartContent := updatedArtifactStartContent s;
     updatedArtifactRestContent := updatedArtifactRestContent s;
     isFirstUpdate := isFirstUpdate s;
     newArtifactContent := newArtifactContent s;
     highlightedText := highlightedText s; logged := logged s |}.

Definition set_newArtifactIndex (v : option Z) (s : Loop) : Loop :=
  {| cur_messages := cur_messages s; cur_artifact := cur_artifact s;
     runId := runId s;
     followupMessageId := followupMessageId s;
     newArtifactIndex := v;
     rewriteArtifactMeta := rewriteArtifactMeta s;
     generateArtifactToolCallStr := generateArtifactToolCallStr s;
     updatedArtifactStartContent := updatedArtifactStartContent s;
     updatedArtifactRestContent := updatedArtifactRestContent s;
     isFirstUpdate := isFirstUpdate s;
     newArtifactContent := newArtifactContent s;
     highlightedText := highlightedText s; logged := logged s |}.

Definition set_rewriteArtifactMeta
  (v : option RewriteArtifactMetaToolResponse) (s : Loop) : Loop :=
  {| cur_messages := cur_messages s; cur_artifact := cur_artifact s;
     runId := runId s;
     followupMessageId := followupMessageId s;
     newArtifactIndex := newArtifactIndex s;
     rewriteArtifactMeta := v;
     generateArtifactToolCallStr := generateArtifactToolCallStr s;
     updatedArtifactStartContent := updatedArtifactStartContent s;
     updatedArtifactRestContent := updatedArtifactRestContent s;
     isFirstUpdate := isFirstUpdate s;
     newArtifactContent := newArtifactContent s;
     highlightedText := highlightedText s; logged := logged s |}.

Definition set_generateArtifactToolCallStr (v : str) (s : Loop) : Loop :=
  {| cur_messages := cur_messages s; cur_artifact := cur_artifact s;
     runId := runId s;
     followupMessageId := followupMessageId s;
     newArtifactIndex := newArtifactIndex s;
     rewriteArtifactMeta := rewriteArtifactMeta s;
     generateArtifactToolCallStr := v;
     updatedArtifactStartContent := updatedArtifactStartContent s;
     updatedArtifactRestContent := updatedArtifactRestContent s;
     isFirstUpdate := isFirstUpdate s;
     newArtifactContent := newArtifactContent s;
     highlightedText := highlightedText s; logged := logged s |}.

Definition set_updatedArtifactStartContent (v : option str) (s : Loop)
  : Loop :=
  {| cur_messages := cur_messages s; cur_artifact := cur_artifact s;
     runId := runId s;
     followupMessageId := followupMessageId s;
     newArtifactIndex := newArtifactIndex s;
     rewriteArtifactMeta := rewriteArtifactMeta s;
     generateArtifactToolCallStr := generateArtifactToolCallStr s;
     updatedArtifactStartContent := v;
     updatedArtifactRestContent := updatedArtifactRestContent s;
     isFirstUpdate := isFirstUpdate s;
     newArtifactContent := newArtifactContent s;
     highlightedText := highlightedText s; logged := logged s |}.

Definition set_updatedArtifactRestContent (v : option str) (s : Loop)
  : Loop :=
  {| cur_messages := cur_messages s; cur_artifact := cur_artifact s;
     runId := runId s;
     followupMessageId := followupMessageId s;
     newArtifactIndex := newArtifactIndex s;
     rewriteArtifactMeta := rewriteArtifactMeta s;
     generateArtifactToolCallStr := generateArtifactToolCallStr s;
     updatedArtifactStartContent := updatedArtifactStartContent s;
     updatedArtifactRestContent := v;
     isFirstUpdate := isFirstUpdate s;
     newArtifactContent := newArtifactContent s;
     highlightedText := highlightedText s; logged := logged s |}.

Definition set_isFirstUpdate (v : bool) (s : Loop) : Loop :=
  {| cur_messages := cur_messages s; cur_artifact := cur_artifact s;
     runId := runId s;
     followupMessageId := followupMessageId s;
     newArtifactIndex := newArtifactIndex s;
     rewriteArtifactMeta := rewriteArtifactMeta s;
     generateArtifactToolCallStr := generateArtifactToolCallStr s;
     updatedArtifactStartContent := updatedArtifactStartContent s;
     updatedArtifactRestContent := updatedArtifactRestContent s;
     isFirstUpdate := v;
     newArtifactContent := newArtifactContent s;
     highlightedText := highlightedText s; logged := logged s |}.

Definition set_newArtifactContent (v : str) (s : Loop) : Loop :=
  {| cur_messages := cur_messages s; cur_artifact := cur_artifact s;
     runId := runId s;
     followupMessageId := followupMessageId s;
     newArtifactIndex := newArtifactIndex s;
     rewriteArtifactMeta := rewriteArtifactMeta s;
     generateArtifactToolCallStr := generateArtifactToolCallStr s;
     updatedArtifactStartContent := updatedArtifactStartContent s;
     updatedArtifactRestContent := updatedArtifactRestContent s;
     isFirstUpdate := isFirstUpdate s;
     newArtifactContent := v;
     highlightedText := highlightedText s; logged := logged s |}.

Definition set_highlightedText (v : option TextHighlight) (s : Loop)
  : Loop :=
  {| cur_messages := cur_messages s; cur_artifact := cur_artifact s;
     runId := runId s;
     followupMessageId := followupMessageId s;
     newArtifactIndex := newArtifactIndex s;
     rewriteArtifactMeta := rewriteArtifactMeta s;
     generateArtifactToolCallStr := generateArtifactToolCallStr s;
     updatedArtifactStartContent := updatedArtifactStartContent s;
     updatedArtifactRestContent := updatedArtifactRestContent s;
     isFirstUpdate := isFirstUpdate s;
     newArtifactContent := newArtifactContent s;
     highlightedText := v; logged := logged s |}.

(** Appends one effect to the log. *)
Definition report (e : Effect) (s : Loop) : Loop :=
  {| cur_messages := cur_messages s; cur_artifact := cur_artifact s;
     runId := runId s;
     followupMessageId := followupMessageId s;
     newArtifactIndex := newArtifactIndex s;
     rewriteArtifactMeta := rewriteArtifactMeta s;
     generateArtifactToolCallStr := generateArtifactToolCallStr s;
     updatedArtifactStartContent := updatedArtifactStartContent s;
     updatedArtifactRestContent := updatedArtifactRestContent s;
     isFirstUpdate := isFirstUpdate s;
     newArtifactContent := newArtifactContent s;
     highlightedText := highlightedText s; logged := logged s ++ [e] |}.

(** How a statement of the loop body ends: control falls through to the
    next statement, [continue] moves on to the next frame, [return] leaves
    [streamMessageV2]'s loop for good. *)
Inductive Ctl :=
| Go (s : Loop)
| Continue (s : Loop)
| Return (s : Loop).

Definition and_then (c : Ctl) (k : Loop -> Ctl) : Ctl :=
  match c with
  | Go s => k s
  | Continue s => Continue s
  | Return s => Return s
  end.

Notation "c >>= k" := (and_then c k) (at level 50, left associativity).

(** An exception inside the loop body is caught by the [try] around it:
    the frame is logged and the loop moves on to the next frame. *)
Definition throw (s : Loop) : Ctl :=
  Continue (report (ConsoleError "Failed to parse stream chunk") s).

Definition toast_error (description : string) (s : Loop) : Loop :=
  report (Toast "Error" description) s.

Definition name_is (f : Frame) (n : string) : bool :=
  match name f with
  | Some x => str_eqb x (lit n)
  | None => false
  end.

Definition node_is (f : Frame) (n : string) : bool :=
  str_eqb (langgraph_node f) (lit n).

Definition event_is (f : Frame) (n : string) : bool :=
  str_eqb (event f) (lit n).

(** [chunk.data.data.chunk?.[1]?.tool_call_chunks?.[0]?.args] *)
Definition payload_tool_args (f : Frame) : option str :=
  match payload f with
  | Some m => chunk_tool_args m
  | None => None
  end.

(** [chunk.data.data.chunk?.[1]?.content] *)
Definition payload_content (f : Frame) : option str :=
  match payload f with
  | Some m => chunk_content m
  | None => None
  end.

Section FrameLoop.

(** [parsePartialJson] of [@langchain/core]: [None] when it throws or
    returns a falsy value. *)
Variable parsePartialJson : str -> option ArtifactToolResponse.

(** [replaceOrInsertMessageChunk] of [./utils]. *)
Variable replaceOrInsertMessageChunk :
  list BaseMessage -> MessageChunk -> list BaseMessage.

(** What the loop closes over: the artifact as it was when
    [streamMessageV2] was called, and the parameters of the call. *)
Variable artifact : option ArtifactV3.
Variable params : GraphInput.

Definition prevCurrentContent : option ArtifactContent :=
  match artifact with
  | Some a => find (fun c => index c =? currentIndex a) (contents a)
  | None => None
  end.

(** [artifact.contents.length + 1] *)
Definition next_index (a : ArtifactV3) : Z :=
  Z.of_nat (List.length (contents a)) + 1.

(** [prev ?? artifact] in the functional updates. *)
Definition prev_or (s : Loop) (a : ArtifactV3) : ArtifactV3 :=
  match cur_artifact s with
  | Some prev => prev
  | None => a
  end.

(** [if (newArtifactIndex === undefined) newArtifactIndex = ...] *)
Definition reserve_index (a : ArtifactV3) (s : Loop) : Loop :=
  match newArtifactIndex s with
  | None => set_newArtifactIndex (Some (next_index a)) s
  | Some _ => s
  end.

(** [newArtifactIndex ?? artifact.contents.length + 1] *)
Definition index_or_next (a : ArtifactV3) (s : Loop) : Z :=
  match newArtifactIndex s with
  | Some i => i
  | None => next_index a
  end.

(** [newArtifactIndex || artifact.contents.length + 1] *)
Definition index_or_next_truthy (a : ArtifactV3) (s : Loop) : Z :=
  match newArtifactIndex s with
  | Some i => if i =? 0 then next_index a else i
  | None => next_index a
  end.

(** [if (isFirstUpdate) isFirstUpdate = false] *)
Definition clear_first_update (s : Loop) : Loop :=
  if isFirstUpdate s then set_isFirstUpdate false s else s.

(** [if (!runId && chunk.data?.metadata?.run_id) runId = ...] *)
Definition capture_run_id (f : Frame) (s : Loop) : Loop :=
  if negb (truthy (runId s)) && truthy_opt (run_id f)
  then set_runId (to_text (run_id f)) s
  else s.

Definition on_chain_start (f : Frame) (s : Loop) : Ctl :=
  if event_is f "on_chain_start" && node_is f "updateHighlightedText"
  then Go (set_highlightedText (input_highlightedText f) s)
  else Go s.

(** Nodes [generateFollowup] and [respondToQuery]. *)
Definition on_followup (f : Frame) (s : Loop) : Ctl :=
  if node_is f "generateFollowup" || node_is f "respondToQuery" then
    match payload f with
    | None => throw s
    | Some message =>
        let s1 :=
          if negb (truthy_opt (followupMessageId s))
          then set_followupMessageId (chunk_id message) s
          else s in
        Go (set_cur_messages
              (replaceOrInsertMessageChunk (cur_messages s1) message) s1)
    end
  else Go s.

(** Node [generateArtifact]. *)
Definition on_generateArtifact (f : Frame) (s : Loop) : Ctl :=
  if node_is f "generateArtifact" then
    let s1 :=
      set_generateArtifactToolCallStr
        (generateArtifactToolCallStr s ++ to_text (payload_tool_args f)) s in
    match parsePartialJson (generateArtifactToolCallStr s1) with
    | None => Continue s1
    | Some parsed =>
        let newArtifactText :=
          {| tr_artifact := tr_artifact parsed;
             tr_title := Some (to_text_or_empty (tr_title parsed));
             tr_language := tr_language parsed;
             tr_type := Some (to_text_or_empty (tr_type parsed)) |} in
        let ty := to_text_or_empty (tr_type newArtifactText) in
        if truthy_opt (tr_artifact newArtifactText)
           && (str_eqb ty (lit "text")
               || str_eqb ty (lit "code")
                  && truthy_opt (tr_language newArtifactText))
        then
          Go (set_cur_artifact
                match createNewGeneratedArtifactFromTool newArtifactText with
                | None => None
                | Some content =>
                    Some {| currentIndex := 1; contents := [content] |}
                end s1)
        else Go s1
    end
  else Go s.

(** Node [updateHighlightedText]. *)
Definition on_updateHighlightedText (f : Frame) (s : Loop) : Ctl :=
  if node_is f "updateHighlightedText" then
    match payload f with
    | None => throw s
    | Some message =>
    match artifact with
    | None =>
        Continue
          (report
             (ConsoleError
                "No artifacts found when updating highlighted markdown...")
             s)
    | Some art =>
    match highlightedText s with
    | None => Continue (toast_error "No highlighted text found" s)
    | Some hl =>
    match prevCurrentContent with
    | None => Return (toast_error "Original artifact not found" s)
    | Some (Code _) =>
        Return (toast_error "Received non markdown block update" s)
    | Some (Markdown prevMarkdown) =>
        if negb (truthy_opt (chunk_content message)) then Continue s
        else
          let partialUpdatedContent := to_text (chunk_content message) in
          let startIndexOfHighlightedText :=
            indexOf (th_fullMarkdown hl) (th_markdownBlock hl) in
          let s1 :=
            match updatedArtifactStartContent s,
                  updatedArtifactRestContent s with
            | None, None =>
                set_updatedArtifactRestContent
                  (Some (slice_from (th_fullMarkdown hl)
                           (startIndexOfHighlightedText
                            + len (th_markdownBlock hl))))
                  (set_updatedArtifactStartContent
                     (Some (slice (th_fullMarkdown hl) 0
                              startIndexOfHighlightedText)) s)
            | _, _ => s
            end in
          let s2 :=
            match updatedArtifactStartContent s1,
                  updatedArtifactRestContent s1 with
            | Some start, Some _ =>
                set_updatedArtifactStartContent
                  (Some (start ++ partialUpdatedContent)) s1
            | _, _ => s1
            end in
          let s3 := reserve_index art s2 in
          let s4 :=
            set_cur_artifact
              (Some (updateHighlightedMarkdown (prev_or s3 art)
                       (to_text (updatedArtifactStartContent s3)
                        ++ to_text (updatedArtifactRestContent s3))
                       (index_or_next art s3) prevMarkdown
                       (isFirstUpdate s3))) s3 in
          Go (clear_first_update s4)
    end end end end
  else Go s.

(** Node [updateArtifact]. *)
Definition on_updateArtifact (f : Frame) (s : Loop) : Ctl :=
  if node_is f "updateArtifact" then
    match artifact with
    | None => Return (toast_error "Original artifact not found" s)
    | Some art =>
    match highlighted params with
    | None => Return (toast_error "No highlighted text found" s)
    | Some range =>
        let s1 := reserve_index art s in
        if negb (truthy_opt (payload_content f)) then Return s1
        else
          let partialUpdatedContent := to_text (payload_content f) in
          match prevCurrentContent with
          | None => Return (toast_error "Original artifact not found" s1)
          | Some (Markdown _) =>
              Return (toast_error "Received non code block update" s1)
          | Some (Code prevCode) =>
              let s2 :=
                match updatedArtifactStartContent s1,
                      updatedArtifactRestContent s1 with
                | None, None =>
                    set_updatedArtifactRestContent
                      (Some (slice_from (code prevCode)
                               (endCharIndex range)))
                      (set_updatedArtifactStartContent
                         (Some (slice (code prevCode) 0
                                  (startCharIndex range))) s1)
                | _, _ =>
                    set_updatedArtifactStartContent
                      (Some (to_text (updatedArtifactStartContent s1)
                             ++ partialUpdatedContent)) s1
                end in
              let s3 :=
                set_cur_artifact
                  (Some (updateHighlightedCode (prev_or s2 art)
                           (removeCodeBlockFormatting
                              (to_text (updatedArtifactStartContent s2)
                               ++ to_text (updatedArtifactRestContent s2)))
                           (index_or_next art s2) prevCode
                           (isFirstUpdate s2))) s2 in
              Go (clear_first_update s3)
          end
    end end
  else Go s.

(** The language of a rewritten artifact (node [rewriteArtifact]). *)
Definition resolveArtifactLanguage
  (meta : RewriteArtifactMetaToolResponse) : str :=
  let artifactLanguage :=
    if truthy_opt (portLanguage params) then portLanguage params
    else None in
  if negb (truthy_opt artifactLanguage)
     && str_eqb (meta_type meta) (lit "code")
     && truthy_opt (programmingLanguage meta)
  then to_text (programmingLanguage meta)
  else if negb (truthy_opt artifactLanguage) then
    match prevCurrentContent with
    | Some prev => title prev
    | None => lit "other"
    end
  else to_text artifactLanguage.

(** Node [rewriteArtifact], model call [rewrite_artifact_model_call]. *)
Definition on_rewriteArtifact (f : Frame) (s : Loop) : Ctl :=
  match rewriteArtifactMeta s with
  | Some meta =>
      if node_is f "rewriteArtifact"
         && name_is f "rewrite_artifact_model_call" then
        match artifact with
        | None => Return (toast_error "Original artifact not found" s)
        | Some art =>
            let s1 :=
              set_newArtifactContent
                (newArtifactContent s
                 ++ to_text_or_empty (payload_content f)) s in
            let artifactLanguage := resolveArtifactLanguage meta in
            let s2 := reserve_index art s1 in
            let content :=
              if str_eqb (meta_type meta) (lit "code")
              then removeCodeBlockFormatting (newArtifactContent s2)
              else newArtifactContent s2 in
            let s3 :=
              set_cur_artifact
                (Some (updateRewrittenArtifact (prev_or s2 art) content meta
                         (index_or_next_truthy art s2) (isFirstUpdate s2)
                         artifactLanguage)) s2 in
            Go (clear_first_update s3)
        end
      else Go s
  | None => Go s
  end.

(** Nodes [rewriteArtifactTheme], [rewriteCodeArtifactTheme] and
    [customAction]. *)
Definition on_rewriteTheme (f : Frame) (s : Loop) : Ctl :=
  if node_is f "rewriteArtifactTheme"
     || node_is f "rewriteCodeArtifactTheme"
     || node_is f "customAction" then
    match artifact with
    | None => Return (toast_error "Original artifact not found" s)
    | Some art =>
    match prevCurrentContent with
    | None => Return (toast_error "Original artifact not found" s)
    | Some prev =>
        let s1 :=
          set_newArtifactContent
            (newArtifactContent s
             ++ to_text_or_empty (payload_content f)) s in
        let artifactLanguage :=
          if truthy_opt (portLanguage params)
          then to_text (portLanguage params)
          else match prev with
               | Code c => language c
               | Markdown _ => lit "other"
               end in
        let s2 := reserve_index art s1 in
        let artifactType :=
          if node_is f "rewriteCodeArtifactTheme" then lit "code"
          else if node_is f "rewriteArtifactTheme" then lit "text"
          else type prev in
        let content :=
          if str_eqb artifactType (lit "code")
          then removeCodeBlockFormatting (newArtifactContent s2)
          else newArtifactContent s2 in
        let s3 :=
          set_cur_artifact
            (Some (updateRewrittenArtifact (prev_or s2 art) content
                     {| meta_type := artifactType;
                        meta_title := title prev;
                        programmingLanguage := Some artifactLanguage |}
                     (index_or_next_truthy art s2) (isFirstUpdate s2)
                     artifactLanguage)) s2 in
        Go (clear_first_update s3)
    end end
  else Go s.

Definition on_chat_model_stream (f : Frame) (s : Loop) : Ctl :=
  if event_is f "on_chat_model_stream" then
    on_followup f s
    >>= on_generateArtifact f
    >>= on_updateHighlightedText f
    >>= on_updateArtifact f
    >>= on_rewriteArtifact f
    >>= on_rewriteTheme f
  else Go s.

Definition on_chat_model_end (f : Frame) (s : Loop) : Ctl :=
  if event_is f "on_chat_model_end"
     && node_is f "rewriteArtifact"
     && name_is f "optionally_update_artifact_meta" then
    match output_args f with
    | None => throw s
    | Some args => Go (set_rewriteArtifactMeta (Some args) s)
    end
  else Go s.

(** The body of the [for await] loop, for one frame. *)
Definition step (f : Frame) (s : Loop) : Ctl :=
  Go (capture_run_id f s)
  >>= on_chain_start f
  >>= on_chat_model_stream f
  >>= on_chat_model_end f.

(** The loop over the frames the transport yields: [Go] when the frames
    are exhausted, [Return] when a frame left the function. *)
Fixpoint run_frames (frames : list Frame) (s : Loop) : Ctl :=
  match frames with
  | [] => Go s
  | f :: rest =>
      match step f s with
      | Go s' | Continue s' => run_frames rest s'
      | Return s' => Return s'
      end
  end.

End FrameLoop.

(** The state a statement or a loop ends in. *)
Definition final_state (c : Ctl) : Loop :=
  match c with
  | Go s | Continue s | Return s => s
  end.

(** A frame of the event [on_chat_model_stream] from the given node. *)
Definition StreamFrame (node : string) (f : Frame) : Prop :=
  event f = lit "on_chat_model_stream" /\ langgraph_node f = lit node.

(** An incremental delta of the given node with the non-empty content
    [d]. *)
Definition Delta (node : string) (d : str) (f : Frame) : Prop :=
  StreamFrame node f /\ payload_content f = Some d /\ d <> [].

(** The snapshot an artifact holds last: the one in flight once a
    snapshot has been written during the fold. *)
Definition last_snapshot (a : ArtifactV3) : option ArtifactContent :=
  hd_error (rev (contents a)).

(** The text a snapshot carries. *)
Definition content_text (a : ArtifactContent) : str :=
  match a with Markdown m => fullMarkdown m | Code c => code c end.

(** What rule 4 of section 4.3 asks of a parsed tool call: a content
    payload, a resolvable type and, for code, a resolvable language. *)
Definition complete (r : ArtifactToolResponse) : bool :=
  truthy_opt (tr_artifact r)
  && (opt_is (tr_type r) "text"
      || opt_is (tr_type r) "code" && truthy_opt (tr_language r)).

(** A string that is present and not empty. *)
Definition present (o : option str) : option str :=
  match o with
  | Some (x :: r) => Some (x :: r)
  | _ => None
  end.

(** The precedence of rule 8 of section 4.3: the explicit override, then
    the programming language the rewrite metadata declares (for code
    only), then the previous snapshot's title, then the generic
    fallback. *)
Definition language_by_precedence (override : option str)
  (meta : RewriteArtifactMetaToolResponse)
  (previous : option ArtifactContent) : str :=
  match present override with
  | Some l => l
  | None =>
      match (if str_eqb (meta_type meta) (lit "code")
             then present (programmingLanguage meta) else None) with
      | Some l => l
      | None =>
          match previous with
          | Some prev => title prev
          | None => lit "other"
          end
      end
  end.

(** The parts of the loop state the reserved index is about are the same
    in [s] and [s']. *)
Definition same_version (s s' : Loop) : Prop :=
  newArtifactIndex s' = newArtifactIndex s
  /\ cur_artifact s' = cur_artifact s
  /\ isFirstUpdate s' = isFirstUpdate s.

(** The state of the reserved index in a fold that started from the
    artifact [art]: the index is the length before the fold plus one; until
    the first write the artifact is [art], and afterwards it has exactly
    one snapshot more, the last one, at the reserved index. *)
Definition Reserved (art : ArtifactV3) (s : Loop) : Prop :=
  newArtifactIndex s = Some (next_index art)
  /\ exists a',
       cur_artifact s = Some a'
       /\ if isFirstUpdate s then a' = art
          else List.length (contents a') = S (List.length (contents art))
               /\ currentIndex a' = next_index art
               /\ exists c,
                    last_snapshot a' = Some c /\ index c = next_index art.

(** A frame that generates a new artifact: it replaces the document. *)
Definition generates (f : Frame) : bool :=
  event_is f "on_chat_model_stream" && node_is f "generateArtifact".


(* ================================================================== *)
(** * The hook's operations *)
(* ================================================================== *)

(** The stream variables as [streamMessageV2] declares them. *)
Definition initial_loop (hook : Hook) : Loop :=
  {| cur_messages := messages hook;
     cur_artifact := artifact hook;
     runId := [];
     followupMessageId := Some [];
     newArtifactIndex :=
       match artifact hook with
       | Some a => Some (next_index a)
       | None => None
       end;
     rewriteArtifactMeta := None;
     generateArtifactToolCallStr := [];
     updatedArtifactStartContent := None;
     updatedArtifactRestContent := None;
     isFirstUpdate := true;
     newArtifactContent := [];
     highlightedText := None;
     logged := [] |}.

Definition notify (e : Effect) (hook : Hook) : Hook :=
  {| messages := messages hook;
     artifact := artifact hook;
     selectedBlocks := selectedBlocks hook;
     isStreaming := isStreaming hook;
     effects := effects hook ++ [e] |}.

(** The hook once the loop is left: the [finally] clause has cleared the
    streaming flag. *)
Definition settle (hook : Hook) (s : Loop) (after : list Effect) : Hook :=
  {| messages := cur_messages s;
     artifact := cur_artifact s;
     selectedBlocks := selectedBlocks hook;
     isStreaming := false;
     effects := effects hook ++ [StreamOpened] ++ logged s ++ after |}.

(** [streamMessageV2 params], on the frames the transport yields before it
    ends or fails ([transport_fails]).  A [return] inside the loop leaves
    the function, so the run is not shared then. *)
Definition streamMessageV2
  (parsePartialJson : str -> option ArtifactToolResponse)
  (replaceOrInsertMessageChunk :
     list BaseMessage -> MessageChunk -> list BaseMessage)
  (useGraphInput : UseGraphInput) (params : GraphInput)
  (frames : list Frame) (transport_fails : bool) (hook : Hook) : Hook :=
  if negb (truthy_opt (threadId useGraphInput)) then
    notify (Toast "Error" "Thread ID not found") hook
  else if negb (truthy_opt (assistantId useGraphInput)) then
    notify (Toast "Error" "Assistant ID not found") hook
  else
    match run_frames parsePartialJson replaceOrInsertMessageChunk
            (artifact hook) params frames (initial_loop hook) with
    | Return s => settle hook s []
    | Go s | Continue s =>
        settle hook s
          ((if transport_fails
            then [ConsoleError "Failed to stream message"] else [])
           ++ (if truthy (runId s) then [ShareRun (runId s)] else []))
    end.

Definition opt_str_eqb (a b : option str) : bool :=
  match a, b with
  | Some x, Some y => str_eqb x y
  | None, None => true
  | _, _ => false
  end.

(** [tool_calls?.find((tc) => tc.name === "langsmith_tool_ui")], as a
    truth value. *)
Definition has_tool_ui (msg : BaseMessage) : bool :=
  match tool_calls msg with
  | Some calls =>
      existsb (fun tc => str_eqb (tc_name tc) (lit "langsmith_tool_ui")) calls
  | None => false
  end.

(** [url?.split("https://smith.langchain.com/public/")[1].split("/")[0]]:
    [None] when the evaluation throws (the URL has no such prefix). *)
Definition shared_run_id (url : option str) : option (option str) :=
  match url with
  | None => Some None
  | Some u =>
      match split_1 u (lit "https://smith.langchain.com/public/") with
      | None => None
      | Some segment => Some (Some (split_0 segment [slash]))
      end
  end.

Definition with_tool_calls (calls : option (list ToolCall))
  (msg : BaseMessage) : BaseMessage :=
  {| msg_id := msg_id msg;
     msg_content := msg_content msg;
     tool_calls := calls;
     langSmithRunURL := langSmithRunURL msg |}.

Definition tool_ui_call (url id : option str) : ToolCall :=
  {| tc_name := lit "langsmith_tool_ui";
     tc_args := SharedRunArgs url;
     tc_id := id |}.

(** The update of [messages] once the run is shared: [None] when the
    update throws. *)
Fixpoint onRunShared (followupMessageId sharedRunURL : option str)
  (prevMessages : list BaseMessage) : option (list BaseMessage) :=
  match prevMessages with
  | [] => Some []
  | msg :: rest =>
      let first :=
        if opt_str_eqb (msg_id msg) followupMessageId
           && negb (has_tool_ui msg) then
          match shared_run_id sharedRunURL with
          | None => None
          | Some id =>
              let toolCall := tool_ui_call sharedRunURL id in
              Some (with_tool_calls
                      (match tool_calls msg with
                       | Some calls => Some (calls ++ [toolCall])
                       | None => Some [toolCall]
                       end) msg)
          end
        else Some msg in
      match first, onRunShared followupMessageId sharedRunURL rest with
      | Some m, Some ms => Some (m :: ms)
      | _, _ => None
      end
  end.

Section Setters.

(** [reverseCleanContent] of [@/lib/normalize_string]. *)
Variable reverseCleanContent : str -> str.

Definition setArtifactContent (idx : Z) (content : str) (hook : Hook)
  : Hook :=
  match artifact hook with
  | None =>
      {| messages := messages hook;
         artifact := None;
         selectedBlocks := selectedBlocks hook;
         isStreaming := false;
         effects := effects hook ++ [Toast "Error" "No artifact found"] |}
  | Some prev =>
      {| messages := messages hook;
         artifact :=
           Some {| currentIndex := idx;
                   contents :=
                     map (fun a =>
                            if (index a =? idx)
                               && str_eqb (type a) (lit "code") then
                              match a with
                              | Code c =>
                                  Code {| code_index := code_index c;
                                          code_title := code_title c;
                                          language := language c;
                                          code := reverseCleanContent content |}
                              | Markdown _ => a
                              end
                            else a)
                         (contents prev) |};
         selectedBlocks := selectedBlocks hook;
         isStreaming := false;
         effects := effects hook |}
  end.

End Setters.

Section Threads.

(** The deprecated artifact shape and [convertToArtifactV3] of [./utils]. *)
Variable DeprecatedArtifact : Type.
Variable convertToArtifactV3 : DeprecatedArtifact -> ArtifactV3.

(** A persisted artifact; [isDeprecatedArtifactType] tells the shapes
    apart. *)
Inductive PersistedArtifact :=
| Deprecated (a : DeprecatedArtifact)
| Current (a : ArtifactV3).

(** The thread object, as far as [switchSelectedThread] reads it. *)
Record Thread := {
  thread_id : str;
  values_artifact : option PersistedArtifact;
  values_messages : option (list BaseMessage)
}.

(** The body of the [map] callback.  It mutates the persisted record: the
    result is the record after the call, and whether the call threw. *)
Definition attach_shared_run (msg : BaseMessage) : BaseMessage * bool :=
  if truthy_opt (langSmithRunURL msg) then
    let calls :=
      match tool_calls msg with
      | Some l => l
      | None => []
      end in
    match shared_run_id (langSmithRunURL msg) with
    | None => (with_tool_calls (Some calls) msg, true)
    | Some id =>
        (with_tool_calls
           (Some (calls ++ [tool_ui_call (langSmithRunURL msg) id])) msg,
         false)
    end
  else (msg, false).

(** [castValues.messages.map(...)]: the records after the traversal, and
    whether it threw (the records behind the throwing one are not
    visited). *)
Fixpoint attach_all (msgs : list BaseMessage) : list BaseMessage * bool :=
  match msgs with
  | [] => ([], false)
  | msg :: rest =>
      match attach_shared_run msg with
      | (msg', true) => (msg' :: rest, true)
      | (msg', false) =>
          let (rest', threw) := attach_all rest in
          (msg' :: rest', threw)
      end
  end.

(** The outcome of [switchSelectedThread]: the hook, the thread object
    (whose message records the call mutates in place), and whether the
    call threw. *)
Record Switched := {
  hook_after : Hook;
  thread_after : Thread;
  threw : bool
}.

Definition switchSelectedThread (thread : Thread) (hook : Hook)
  : Switched :=
  let castArtifact :=
    match values_artifact thread with
    | Some (Deprecated a) => Some (convertToArtifactV3 a)
    | Some (Current a) => Some a
    | None => None
    end in
  let announced :=
    effects hook ++ [SetThreadId (thread_id thread);
                     SetCookie (thread_id thread)] in
  match values_messages thread with
  | None | Some [] =>
      {| hook_after :=
           {| messages := [];
              artifact := castArtifact;
              selectedBlocks := selectedBlocks hook;
              isStreaming := isStreaming hook;
              effects := announced |};
         thread_after := thread;
         threw := false |}
  | Some msgs =>
      let (msgs', failed) := attach_all msgs in
      {| hook_after :=
           {| messages := if failed then messages hook else msgs';
              artifact := castArtifact;
              selectedBlocks := selectedBlocks hook;
              isStreaming := isStreaming hook;
              effects := announced |};
         thread_after :=
           {| thread_id := thread_id thread;
              values_artifact := values_artifact thread;
              values_messages := Some msgs' |};
         threw := failed |}
  end.

End Threads.

Arguments thread_id {DeprecatedArtifact} _.
Arguments values_artifact {DeprecatedArtifact} _.
Arguments values_messages {DeprecatedArtifact} _.
Arguments hook_after {DeprecatedArtifact} _.
Arguments thread_after {DeprecatedArtifact} _.
Arguments threw {DeprecatedArtifact} _.
Arguments switchSelectedThread {DeprecatedArtifact} _ _ _.

(* ================================================================== *)
(** * Notions used by the statements *)
(* ================================================================== *)

(** The unchanged text before and after the highlighted block. *)
Definition text_prefix (hl : TextHighlight) : str :=
  slice (th_fullMarkdown hl) 0
    (indexOf (th_fullMarkdown hl) (th_markdownBlock hl)).

Definition text_suffix (hl : TextHighlight) : str :=
  slice_from (th_fullMarkdown hl)
    (indexOf (th_fullMarkdown hl) (th_markdownBlock hl)
     + len (th_markdownBlock hl)).

(** The span a delta works on: the one in the state, or the one the first
    valid delta computes. *)
Definition span_before (hl : TextHighlight) (s : Loop) : str * str :=
  match updatedArtifactStartContent s, updatedArtifactRestContent s with
  | Some p, Some r => (p, r)
  | _, _ => (text_prefix hl, text_suffix hl)
  end.

(** The snapshot [setArtifactContent] rewrites: a code snapshot at the
    given index. *)
Definition targeted (idx : Z) (a : ArtifactContent) : bool :=
  (index a =? idx) && isArtifactCodeContent a.

(* ================================================================== *)
(** * The inputs of the scenarios *)
(* ================================================================== *)

(** A parser that never yields a value, and a message folder that leaves
    the list alone: the frames of the scenarios below reach neither. *)
Definition no_parse (buffer : str) : option ArtifactToolResponse := None.

Definition keep_messages (l : list BaseMessage) (m : MessageChunk)
  : list BaseMessage := l.

(** A stream frame that only carries a content delta. *)
Definition content_delta (node : string) (d : str) : Frame :=
  {| event := lit "on_chat_model_stream";
     name := None;
     run_id := None;
     langgraph_node := lit node;
     input_highlightedText := None;
     payload := Some {| chunk_id := None;
                        chunk_content := Some d;
                        chunk_tool_args := None |};
     output_args := None |}.

Definition session : UseGraphInput :=
  {| userId := lit "user";
     threadId := Some (lit "thread");
     assistantId := Some (lit "assistant") |}.

(** The code document ["abc123xyz"], one snapshot at index 1. *)
Definition abc123xyz : ArtifactCodeV3 :=
  {| code_index := 1;
     code_title := lit "snippet";
     language := lit "javascript";
     code := lit "abc123xyz" |}.

Definition code_hook : Hook :=
  {| messages := [];
     artifact := Some {| currentIndex := 1; contents := [Code abc123xyz] |};
     selectedBlocks := None;
     isStreaming := false;
     effects := [] |}.

Definition range_3_6 : GraphInput :=
  {| highlighted := Some {| startCharIndex := 3; endCharIndex := 6 |};
     portLanguage := None |}.

(** The code of the snapshot an artifact holds last. *)
Definition last_code (h : Hook) : option str :=
  match artifact h with
  | Some a =>
      match last_snapshot a with
      | Some (Code c) => Some (code c)
      | _ => None
      end
  | None => None
  end.

(** The text document of the specification's scenario, and the start
    frame that captures the highlighted block. *)
Definition title_hello : ArtifactMarkdownV3 :=
  {| md_index := 1;
     md_title := lit "note";
     fullMarkdown := lit "## Title" ++ [LF; LF] ++ lit "Hello world" |}.

Definition text_hook : Hook :=
  {| messages := [];
     artifact :=
       Some {| currentIndex := 1; contents := [Markdown title_hello] |};
     selectedBlocks := None;
     isStreaming := false;
     effects := [] |}.

Definition hello_world : TextHighlight :=
  {| th_fullMarkdown := lit "## Title" ++ [LF; LF] ++ lit "Hello world";
     th_markdownBlock := lit "Hello world" |}.

Definition capture_highlight (hl : TextHighlight) : Frame :=
  {| event := lit "on_chain_start";
     name := None;
     run_id := Some (lit "run-1");
     langgraph_node := lit "updateHighlightedText";
     input_highlightedText := Some hl;
     payload := None;
     output_args := None |}.

Definition no_range : GraphInput :=
  {| highlighted := None; portLanguage := None |}.

Definition quote : char := 34%N.

(** The tool call of the specification's scenario, and its three
    fragments. *)
Definition fragment_1 : str :=
  lit "{" ++ [quote] ++ lit "artifact" ++ [quote] ++ lit ":" ++ [quote]
  ++ lit "function add(".

Definition fragment_2 : str :=
  lit "a,b){" ++ [quote] ++ lit "," ++ [quote] ++ lit "type" ++ [quote]
  ++ lit ":" ++ [quote] ++ lit "code" ++ [quote] ++ lit ",".

Definition fragment_3 : str :=
  [quote] ++ lit "language" ++ [quote] ++ lit ":" ++ [quote]
  ++ lit "javascript" ++ [quote] ++ lit "}".

(** A stand-in for the parser on the buffers of this tool call: the text
    of the artifact alone after the first fragment, with its type after the
    second one, and the whole value after the third one. *)
Definition parse_add (buffer : str) : option ArtifactToolResponse :=
  if str_eqb buffer fragment_1 then
    Some {| tr_artifact := Some (lit "function add(");
            tr_title := None; tr_language := None; tr_type := None |}
  else if str_eqb buffer (fragment_1 ++ fragment_2) then
    Some {| tr_artifact := Some (lit "function add(a,b){");
            tr_title := None; tr_language := None;
            tr_type := Some (lit "code") |}
  else if str_eqb buffer (fragment_1 ++ fragment_2 ++ fragment_3) then
    Some {| tr_artifact := Some (lit "function add(a,b){");
            tr_title := None;
            tr_language := Some (lit "javascript");
            tr_type := Some (lit "code") |}
  else None.

Definition tool_call_delta (args : str) : Frame :=
  {| event := lit "on_chat_model_stream";
     name := None;
     run_id := None;
     langgraph_node := lit "generateArtifact";
     input_highlightedText := None;
     payload := Some {| chunk_id := None;
                        chunk_content := None;
                        chunk_tool_args := Some args |};
     output_args := None |}.

Definition empty_hook : Hook :=
  {| messages := [];
     artifact := None;
     selectedBlocks := None;
     isStreaming := false;
     effects := [] |}.

(** The loop state after the first two fragments. *)
Definition after_two_fragments : Loop :=
  final_state
    (run_frames parse_add keep_messages None no_range
       [tool_call_delta fragment_1; tool_call_delta fragment_2]
       (initial_loop empty_hook)).

(** The loop state of a fold over [hook] once the highlight [hl] is
    captured. *)
Definition with_highlight (hl : TextHighlight) (hook : Hook) : Loop :=
  set_highlightedText (Some hl) (initial_loop hook).

Definition rewrite_delta (d : str) : Frame :=
  {| event := lit "on_chat_model_stream";
     name := Some (lit "rewrite_artifact_model_call");
     run_id := None;
     langgraph_node := lit "rewriteArtifact";
     input_highlightedText := None;
     payload := Some {| chunk_id := None;
                        chunk_content := Some d;
                        chunk_tool_args := None |};
     output_args := None |}.

Definition python_meta : RewriteArtifactMetaToolResponse :=
  {| meta_type := lit "code";
     meta_title := lit "snippet";
     programmingLanguage := Some (lit "python") |}.

Definition no_thread : UseGraphInput :=
  {| userId := lit "user";
     threadId := None;
     assistantId := Some (lit "assistant") |}.

Definition shared_url : str :=
  lit "https://smith.langchain.com/public/abc123/r".

Definition plain_message : BaseMessage :=
  {| msg_id := Some (lit "m1");
     msg_content := lit "Hello";
     tool_calls := None;
     langSmithRunURL := Some shared_url |}.

(** The message with its annotation, as the fold's own share-run update
    leaves it. *)
Definition annotated_message : BaseMessage :=
  with_tool_calls
    (Some [tool_ui_call (Some shared_url) (Some (lit "abc123"))])
    plain_message.

Definition doubly_annotated_message : BaseMessage :=
  with_tool_calls
    (Some [tool_ui_call (Some shared_url) (Some (lit "abc123"));
           tool_ui_call (Some shared_url) (Some (lit "abc123"))])
    plain_message.

Definition thread_of (msgs : list BaseMessage) : Thread unit :=
  {| thread_id := lit "thread-1";
     values_artifact := None;
     values_messages := Some msgs |}.

Definition as_current (legacy : unit) : ArtifactV3 :=
  {| currentIndex := 1; contents := [] |}.

(** A highlighted-text delta that meets the code document, with a theme
    delta behind it; and the same fold without the text delta. *)
Definition text_delta_on_code : Hook :=
  streamMessageV2 no_parse keep_messages session no_range
    [capture_highlight hello_world;
     content_delta "updateHighlightedText" (lit "Hi");
     content_delta "rewriteArtifactTheme" (lit "Z")] false code_hook.

Definition theme_delta_on_code : Hook :=
  streamMessageV2 no_parse keep_messages session no_range
    [capture_highlight hello_world;
     content_delta "rewriteArtifactTheme" (lit "Z")] false code_hook.



(** The code document after [setArtifactContent 1 "abcXYZ"], with the
    identity for [reverseCleanContent]. *)
Definition edited_code_hook : Hook :=
  setArtifactContent (fun c => c) 1 (lit "abcXYZ") code_hook.

(** A fold requested without a thread id. *)
Definition fold_without_thread : Hook :=
  streamMessageV2 no_parse keep_messages no_thread range_3_6
    [content_delta "updateArtifact" (lit "XXX")] false code_hook.

(** Selecting a thread whose message is not annotated yet. *)
Definition first_switch : Switched unit :=
  switchSelectedThread as_current (thread_of [plain_message]) empty_hook.

(** A message whose shared-run URL lacks the public prefix. *)
Definition foreign_message : BaseMessage :=
  {| msg_id := Some (lit "m2");
     msg_content := lit "Hi";
     tool_calls := None;
     langSmithRunURL := Some (lit "https://example.com/r/abc123") |}.


(* ================================================================== *)
(** * Further operations of the hook *)
(* ================================================================== *)

(** What one fold never takes back, from a loop state [s] to a later one
    [s']: a captured run id, a captured followup message id, the reserved
    index, the unchanged suffix of a span edit are frozen; the accumulated
    tool-call string, the prefix of a span edit, the rewritten content and
    the log only grow at their end; the first-update flag, once cleared,
    stays cleared. *)
Definition advances (s s' : Loop) : Prop :=
  (truthy (runId s) = true -> runId s' = runId s)
  /\ (truthy_opt (followupMessageId s) = true ->
      followupMessageId s' = followupMessageId s)
  /\ (forall i, newArtifactIndex s = Some i -> newArtifactIndex s' = Some i)
  /\ (exists x,
        generateArtifactToolCallStr s' = generateArtifactToolCallStr s ++ x)
  /\ (forall p,
        updatedArtifactStartContent s = Some p ->
        exists x, updatedArtifactStartContent s' = Some (p ++ x))
  /\ (forall r,
        updatedArtifactRestContent s = Some r ->
        updatedArtifactRestContent s' = Some r)
  /\ (isFirstUpdate s = false -> isFirstUpdate s' = false)
  /\ (exists x, newArtifactContent s' = newArtifactContent s ++ x)
  /\ (exists l, logged s' = logged s ++ l).

(** The nodes whose stream frames the loop handles. *)
Definition known_node (f : Frame) : bool :=
  node_is f "generateFollowup" || node_is f "respondToQuery"
  || node_is f "generateArtifact" || node_is f "updateHighlightedText"
  || node_is f "updateArtifact" || node_is f "rewriteArtifact"
  || node_is f "rewriteArtifactTheme"
  || node_is f "rewriteCodeArtifactTheme" || node_is f "customAction".

(** [chunk.data.data.chunk?.[1]?.content || ""] *)
Definition content_or_empty (f : Frame) : str :=
  to_text_or_empty (payload_content f).

(** The language of a theme rewrite or a custom action: the override when
    present, else the language of the previous snapshot when it is code,
    else ["other"]. *)
Definition theme_language (params : GraphInput) (prev : ArtifactContent)
  : str :=
  match present (portLanguage params) with
  | Some l => l
  | None =>
      match prev with
      | Code c => language c
      | Markdown _ => lit "other"
      end
  end.

(** A delta of the rewrite model call. *)
Definition RewriteDelta (f : Frame) : Prop :=
  StreamFrame "rewriteArtifact" f
  /\ name f = Some (lit "rewrite_artifact_model_call").

(** [clearState] *)
Definition clearState (hook : Hook) : Hook :=
  {| messages := [];
     artifact := None;
     selectedBlocks := selectedBlocks hook;
     isStreaming := isStreaming hook;
     effects := effects hook |}.

(** [setSelectedArtifact index] *)
Definition setSelectedArtifact (idx : Z) (hook : Hook) : Hook :=
  match artifact hook with
  | None =>
      {| messages := messages hook;
         artifact := None;
         selectedBlocks := selectedBlocks hook;
         isStreaming := false;
         effects := effects hook ++ [Toast "Error" "No artifactV2 found"] |}
  | Some prev =>
      {| messages := messages hook;
         artifact :=
           Some {| currentIndex := idx; contents := contents prev |};
         selectedBlocks := selectedBlocks hook;
         isStreaming := false;
         effects := effects hook |}
  end.

(** The prefix of the URL of a shared run. *)
Definition public_prefix : str :=
  lit "https://smith.langchain.com/public/".

(** The tool calls of a message, none when the field is undefined. *)
Definition calls_of (msg : BaseMessage) : list ToolCall :=
  match tool_calls msg with
  | Some l => l
  | None => []
  end.

(** An effect that reports an error: a notification or a console
    error. *)
Definition is_report (e : Effect) : bool :=
  match e with
  | Toast _ _ | ConsoleError _ => true
  | _ => false
  end.

(** The artifact of a thread as [switchSelectedThread] stores it: a
    deprecated one is converted, a current one is taken as it is. *)
Definition castArtifact {DeprecatedArtifact : Type}
  (convertToArtifactV3 : DeprecatedArtifact -> ArtifactV3)
  (thread : Thread DeprecatedArtifact) : option ArtifactV3 :=
  match values_artifact thread with
  | Some (Deprecated _ a) => Some (convertToArtifactV3 a)
  | Some (Current _ a) => Some a
  | None => None
  end.

(** From a loop state [s] to a later one [s'], the log has only grown,
    and by error reports only. *)
Definition reports_only (s s' : Loop) : Prop :=
  exists l, logged s' = logged s ++ l /\ forallb is_report l = true.

(** A message that carries no shared-run URL. *)
Definition local_message : BaseMessage :=
  {| msg_id := Some (lit "m3");
     msg_content := lit "Thanks";
     tool_calls := None;
     langSmithRunURL := None |}.

(** The artifact of [code_hook], and the range of [range_3_6]. *)
Definition code_artifact : ArtifactV3 :=
  {| currentIndex := 1; contents := [Code abc123xyz] |}.

Definition span_3_6 : Highlight :=
  {| startCharIndex := 3; endCharIndex := 6 |}.

(** A stream frame of a node the loop does not handle. *)
Definition stray_delta : Frame := content_delta "summarizer" (lit "x").


(** A stream frame of one of the nodes that write chat messages, with the
    message chunk [m]. *)
Definition FollowupFrame (m : MessageChunk) (f : Frame) : Prop :=
  event f = lit "on_chat_model_stream"
  /\ (langgraph_node f = lit "generateFollowup"
      \/ langgraph_node f = lit "respondToQuery")
  /\ payload f = Some m.

(** A chunk of a chat message, and the frame of the node [node] that
    carries it. *)
Definition reply_chunk (id content : string) : MessageChunk :=
  {| chunk_id := Some (lit id);
     chunk_content := Some (lit content);
     chunk_tool_args := None |}.

Definition reply_frame (node : string) (m : MessageChunk) : Frame :=
  {| event := lit "on_chat_model_stream";
     name := None;
     run_id := None;
     langgraph_node := lit node;
     input_highlightedText := None;
     payload := Some m;
     output_args := None |}.

(** A stand-in for [replaceOrInsertMessageChunk] that inserts the chunk
    as a message at the end. *)
Definition insert_chunk (l : list BaseMessage) (m : MessageChunk)
  : list BaseMessage :=
  l ++ [{| msg_id := chunk_id m;
           msg_content := to_text_or_empty (chunk_content m);
           tool_calls := None;
           langSmithRunURL := None |}].

(** A highlight whose block does not occur in its document. *)
Definition stale_highlight : TextHighlight :=
  {| th_fullMarkdown := lit "## Title";
     th_markdownBlock := lit "Hello" |}.

(** The end frame that carries the rewrite metadata [python_meta]. *)
Definition python_meta_frame : Frame :=
  {| event := lit "on_chat_model_end";
     name := Some (lit "optionally_update_artifact_meta");
     run_id := None;
     langgraph_node := lit "rewriteArtifact";
     input_highlightedText := None;
     payload := None;
     output_args := Some python_meta |}.



(* ================================================================== *)
(** * Properties of the fence stripper *)
(* ================================================================== *)

Lemma char_eqb_eq (a b : char) : char_eqb a b = true <-> a = b.
Proof. apply N.eqb_eq. Qed.

Lemma char_eqb_refl (a : char) : char_eqb a a = true.
Proof. apply N.eqb_refl. Qed.

Lemma str_eqb_eq (a b : str) : str_eqb a b = true <-> a = b.
Proof.
  revert b; induction a as [|x a IH]; intros [|y b]; simpl;
    try (split; (discriminate || reflexivity)).
  rewrite andb_true_iff, char_eqb_eq, IH.
  split; [intros [-> ->]; reflexivity | intros H; inversion H; auto].
Qed.

Lemma str_eqb_refl (a : str) : str_eqb a a = true.
Proof. apply str_eqb_eq; reflexivity. Qed.

Lemma exec_closing (bos : bool) (g : str) :
  exec closing bos (LF :: fence) g = Some g.
Proof. reflexivity. Qed.

Lemma exec_closing_inv (bos : bool) (input g m : str) :
  exec closing bos input g = Some m -> input = LF :: fence /\ m = g.
Proof.
  unfold closing, fence; simpl.
  destruct input as [|c1 [|c2 [|c3 [|c4 [|c5 r]]]]]; simpl;
    repeat match goal with
      | |- context [char_eqb ?a ?b] =>
          let E := fresh "E" in
          destruct (char_eqb a b) eqn:E;
          [apply char_eqb_eq in E; subst a | discriminate]
      end;
    try discriminate.
  intros H; inversion H; auto.
Qed.

(** A lazy star stops at the first split after which the rest of the
    pattern matches. *)
Lemma star_lazy_closing (body : str) :
  forall bos acc,
    star_lazy any_char (exec closing) bos (body ++ LF :: fence) acc
    = Some (acc ++ body).
Proof.
  induction body as [|x body IH]; intros bos acc.
  - simpl app. rewrite app_nil_r.
    unfold star_lazy. rewrite exec_closing. 
    destruct (LF :: fence); reflexivity.
  - cbn [app star_lazy].
    destruct (exec closing bos (x :: body ++ LF :: fence) acc) eqn:E.
    + apply exec_closing_inv in E. destruct E as [E _].
      apply (f_equal (@List.length _)) in E.
      simpl in E. rewrite length_app in E. simpl in E. lia.
    + cbn [any_char]. rewrite IH, <- app_assoc. reflexivity.
Qed.

Lemma star_lazy_inv (cls : char -> bool) k :
  forall input bos acc m,
    star_lazy cls k bos input acc = Some m ->
    exists body rest b,
      input = body ++ rest /\ k b rest (acc ++ body) = Some m.
Proof.
  induction input as [|x r IH]; intros bos acc m H; simpl in H.
  - destruct (k bos [] acc) eqn:E; [|discriminate].
    exists [], [], bos. split; [reflexivity | rewrite app_nil_r; congruence].
  - destruct (k bos (x :: r) acc) eqn:E.
    + exists [], (x :: r), bos.
      split; [reflexivity | rewrite app_nil_r; congruence].
    + destruct (cls x); [|discriminate].
      apply IH in H. destruct H as (body & rest & b & -> & Hk).
      exists (x :: body), rest, b. rewrite <- app_assoc in Hk. auto.
Qed.

(** A greedy star takes the whole run when the rest of the pattern
    matches behind it. *)
Lemma star_greedy_run (cls : char -> bool) k (run rest m : str) :
  forallb cls run = true ->
  (forall b, k b rest = Some m) ->
  match rest with [] => True | c :: _ => cls c = false end ->
  forall bos, star_greedy cls k bos (run ++ rest) = Some m.
Proof.
  intros Hrun Hk Hrest.
  induction run as [|x run IH]; intros bos.
  - simpl. destruct rest as [|c r]; simpl; [apply Hk|].
    rewrite Hrest. apply Hk.
  - simpl in Hrun. apply andb_true_iff in Hrun. destruct Hrun as [Hx Hrun].
    simpl. rewrite Hx, (IH Hrun). reflexivity.
Qed.

Lemma star_greedy_inv (cls : char -> bool) k :
  forall input bos m,
    star_greedy cls k bos input = Some m ->
    exists run rest b,
      input = run ++ rest /\ forallb cls run = true /\ k b rest = Some m.
Proof.
  induction input as [|x r IH]; intros bos m H; simpl in H.
  - exists [], [], bos. auto.
  - destruct (cls x) eqn:Hx.
    + destruct (star_greedy cls k false r) eqn:E.
      * inversion H; subst. apply IH in E.
        destruct E as (run & rest & b & -> & Hrun & Hk).
        exists (x :: run), rest, b. simpl. rewrite Hx. auto.
      * exists [], (x :: r), bos. auto.
    + exists [], (x :: r), bos. auto.
Qed.

Lemma search_not_at_start (k : regex) (input : str) :
  search (Bos :: k) false input = None.
Proof. induction input; simpl; auto. Qed.

(** What the pattern matches: exactly the fenced blocks, and group 1 is
    the body. *)
Lemma match_fenced (lang c : str) :
  forallb is_word_or_hyphen lang = true ->
  match_group1 (wrap_in_fence lang c) codeBlockRegex = Some c.
Proof.
  intros Hlang. unfold match_group1, wrap_in_fence, fence, codeBlockRegex.
  cbn [app search exec]. rewrite !char_eqb_refl.
  rewrite (star_greedy_run is_word_or_hyphen _ lang _ c Hlang).
  - reflexivity.
  - intros b. cbn [exec]. rewrite char_eqb_refl.
    apply (star_lazy_closing c false []).
  - reflexivity.
Qed.

Lemma match_fenced_inv (text g : str) :
  match_group1 text codeBlockRegex = Some g ->
  exists lang,
    forallb is_word_or_hyphen lang = true /\ text = wrap_in_fence lang g.
Proof.
  unfold match_group1, codeBlockRegex. intros H.
  assert (E : exec
                (Bos :: Chr backtick :: Chr backtick :: Chr backtick
                 :: StarGreedy is_word_or_hyphen :: Chr LF
                 :: GroupLazyStar any_char :: closing) true text []
              = Some g).
  { destruct text as [|x r]; cbn [search] in H.
    - destruct (exec _ true [] []); [assumption | discriminate].
    - destruct (exec _ true (x :: r) []) eqn:E; [assumption|].
      rewrite search_not_at_start in H. discriminate. }
  clear H. cbn [exec] in E.
  destruct text as [|c1 [|c2 [|c3 rest]]]; try discriminate;
    repeat match type of E with
      | context [char_eqb ?a ?b] =>
          let Q := fresh "Q" in
          destruct (char_eqb a b) eqn:Q;
          [apply char_eqb_eq in Q; subst a | discriminate]
      end; try discriminate.
  apply star_greedy_inv in E.
  destruct E as (lang & rest' & b & -> & Hlang & E).
  cbn [exec] in E. destruct rest' as [|c4 r2]; [discriminate|].
  destruct (char_eqb c4 LF) eqn:Q; [|discriminate].
  apply char_eqb_eq in Q; subst c4.
  apply star_lazy_inv in E. destruct E as (body & tail & b' & -> & E).
  apply exec_closing_inv in E. destruct E as [-> ->].
  exists lang. split; [assumption|]. reflexivity.
Qed.

Lemma removeCodeBlockFormatting_fenced (lang c : str) :
  forallb is_word_or_hyphen lang = true ->
  removeCodeBlockFormatting (wrap_in_fence lang c) = trim c.
Proof.
  intros Hlang. unfold removeCodeBlockFormatting.
  rewrite (match_fenced lang c Hlang). reflexivity.
Qed.

Lemma removeCodeBlockFormatting_unfenced (text : str) :
  ~ Fenced text -> removeCodeBlockFormatting text = text.
Proof.
  intros Hno. unfold removeCodeBlockFormatting.
  destruct (negb (truthy text)); [reflexivity|].
  destruct (match_group1 text codeBlockRegex) as [g|] eqn:E; [|reflexivity].
  exfalso. apply Hno. apply match_fenced_inv in E.
  destruct E as (lang & Hlang & ->). exists lang, g. auto.
Qed.

(** A text whose first character is not a backtick is not a fenced
    block. *)
Lemma not_fenced_head (x : char) (text : str) :
  x <> backtick -> ~ Fenced (x :: text).
Proof.
  intros Hx (lang & c & _ & E). unfold wrap_in_fence, fence in E.
  simpl in E. inversion E. contradiction.
Qed.

(** C6 (amended).  Wrapping a code text [c] in a fenced block (an opening
    fence line with an optional language tag of word characters and
    hyphens, and a closing fence line) and stripping the fence gives [c]
    with its leading and trailing white space trimmed, hence [c] itself
    when [c] has none; a text that is not as a whole such a fenced block is
    returned unchanged. *)
Theorem removeCodeBlockFormatting_roundtrip (lang c text : str) :
  forallb is_word_or_hyphen lang = true ->
  ~ Fenced text ->
  removeCodeBlockFormatting (wrap_in_fence lang c) = trim c
  /\ (trim c = c -> removeCodeBlockFormatting (wrap_in_fence lang c) = c)
  /\ removeCodeBlockFormatting text = text.
Proof.
  intros Hlang Hno. repeat split.
  - apply removeCodeBlockFormatting_fenced; assumption.
  - intros E. rewrite removeCodeBlockFormatting_fenced by assumption.
    exact E.
  - apply removeCodeBlockFormatting_unfenced; assumption.
Qed.

Lemma removeCodeBlockFormatting_roundtrip_witness :
  removeCodeBlockFormatting (wrap_in_fence (lit "js") (lit "XXX"))
  = trim (lit "XXX")
  /\ (trim (lit "XXX") = lit "XXX" ->
      removeCodeBlockFormatting (wrap_in_fence (lit "js") (lit "XXX"))
      = lit "XXX")
  /\ removeCodeBlockFormatting (lit "abc123xyz") = lit "abc123xyz".
Proof.
  apply (removeCodeBlockFormatting_roundtrip (lit "js") (lit "XXX")
           (lit "abc123xyz")).
  - reflexivity.
  - apply not_fenced_head. discriminate.
Defined.

(** C6, as stated, fails: the indentation of the first line of the code
    is lost by the round trip. *)
Lemma fence_roundtrip_loses_indentation :
  removeCodeBlockFormatting (wrap_in_fence (lit "js") (lit "  return 1;"))
  <> lit "  return 1;".
Proof. vm_compute. discriminate. Qed.

(* ================================================================== *)
(** * Routing of a frame *)
(* ================================================================== *)

Lemma and_then_skip (c : Ctl) (k : Loop -> Ctl) :
  (forall s, k s = Go s) -> c >>= k = c.
Proof. intros Hk. destruct c; simpl; auto. Qed.

(** Evaluates the comparisons of two string literals in the goal. *)
Ltac eval_names :=
  repeat match goal with
    | |- context [str_eqb (lit ?a) (lit ?b)] =>
        let v := eval vm_compute in (str_eqb (lit a) (lit b)) in
        change (str_eqb (lit a) (lit b)) with v
    end.

(** ** Changes that leave the version state alone *)

Lemma same_version_refl s : same_version s s.
Proof. repeat split. Qed.

Lemma same_version_trans s1 s2 s3 :
  same_version s1 s2 -> same_version s2 s3 -> same_version s1 s3.
Proof.
  intros (A1 & A2 & A3) (B1 & B2 & B3).
  repeat split; congruence.
Qed.

Lemma same_version_report s s' e :
  same_version s s' -> same_version s (report e s').
Proof. intros H; exact H. Qed.

Lemma same_version_toast s s' d :
  same_version s s' -> same_version s (toast_error d s').
Proof. intros H; exact H. Qed.

Lemma same_version_messages s s' v :
  same_version s s' -> same_version s (set_cur_messages v s').
Proof. intros H; exact H. Qed.

Lemma same_version_runId s s' v :
  same_version s s' -> same_version s (set_runId v s').
Proof. intros H; exact H. Qed.

Lemma same_version_followup s s' v :
  same_version s s' -> same_version s (set_followupMessageId v s').
Proof. intros H; exact H. Qed.

Lemma same_version_meta s s' v :
  same_version s s' -> same_version s (set_rewriteArtifactMeta v s').
Proof. intros H; exact H. Qed.

Lemma same_version_toolcall s s' v :
  same_version s s' -> same_version s (set_generateArtifactToolCallStr v s').
Proof. intros H; exact H. Qed.

Lemma same_version_start s s' v :
  same_version s s' -> same_version s (set_updatedArtifactStartContent v s').
Proof. intros H; exact H. Qed.

Lemma same_version_rest s s' v :
  same_version s s' -> same_version s (set_updatedArtifactRestContent v s').
Proof. intros H; exact H. Qed.

Lemma same_version_content s s' v :
  same_version s s' -> same_version s (set_newArtifactContent v s').
Proof. intros H; exact H. Qed.

Lemma same_version_highlight s s' v :
  same_version s s' -> same_version s (set_highlightedText v s').
Proof. intros H; exact H. Qed.

Lemma same_version_capture s s' f :
  same_version s s' -> same_version s (capture_run_id f s').
Proof.
  intros H. unfold capture_run_id.
  destruct (negb (truthy (runId s')) && truthy_opt (run_id f)); exact H.
Qed.

Lemma same_version_reserve s s' a :
  newArtifactIndex s <> None ->
  same_version s s' -> same_version s (reserve_index a s').
Proof.
  intros Hi H. unfold reserve_index. destruct H as (H1 & H2 & H3).
  destruct (newArtifactIndex s') eqn:E; [repeat split; congruence|].
  congruence.
Qed.

Create HintDb loop discriminated.

#[global] Hint Resolve same_version_refl same_version_report
  same_version_toast same_version_messages same_version_runId
  same_version_followup same_version_meta same_version_toolcall
  same_version_start same_version_rest same_version_content
  same_version_highlight same_version_capture : loop.

Lemma last_snapshot_app (a : ArtifactV3) (l : list ArtifactContent) c i :
  last_snapshot {| currentIndex := i; contents := l ++ [c] |} = Some c.
Proof. unfold last_snapshot. simpl. rewrite rev_app_distr. reflexivity. Qed.

Lemma last_snapshot_map (g : ArtifactContent -> ArtifactContent) a c i :
  last_snapshot a = Some c ->
  last_snapshot {| currentIndex := i; contents := map g (contents a) |}
  = Some (g c).
Proof.
  unfold last_snapshot. simpl. rewrite <- map_rev.
  destruct (rev (contents a)); simpl; [discriminate|].
  intros H; inversion H; reflexivity.
Qed.

Section LoopProperties.

Variable parsePartialJson : str -> option ArtifactToolResponse.
Variable replaceOrInsertMessageChunk :
  list BaseMessage -> MessageChunk -> list BaseMessage.
Variable artifact : option ArtifactV3.
Variable params : GraphInput.

Lemma on_followup_skip f s :
  node_is f "generateFollowup" = false ->
  node_is f "respondToQuery" = false ->
  on_followup replaceOrInsertMessageChunk f s = Go s.
Proof. intros H1 H2. unfold on_followup. rewrite H1, H2. reflexivity. Qed.

Lemma on_generateArtifact_skip f s :
  node_is f "generateArtifact" = false ->
  on_generateArtifact parsePartialJson f s = Go s.
Proof. intros H. unfold on_generateArtifact. rewrite H. reflexivity. Qed.

Lemma on_updateHighlightedText_skip f s :
  node_is f "updateHighlightedText" = false ->
  on_updateHighlightedText artifact f s = Go s.
Proof. intros H. unfold on_updateHighlightedText. rewrite H. reflexivity. Qed.

Lemma on_updateArtifact_skip f s :
  node_is f "updateArtifact" = false ->
  on_updateArtifact artifact params f s = Go s.
Proof. intros H. unfold on_updateArtifact. rewrite H. reflexivity. Qed.

Lemma on_rewriteArtifact_skip f s :
  node_is f "rewriteArtifact" = false ->
  on_rewriteArtifact artifact params f s = Go s.
Proof.
  intros H. unfold on_rewriteArtifact. rewrite H.
  destruct (rewriteArtifactMeta s); reflexivity.
Qed.

Lemma on_rewriteTheme_skip f s :
  node_is f "rewriteArtifactTheme" = false ->
  node_is f "rewriteCodeArtifactTheme" = false ->
  node_is f "customAction" = false ->
  on_rewriteTheme artifact params f s = Go s.
Proof.
  intros H1 H2 H3. unfold on_rewriteTheme. rewrite H1, H2, H3. reflexivity.
Qed.

Lemma on_chain_start_skip f s :
  event_is f "on_chain_start" = false -> on_chain_start f s = Go s.
Proof. intros H. unfold on_chain_start. rewrite H. reflexivity. Qed.

Lemma on_chat_model_end_skip f s :
  event_is f "on_chat_model_end" = false -> on_chat_model_end f s = Go s.
Proof. intros H. unfold on_chat_model_end. rewrite H. reflexivity. Qed.

(** Closes [handler f s = Go s] for a handler of another node. *)
Ltac other_node Hnode :=
  first [ apply on_followup_skip | apply on_generateArtifact_skip
        | apply on_updateHighlightedText_skip | apply on_updateArtifact_skip
        | apply on_rewriteArtifact_skip | apply on_rewriteTheme_skip ];
  unfold node_is; rewrite Hnode; reflexivity.

Lemma step_stream f s :
  event f = lit "on_chat_model_stream" ->
  step parsePartialJson replaceOrInsertMessageChunk artifact params f s
  = on_followup replaceOrInsertMessageChunk f (capture_run_id f s)
    >>= on_generateArtifact parsePartialJson f
    >>= on_updateHighlightedText artifact f
    >>= on_updateArtifact artifact params f
    >>= on_rewriteArtifact artifact params f
    >>= on_rewriteTheme artifact params f.
Proof.
  intros Hev. unfold step, on_chat_model_stream.
  cbn [and_then]. rewrite on_chain_start_skip
    by (unfold event_is; rewrite Hev; reflexivity).
  cbn [and_then].
  replace (event_is f "on_chat_model_stream") with true
    by (unfold event_is; rewrite Hev; reflexivity).
  apply and_then_skip. intros s'. apply on_chat_model_end_skip.
  unfold event_is; rewrite Hev; reflexivity.
Qed.

Lemma step_updateArtifact f s :
  StreamFrame "updateArtifact" f ->
  step parsePartialJson replaceOrInsertMessageChunk artifact params f s
  = on_updateArtifact artifact params f (capture_run_id f s).
Proof.
  intros [Hev Hnode]. rewrite (step_stream f s Hev).
  rewrite on_followup_skip
    by (unfold node_is; rewrite Hnode; reflexivity).
  cbn [and_then].
  rewrite on_generateArtifact_skip
    by (unfold node_is; rewrite Hnode; reflexivity).
  cbn [and_then].
  rewrite on_updateHighlightedText_skip
    by (unfold node_is; rewrite Hnode; reflexivity).
  cbn [and_then].
  rewrite !and_then_skip; [reflexivity | ..]; intros s'; other_node Hnode.
Qed.

Lemma step_updateHighlightedText f s :
  StreamFrame "updateHighlightedText" f ->
  step parsePartialJson replaceOrInsertMessageChunk artifact params f s
  = on_updateHighlightedText artifact f (capture_run_id f s).
Proof.
  intros [Hev Hnode]. rewrite (step_stream f s Hev).
  rewrite on_followup_skip
    by (unfold node_is; rewrite Hnode; reflexivity).
  cbn [and_then].
  rewrite on_generateArtifact_skip
    by (unfold node_is; rewrite Hnode; reflexivity).
  cbn [and_then].
  rewrite !and_then_skip; [reflexivity | ..]; intros s'; other_node Hnode.
Qed.

Lemma step_generateArtifact f s :
  StreamFrame "generateArtifact" f ->
  step parsePartialJson replaceOrInsertMessageChunk artifact params f s
  = on_generateArtifact parsePartialJson f (capture_run_id f s).
Proof.
  intros [Hev Hnode]. rewrite (step_stream f s Hev).
  rewrite on_followup_skip
    by (unfold node_is; rewrite Hnode; reflexivity).
  cbn [and_then].
  rewrite !and_then_skip; [reflexivity | ..]; intros s'; other_node Hnode.
Qed.


Lemma truthy_nonempty (d : str) : d <> [] -> truthy d = true.
Proof. destruct d; [contradiction | reflexivity]. Qed.

Lemma node_is_true f (n : string) :
  langgraph_node f = lit n -> node_is f n = true.
Proof. intros H. unfold node_is. rewrite H. apply str_eqb_refl. Qed.

(** ** Ranged code edits *)

Section RangedEdit.

Variable art : ArtifactV3.
Variable range : Highlight.
Variable prevCode : ArtifactCodeV3.
Hypothesis Hart : artifact = Some art.
Hypothesis Hrange : highlighted params = Some range.
Hypothesis Hprev : prevCurrentContent artifact = Some (Code prevCode).

(** The first valid delta initialises the unchanged prefix and suffix;
    its own content is not appended. *)
Lemma ranged_edit_first f d s :
  Delta "updateArtifact" d f ->
  updatedArtifactStartContent s = None ->
  updatedArtifactRestContent s = None ->
  exists s',
    step parsePartialJson replaceOrInsertMessageChunk artifact params f s
    = Go s'
    /\ updatedArtifactStartContent s'
       = Some (slice (code prevCode) 0 (startCharIndex range))
    /\ updatedArtifactRestContent s'
       = Some (slice_from (code prevCode) (endCharIndex range))
    /\ cur_artifact s'
       = Some (updateHighlightedCode (prev_or s art)
                 (removeCodeBlockFormatting
                    (slice (code prevCode) 0 (startCharIndex range)
                     ++ slice_from (code prevCode) (endCharIndex range)))
                 (index_or_next art s) prevCode (isFirstUpdate s))
    /\ isFirstUpdate s' = false
    /\ newArtifactIndex s' = Some (index_or_next art s).
Proof.
  intros (Hf & Hd & Hne) Hs Hr.
  rewrite (step_updateArtifact f s Hf).
  unfold on_updateArtifact.
  pose proof Hprev as Hprev'. rewrite Hart in Hprev'.
  rewrite (node_is_true f _ (proj2 Hf)), Hart, Hrange, Hd, Hprev'.
  cbn [truthy_opt]. rewrite (truthy_nonempty d Hne). cbn [negb].
  eexists; split; [reflexivity|].
  unfold reserve_index, clear_first_update, capture_run_id, index_or_next,
    prev_or.
  destruct (negb (truthy (runId s)) && truthy_opt (run_id f));
    destruct (newArtifactIndex s) eqn:Hi; cbn; rewrite ?Hs, ?Hr, ?Hi; cbn;
    rewrite ?Hs, ?Hr, ?Hi; cbn;
    destruct (isFirstUpdate s) eqn:Hfirst; cbn;
    rewrite ?Hs, ?Hr, ?Hi, ?Hfirst; repeat split; reflexivity.
Qed.

(** Every later delta is appended to the prefix. *)
Lemma ranged_edit_next f d s p r :
  Delta "updateArtifact" d f ->
  updatedArtifactStartContent s = Some p ->
  updatedArtifactRestContent s = Some r ->
  exists s',
    step parsePartialJson replaceOrInsertMessageChunk artifact params f s
    = Go s'
    /\ updatedArtifactStartContent s' = Some (p ++ d)
    /\ updatedArtifactRestContent s' = Some r
    /\ cur_artifact s'
       = Some (updateHighlightedCode (prev_or s art)
                 (removeCodeBlockFormatting ((p ++ d) ++ r))
                 (index_or_next art s) prevCode (isFirstUpdate s))
    /\ isFirstUpdate s' = false
    /\ newArtifactIndex s' = Some (index_or_next art s).
Proof.
  intros (Hf & Hd & Hne) Hs Hr.
  rewrite (step_updateArtifact f s Hf).
  unfold on_updateArtifact.
  pose proof Hprev as Hprev'. rewrite Hart in Hprev'.
  rewrite (node_is_true f _ (proj2 Hf)), Hart, Hrange, Hd, Hprev'.
  cbn [truthy_opt]. rewrite (truthy_nonempty d Hne). cbn [negb].
  eexists; split; [reflexivity|].
  unfold reserve_index, clear_first_update, capture_run_id, index_or_next,
    prev_or.
  destruct (negb (truthy (runId s)) && truthy_opt (run_id f));
    destruct (newArtifactIndex s) eqn:Hi; cbn; rewrite ?Hs, ?Hr, ?Hi; cbn;
    rewrite ?Hs, ?Hr, ?Hi; cbn;
    destruct (isFirstUpdate s) eqn:Hfirst; cbn;
    rewrite ?Hs, ?Hr, ?Hi, ?Hfirst; repeat split; reflexivity.
Qed.

(** After the first delta, a run of valid deltas appends their
    concatenation: the content of the first delta is in neither part. *)
Lemma ranged_edit_run ds :
  forall fs s p r,
    Forall2 (Delta "updateArtifact") ds fs ->
    updatedArtifactStartContent s = Some p ->
    updatedArtifactRestContent s = Some r ->
    exists s',
      run_frames parsePartialJson replaceOrInsertMessageChunk artifact params
        fs s = Go s'
      /\ updatedArtifactStartContent s' = Some (p ++ List.concat ds)
      /\ updatedArtifactRestContent s' = Some r.
Proof.
  induction ds as [|d ds IH]; intros fs s p r Hall Hs Hr.
  - destruct fs as [|f fs']; [|inversion Hall].
    exists s. cbn [run_frames List.concat]. rewrite app_nil_r. auto.
  - destruct fs as [|f fs']; [inversion Hall|].
    apply Forall2_cons_iff in Hall. destruct Hall as [Hd Hrest].
    destruct (ranged_edit_next f d s p r Hd Hs Hr)
      as (s1 & E1 & Hs1 & Hr1 & _).
    destruct (IH fs' s1 (p ++ d) r Hrest Hs1 Hr1) as (s' & E & Hs' & Hr').
    exists s'. cbn [run_frames List.concat]. rewrite E1, E.
    rewrite <- app_assoc in Hs'. auto.
Qed.

End RangedEdit.

(** ** One new version per fold *)

Section SingleVersion.

Variable art : ArtifactV3.
Hypothesis Hart : artifact = Some art.

Lemma Reserved_same s s' :
  same_version s s' -> Reserved art s -> Reserved art s'.
Proof.
  intros (H1 & H2 & H3) (Hi & a' & Ha & Hw).
  unfold Reserved. rewrite H1, H2, H3. eauto.
Qed.

Lemma Reserved_write s0 s snapshot :
  Reserved art s0 -> same_version s0 s ->
  index snapshot = next_index art ->
  Reserved art
    (clear_first_update
       (set_cur_artifact
          (Some (write_snapshot (prev_or s art) snapshot (isFirstUpdate s)))
          s)).
Proof.
  intros H0 Hsame Hidx. apply (Reserved_same s0 s Hsame) in H0.
  destruct H0 as (Hi & a' & Ha & Hw).
  unfold Reserved, clear_first_update, prev_or, write_snapshot.
  rewrite Ha. destruct (isFirstUpdate s) eqn:Hfirst; cbn; rewrite ?Hfirst; cbn;
    rewrite ?Hfirst; cbn.
  - subst a'. split; [assumption|]. eexists; split; [reflexivity|].
    cbn [contents currentIndex]. rewrite length_app, Nat.add_comm.
    split; [reflexivity|]. split; [assumption|].
    exists snapshot. split; [apply (last_snapshot_app art)|assumption].
  - destruct Hw as (Hlen & Hcur & c & Hlast & Hc).
    split; [assumption|]. eexists; split; [reflexivity|].
    cbn [contents currentIndex]. rewrite length_map.
    split; [assumption|]. split; [assumption|].
    exists snapshot. split; [|assumption].
    rewrite (last_snapshot_map _ a' c _ Hlast).
    rewrite Hc, Hidx, Z.eqb_refl. reflexivity.
Qed.

Lemma last_snapshot_write s snapshot :
  Reserved art s ->
  index snapshot = next_index art ->
  last_snapshot (write_snapshot (prev_or s art) snapshot (isFirstUpdate s))
  = Some snapshot.
Proof.
  intros (Hi & a' & Ha & Hw) Hidx. unfold prev_or, write_snapshot.
  rewrite Ha. destruct (isFirstUpdate s).
  - apply (last_snapshot_app art).
  - destruct Hw as (_ & _ & c & Hlast & Hc).
    rewrite (last_snapshot_map _ a' c _ Hlast).
    rewrite Hc, Hidx, Z.eqb_refl. reflexivity.
Qed.


Lemma Reserved_index_or_next s :
  Reserved art s -> index_or_next art s = next_index art.
Proof. intros (Hi & _). unfold index_or_next. rewrite Hi. reflexivity. Qed.

Lemma next_index_pos : next_index art <> 0.
Proof. unfold next_index. lia. Qed.

Lemma Reserved_index_or_next_truthy s :
  Reserved art s -> index_or_next_truthy art s = next_index art.
Proof.
  intros (Hi & _). unfold index_or_next_truthy. rewrite Hi.
  destruct (next_index art =? 0) eqn:E; [|reflexivity].
  apply Z.eqb_eq in E. destruct (next_index_pos E).
Qed.

Lemma Reserved_some s : Reserved art s -> newArtifactIndex s <> None.
Proof. intros (Hi & _). congruence. Qed.

(** Splits the goal along every [match] and [if] of a handler. *)
Ltac split_branches :=
  repeat match goal with
    | |- context [match ?x with _ => _ end] => destruct x eqn:?
    end.

Lemma Reserved_index_of_rewritten prev content meta i first lang :
  exists snapshot,
    updateRewrittenArtifact prev content meta i first lang
    = write_snapshot prev snapshot first
    /\ index snapshot = i.
Proof.
  unfold updateRewrittenArtifact.
  destruct (str_eqb (meta_type meta) (lit "code")); eexists; split;
    reflexivity.
Qed.

(** Closes the goal for a branch that leaves the version state alone. *)
Ltac keeps s :=
  cbn [final_state]; apply (Reserved_same s);
  [auto with loop | assumption].

Lemma Reserved_on_followup f s :
  Reserved art s ->
  Reserved art (final_state (on_followup replaceOrInsertMessageChunk f s)).
Proof.
  intros H. unfold on_followup, throw. split_branches; keeps s.
Qed.

Lemma Reserved_on_updateHighlightedText f s :
  Reserved art s ->
  Reserved art (final_state (on_updateHighlightedText artifact f s)).
Proof.
  intros H. unfold on_updateHighlightedText, throw. rewrite Hart.
  destruct (node_is f "updateHighlightedText"); [|exact H].
  destruct (payload f) as [message|];
    [|keeps s].
  destruct (highlightedText s) as [hl|];
    [|keeps s].
  destruct (prevCurrentContent (Some art)) as [[prevMarkdown|c]|];
    try solve [keeps s].
  destruct (negb (truthy_opt (chunk_content message))); [exact H|].
  cbn [final_state]. unfold updateHighlightedMarkdown.
  match goal with
  | |- Reserved art (clear_first_update (set_cur_artifact
                   (Some (write_snapshot (prev_or ?s3 _) _ _)) _)) =>
      assert (Hsame : same_version s s3)
  end.
  { apply same_version_reserve; [apply (Reserved_some s H)|].
    split_branches; auto with loop. }
  apply (Reserved_write s); [assumption | assumption |].
  cbn [index md_index]. apply Reserved_index_or_next.
  apply (Reserved_same s); assumption.
Qed.

Lemma Reserved_on_updateArtifact f s :
  Reserved art s ->
  Reserved art (final_state (on_updateArtifact artifact params f s)).
Proof.
  intros H. unfold on_updateArtifact. rewrite Hart.
  destruct (node_is f "updateArtifact"); [|exact H].
  destruct (highlighted params) as [range|];
    [|keeps s].
  assert (Hs1 : same_version s (reserve_index art s)).
  { apply same_version_reserve; [apply (Reserved_some s H)|auto with loop]. }
  destruct (negb (truthy_opt (payload_content f)));
    [cbn [final_state]; apply (Reserved_same s); assumption|].
  destruct (prevCurrentContent (Some art)) as [[m|prevCode]|];
    try solve [keeps s].
  cbn [final_state]. unfold updateHighlightedCode.
  match goal with
  | |- Reserved art (clear_first_update (set_cur_artifact
                   (Some (write_snapshot (prev_or ?s2 _) _ _)) _)) =>
      assert (Hsame : same_version s s2)
  end.
  { split_branches; auto with loop. }
  apply (Reserved_write s); [assumption | assumption |].
  cbn [index code_index]. apply Reserved_index_or_next.
  apply (Reserved_same s); assumption.
Qed.

Lemma Reserved_on_rewriteArtifact f s :
  Reserved art s ->
  Reserved art (final_state (on_rewriteArtifact artifact params f s)).
Proof.
  intros H. unfold on_rewriteArtifact. rewrite Hart.
  destruct (rewriteArtifactMeta s) as [meta|]; [|exact H].
  destruct (node_is f "rewriteArtifact"
            && name_is f "rewrite_artifact_model_call"); [|exact H].
  cbn [final_state].
  match goal with
  | |- Reserved art (clear_first_update (set_cur_artifact
                   (Some (updateRewrittenArtifact (prev_or ?s2 _) ?c ?m ?i
                            ?b ?l)) _)) =>
      assert (Hsame : same_version s s2);
      [|destruct (Reserved_index_of_rewritten (prev_or s2 art) c m i b l)
          as (snapshot & -> & Hidx)]
  end.
  { apply same_version_reserve; [apply (Reserved_some s H)|auto with loop]. }
  apply (Reserved_write s); [assumption | assumption |].
  rewrite Hidx. apply Reserved_index_or_next_truthy.
  apply (Reserved_same s); assumption.
Qed.

Lemma Reserved_on_rewriteTheme f s :
  Reserved art s ->
  Reserved art (final_state (on_rewriteTheme artifact params f s)).
Proof.
  intros H. unfold on_rewriteTheme. rewrite Hart.
  destruct (node_is f "rewriteArtifactTheme"
            || node_is f "rewriteCodeArtifactTheme"
            || node_is f "customAction"); [|exact H].
  destruct (prevCurrentContent (Some art)) as [prev|];
    [|keeps s].
  cbn [final_state].
  match goal with
  | |- Reserved art (clear_first_update (set_cur_artifact
                   (Some (updateRewrittenArtifact (prev_or ?s2 _) ?c ?m ?i
                            ?b ?l)) _)) =>
      assert (Hsame : same_version s s2);
      [|destruct (Reserved_index_of_rewritten (prev_or s2 art) c m i b l)
          as (snapshot & -> & Hidx)]
  end.
  { apply same_version_reserve; [apply (Reserved_some s H)|auto with loop]. }
  apply (Reserved_write s); [assumption | assumption |].
  rewrite Hidx. apply Reserved_index_or_next_truthy.
  apply (Reserved_same s); assumption.
Qed.

Lemma Reserved_and_then c k :
  (forall s, Reserved art s -> Reserved art (final_state (k s))) ->
  Reserved art (final_state c) -> Reserved art (final_state (c >>= k)).
Proof. intros Hk Hc. destruct c; cbn in *; auto. Qed.

Lemma Reserved_step f s :
  generates f = false ->
  Reserved art s ->
  Reserved art
    (final_state
       (step parsePartialJson replaceOrInsertMessageChunk artifact params
          f s)).
Proof.
  intros Hgen H. unfold step.
  repeat apply Reserved_and_then.
  - intros s' H'. unfold on_chat_model_end, throw.
    split_branches; keeps s'.
  - intros s' H'. unfold on_chat_model_stream.
    unfold generates in Hgen.
    destruct (event_is f "on_chat_model_stream"); [|exact H'].
    cbn [andb] in Hgen.
    repeat apply Reserved_and_then.
    + apply Reserved_on_rewriteTheme.
    + apply Reserved_on_rewriteArtifact.
    + apply Reserved_on_updateArtifact.
    + apply Reserved_on_updateHighlightedText.
    + intros s'' H''. rewrite on_generateArtifact_skip; assumption.
    + apply Reserved_on_followup; assumption.
  - intros s' H'. unfold on_chain_start.
    split_branches; keeps s'.
  - keeps s.
Qed.


End SingleVersion.

(** ** Generating a new artifact *)

(** C3.  A delta of the node [generateArtifact] appends its tool-call
    fragment to the accumulated string.  When the accumulated string parses
    into a value with a content payload, a resolvable type and, for code, a
    language, the artifact is replaced by a new one with [currentIndex = 1]
    and exactly one snapshot, at index 1, of that type and with that
    content; otherwise the frame is passed over: the artifact is the one
    before, nothing is reported, and the loop goes on. *)
Theorem generateArtifact_delta (f : Frame) (s : Loop) :
  StreamFrame "generateArtifact" f ->
  let buffer :=
    generateArtifactToolCallStr s ++ to_text (payload_tool_args f) in
  let after :=
    step parsePartialJson replaceOrInsertMessageChunk artifact params f s in
  generateArtifactToolCallStr (final_state after) = buffer
  /\ logged (final_state after) = logged s
  /\ (forall s', after <> Return s')
  /\ (forall r,
        parsePartialJson buffer = Some r -> complete r = true ->
        exists content,
          cur_artifact (final_state after)
          = Some {| currentIndex := 1; contents := [content] |}
          /\ index content = 1
          /\ type content = to_text (tr_type r)
          /\ content_text content = to_text (tr_artifact r))
  /\ (parsePartialJson buffer = None
      \/ (exists r, parsePartialJson buffer = Some r /\ complete r = false) ->
      cur_artifact (final_state after) = cur_artifact s).
Proof.
  intros Hf buffer after. subst after.
  rewrite (step_generateArtifact f s Hf). unfold on_generateArtifact.
  rewrite (node_is_true f _ (proj2 Hf)).
  cbn [generateArtifactToolCallStr set_generateArtifactToolCallStr].
  assert (Hbuf : generateArtifactToolCallStr (capture_run_id f s)
                 ++ to_text (payload_tool_args f) = buffer).
  { unfold capture_run_id.
    destruct (negb (truthy (runId s)) && truthy_opt (run_id f)); reflexivity. }
  rewrite Hbuf.
  assert (Hlog : logged (capture_run_id f s) = logged s).
  { unfold capture_run_id.
    destruct (negb (truthy (runId s)) && truthy_opt (run_id f)); reflexivity. }
  assert (Hcur : cur_artifact (capture_run_id f s) = cur_artifact s).
  { unfold capture_run_id.
    destruct (negb (truthy (runId s)) && truthy_opt (run_id f)); reflexivity. }
  destruct (parsePartialJson buffer) as [parsed|] eqn:Hparse.
  - cbn [tr_artifact tr_type tr_language tr_title to_text_or_empty].
    assert (Hcond :
      truthy_opt (tr_artifact parsed)
      && (str_eqb (to_text_or_empty (tr_type parsed)) (lit "text")
          || str_eqb (to_text_or_empty (tr_type parsed)) (lit "code")
             && truthy_opt (tr_language parsed))
      = complete parsed).
    { unfold complete, opt_is. destruct (tr_type parsed); reflexivity. }
    rewrite Hcond. destruct (complete parsed) eqn:Hc.
    + cbn [final_state generateArtifactToolCallStr set_cur_artifact logged
             cur_artifact set_generateArtifactToolCallStr].
      refine (conj eq_refl (conj Hlog (conj _ (conj _ _)))).
      * intros s'; discriminate.
      * intros r Hr _. inversion Hr; subst r. clear Hr.
        unfold complete, opt_is in Hc.
        unfold createNewGeneratedArtifactFromTool.
        cbn [tr_artifact tr_type tr_language tr_title to_text_or_empty].
        destruct (tr_type parsed) as [ty|]; cbn [to_text_or_empty];
          [|rewrite andb_false_r in Hc; discriminate].
        destruct (tr_artifact parsed) as [payload_text|];
          [|discriminate].
        destruct (str_eqb ty (lit "text")) eqn:Et.
        { apply str_eqb_eq in Et. subst ty.
          eexists. split; [reflexivity|]. repeat split. }
        destruct (str_eqb ty (lit "code")) eqn:Ec;
          [|rewrite andb_false_r in Hc; discriminate].
        apply str_eqb_eq in Ec. subst ty.
        cbn [orb andb truthy_opt] in Hc. rewrite andb_true_iff in Hc.
        destruct Hc as [_ Hl]. rewrite Hl. cbn [andb].
        eexists. split; [reflexivity|]. repeat split.
      * intros [Hn | (r & Hr & Hrc)]; [discriminate|].
        inversion Hr; subst r. congruence.
    + cbn [final_state generateArtifactToolCallStr logged cur_artifact
             set_generateArtifactToolCallStr].
      refine (conj eq_refl (conj Hlog (conj _ (conj _ _)))).
      * intros s'; discriminate.
      * intros r Hr Hrc. inversion Hr; subst r. congruence.
      * intros _. exact Hcur.
  - cbn [final_state generateArtifactToolCallStr logged cur_artifact
           set_generateArtifactToolCallStr].
    refine (conj eq_refl (conj Hlog (conj _ (conj _ _)))).
    + intros s'; discriminate.
    + intros r Hr. discriminate.
    + intros _. exact Hcur.
Qed.

(** ** Preconditions of a highlighted-text edit *)

(** C4 (amended).  For a delta frame of a highlighted-text edit: without
    an artifact before the fold an error is logged and only this frame is
    skipped; without a captured highlight an error is notified and only
    this frame is skipped; when the artifact has no active snapshot, or the
    active snapshot is a code snapshot, an error is notified and the loop
    is left, so that no later frame is processed.  In each case the
    artifact and the messages are the ones before the frame. *)
Theorem highlighted_text_preconditions
  (f : Frame) (message : MessageChunk) (rest : list Frame) (s : Loop) :
  StreamFrame "updateHighlightedText" f ->
  payload f = Some message ->
  let run :=
    run_frames parsePartialJson replaceOrInsertMessageChunk artifact params
  in
  let s0 := capture_run_id f s in
  (artifact = None ->
   run (f :: rest) s
   = run rest
       (report
          (ConsoleError
             "No artifacts found when updating highlighted markdown...")
          s0))
  /\ (artifact <> None -> highlightedText s = None ->
      run (f :: rest) s
      = run rest (toast_error "No highlighted text found" s0))
  /\ (artifact <> None -> highlightedText s <> None ->
      prevCurrentContent artifact = None ->
      run (f :: rest) s
      = Return (toast_error "Original artifact not found" s0))
  /\ (forall c,
        artifact <> None -> highlightedText s <> None ->
        prevCurrentContent artifact = Some (Code c) ->
        run (f :: rest) s
        = Return (toast_error "Received non markdown block update" s0))
  /\ cur_artifact s0 = cur_artifact s
  /\ cur_messages s0 = cur_messages s.
Proof.
  intros Hf Hp run s0. subst run.
  assert (Hh : highlightedText s0 = highlightedText s).
  { unfold s0, capture_run_id.
    destruct (negb (truthy (runId s)) && truthy_opt (run_id f)); reflexivity. }
  cbn [run_frames]. rewrite (step_updateHighlightedText f s Hf).
  unfold on_updateHighlightedText.
  rewrite (node_is_true f _ (proj2 Hf)), Hp. fold s0. rewrite Hh.
  repeat split.
  - intros ->. reflexivity.
  - intros Ha Hn. destruct artifact; [|contradiction]. rewrite Hn.
    reflexivity.
  - intros Ha Hn Hprev. destruct artifact eqn:E; [|contradiction].
    destruct (highlightedText s); [|contradiction].
    rewrite Hprev. reflexivity.
  - intros c Ha Hn Hprev. destruct artifact eqn:E; [|contradiction].
    destruct (highlightedText s); [|contradiction].
    rewrite Hprev. reflexivity.
  - unfold s0, capture_run_id.
    destruct (negb (truthy (runId s)) && truthy_opt (run_id f)); reflexivity.
  - unfold s0, capture_run_id.
    destruct (negb (truthy (runId s)) && truthy_opt (run_id f)); reflexivity.
Qed.

(** ** The language of a rewritten artifact *)

Lemma present_truthy (o : option str) :
  truthy_opt o = match present o with Some _ => true | None => false end.
Proof. destruct o as [[|x r]|]; reflexivity. Qed.

Lemma present_text (o : option str) (l : str) :
  present o = Some l -> to_text o = l.
Proof.
  destruct o as [[|x r]|]; simpl; intros H; inversion H; reflexivity.
Qed.

Lemma resolveArtifactLanguage_precedence meta :
  resolveArtifactLanguage artifact params meta
  = language_by_precedence (portLanguage params) meta
      (prevCurrentContent artifact).
Proof.
  unfold resolveArtifactLanguage, language_by_precedence.
  rewrite (present_truthy (portLanguage params)).
  destruct (present (portLanguage params)) as [l|] eqn:Ep.
  - cbn [truthy_opt negb andb]. rewrite (present_truthy (portLanguage params)).
    rewrite Ep. cbn [negb]. apply present_text. assumption.
  - cbn [truthy_opt negb andb].
    destruct (str_eqb (meta_type meta) (lit "code")); cbn [andb];
      [|reflexivity].
    rewrite (present_truthy (programmingLanguage meta)).
    destruct (present (programmingLanguage meta)) eqn:Em; [|reflexivity].
    apply present_text. assumption.
Qed.

Lemma step_rewriteArtifact f s :
  StreamFrame "rewriteArtifact" f ->
  step parsePartialJson replaceOrInsertMessageChunk artifact params f s
  = on_rewriteArtifact artifact params f (capture_run_id f s).
Proof.
  intros [Hev Hnode]. rewrite (step_stream f s Hev).
  rewrite on_followup_skip
    by (unfold node_is; rewrite Hnode; reflexivity).
  cbn [and_then].
  rewrite on_generateArtifact_skip
    by (unfold node_is; rewrite Hnode; reflexivity).
  cbn [and_then].
  rewrite on_updateHighlightedText_skip
    by (unfold node_is; rewrite Hnode; reflexivity).
  cbn [and_then].
  rewrite on_updateArtifact_skip
    by (unfold node_is; rewrite Hnode; reflexivity).
  cbn [and_then].
  rewrite !and_then_skip; [reflexivity | ..]; intros s'; other_node Hnode.
Qed.

(** ** Highlighted-text edits *)

Section TextEdit.

Variable art : ArtifactV3.
Variable prevMarkdown : ArtifactMarkdownV3.
Variable hl : TextHighlight.
Hypothesis Hart : artifact = Some art.
Hypothesis Hprev : prevCurrentContent artifact = Some (Markdown prevMarkdown).

(** Every valid delta, the first one included, is appended to the
    prefix, and the prefix and the suffix are computed only when neither is
    set. *)
Lemma text_edit_delta f d s :
  Delta "updateHighlightedText" d f ->
  highlightedText s = Some hl ->
  (updatedArtifactStartContent s = None
   <-> updatedArtifactRestContent s = None) ->
  exists s',
    step parsePartialJson replaceOrInsertMessageChunk artifact params f s
    = Go s'
    /\ updatedArtifactStartContent s' = Some (fst (span_before hl s) ++ d)
    /\ updatedArtifactRestContent s' = Some (snd (span_before hl s))
    /\ highlightedText s' = Some hl
    /\ cur_artifact s'
       = Some (updateHighlightedMarkdown (prev_or s art)
                 ((fst (span_before hl s) ++ d) ++ snd (span_before hl s))
                 (index_or_next art s) prevMarkdown (isFirstUpdate s))
    /\ isFirstUpdate s' = false.
Proof.
  intros (Hf & Hd & Hne) Hhl Hboth.
  rewrite (step_updateHighlightedText f s Hf).
  unfold on_updateHighlightedText.
  pose proof Hprev as Hprev'. rewrite Hart in Hprev'.
  rewrite (node_is_true f _ (proj2 Hf)), Hart.
  unfold payload_content in Hd.
  destruct (payload f) as [message|]; [|discriminate].
  assert (Hh : highlightedText (capture_run_id f s) = Some hl).
  { unfold capture_run_id.
    destruct (negb (truthy (runId s)) && truthy_opt (run_id f)); assumption. }
  rewrite Hh, Hprev', Hd. cbn [truthy_opt to_text].
  rewrite (truthy_nonempty d Hne). cbn [negb].
  eexists; split; [reflexivity|].
  unfold span_before, text_prefix, text_suffix, reserve_index,
    clear_first_update, capture_run_id, index_or_next, prev_or.
  destruct (negb (truthy (runId s)) && truthy_opt (run_id f));
    destruct (updatedArtifactStartContent s) as [p|] eqn:Hs;
    destruct (updatedArtifactRestContent s) as [r|] eqn:Hr;
    try (exfalso; destruct Hboth as [H1 H2];
         (discriminate (H1 eq_refl) || discriminate (H2 eq_refl)));
    destruct (newArtifactIndex s) eqn:Hi;
    destruct (isFirstUpdate s) eqn:Hfirst;
    repeat progress (cbn; rewrite ?Hs, ?Hr, ?Hi, ?Hfirst, ?Hhl);
    repeat split; reflexivity.
Qed.

(** The text materialized after a run of valid deltas is the prefix, the
    deltas in order, and the suffix: it only depends on the concatenation
    of the deltas. *)
Lemma text_edit_run ds :
  forall fs s,
    Forall2 (Delta "updateHighlightedText") ds fs ->
    ds <> [] ->
    highlightedText s = Some hl ->
    (updatedArtifactStartContent s = None
     <-> updatedArtifactRestContent s = None) ->
    exists s' prev idx first,
      run_frames parsePartialJson replaceOrInsertMessageChunk artifact params
        fs s = Go s'
      /\ cur_artifact s'
         = Some (updateHighlightedMarkdown prev
                   ((fst (span_before hl s) ++ List.concat ds)
                    ++ snd (span_before hl s))
                   idx prevMarkdown first).
Proof.
  induction ds as [|d ds IH]; intros fs s Hall Hne Hhl Hboth;
    [contradiction|].
  destruct fs as [|f fs']; [inversion Hall|].
  apply Forall2_cons_iff in Hall. destruct Hall as [Hd Hrest].
  destruct (text_edit_delta f d s Hd Hhl Hboth)
    as (s1 & E1 & Hs1 & Hr1 & Hh1 & Ha1 & _).
  cbn [run_frames]. rewrite E1.
  destruct ds as [|d2 ds].
  - destruct fs' as [|f2 fs']; [|inversion Hrest].
    cbn [run_frames List.concat].
    rewrite app_nil_r. do 4 eexists. split; [reflexivity | exact Ha1].
  - assert (Hboth1 : updatedArtifactStartContent s1 = None
                     <-> updatedArtifactRestContent s1 = None).
    { rewrite Hs1, Hr1. split; discriminate. }
    destruct (IH fs' s1 Hrest ltac:(discriminate) Hh1 Hboth1)
      as (s' & prev & idx & first & E & Ha).
    exists s', prev, idx, first. split; [exact E|].
    rewrite Ha. unfold span_before at 1 2. rewrite Hs1, Hr1.
    cbn [fst snd List.concat]. rewrite <- !app_assoc. reflexivity.
Qed.

Lemma generates_updateHighlightedText f :
  StreamFrame "updateHighlightedText" f -> generates f = false.
Proof.
  intros [_ Hnode]. unfold generates, node_is. rewrite Hnode.
  apply andb_false_r.
Qed.

(** The same run, seen on the artifact: the new snapshot is the last one,
    the only one added, and it carries the materialized text. *)
Lemma text_edit_run_snapshot ds :
  forall fs s,
    Forall2 (Delta "updateHighlightedText") ds fs ->
    ds <> [] ->
    highlightedText s = Some hl ->
    (updatedArtifactStartContent s = None
     <-> updatedArtifactRestContent s = None) ->
    Reserved art s ->
    exists s' a',
      run_frames parsePartialJson replaceOrInsertMessageChunk artifact params
        fs s = Go s'
      /\ cur_artifact s' = Some a'
      /\ List.length (contents a') = S (List.length (contents art))
      /\ last_snapshot a'
         = Some (Markdown
                   {| md_index := next_index art;
                      md_title := md_title prevMarkdown;
                      fullMarkdown :=
                        (fst (span_before hl s) ++ List.concat ds)
                        ++ snd (span_before hl s) |}).
Proof.
  induction ds as [|d ds IH]; intros fs s Hall Hne Hhl Hboth Hres;
    [contradiction|].
  destruct fs as [|f fs']; [inversion Hall|].
  apply Forall2_cons_iff in Hall. destruct Hall as [Hd Hrest].
  destruct (text_edit_delta f d s Hd Hhl Hboth)
    as (s1 & E1 & Hs1 & Hr1 & Hh1 & Ha1 & Hf1).
  assert (Hres1 : Reserved art s1).
  { pose proof (Reserved_step art Hart f s
                  (generates_updateHighlightedText f (proj1 Hd)) Hres) as H.
    rewrite E1 in H. exact H. }
  cbn [run_frames]. rewrite E1.
  destruct ds as [|d2 ds].
  - destruct fs' as [|f2 fs']; [|inversion Hrest].
    cbn [run_frames List.concat]. rewrite app_nil_r.
    eexists; eexists. split; [reflexivity|]. split; [exact Ha1|].
    split.
    + destruct Hres1 as (_ & a1 & Hc1 & Hw). rewrite Hf1 in Hw.
      rewrite Ha1 in Hc1. inversion Hc1; subst a1. apply Hw.
    + unfold updateHighlightedMarkdown.
      rewrite (Reserved_index_or_next art s Hres).
      apply (last_snapshot_write art s); [assumption | reflexivity].
  - assert (Hboth1 : updatedArtifactStartContent s1 = None
                     <-> updatedArtifactRestContent s1 = None).
    { rewrite Hs1, Hr1. split; discriminate. }
    destruct (IH fs' s1 Hrest ltac:(discriminate) Hh1 Hboth1 Hres1)
      as (s' & a' & E & Ha & Hlen & Hlast).
    exists s', a'. split; [exact E|]. split; [exact Ha|].
    split; [exact Hlen|].
    rewrite Hlast. unfold span_before at 1 2. rewrite Hs1, Hr1.
    cbn [fst snd List.concat]. rewrite <- !app_assoc. reflexivity.
Qed.

End TextEdit.

(** The start frame of a highlighted-text edit captures the highlight. *)
Lemma step_capture_highlight f s :
  event f = lit "on_chain_start" ->
  langgraph_node f = lit "updateHighlightedText" ->
  step parsePartialJson replaceOrInsertMessageChunk artifact params f s
  = Go (set_highlightedText (input_highlightedText f) (capture_run_id f s)).
Proof.
  intros Hev Hnode. unfold step. cbn [and_then].
  unfold on_chain_start, on_chat_model_stream, on_chat_model_end, event_is.
  rewrite Hev, (node_is_true f _ Hnode). eval_names.
  reflexivity.
Qed.
End LoopProperties.

(* ================================================================== *)
(** * Properties of [streamMessageV2] *)
(* ================================================================== *)

Section StreamMessage.

Variable parsePartialJson : str -> option ArtifactToolResponse.
Variable replaceOrInsertMessageChunk :
  list BaseMessage -> MessageChunk -> list BaseMessage.
Variable useGraphInput : UseGraphInput.
Variable params : GraphInput.

Lemma Reserved_initial_loop (hook : Hook) (a : ArtifactV3) :
  artifact hook = Some a -> Reserved a (initial_loop hook).
Proof.
  intros H. unfold Reserved, initial_loop. cbn. rewrite H.
  split; [reflexivity|]. exists a. split; reflexivity.
Qed.

(** With both identifiers present, the artifact [streamMessageV2] leaves
    is the one the frame loop ends with. *)
Lemma streamMessageV2_artifact frames transport_fails hook :
  truthy_opt (threadId useGraphInput) = true ->
  truthy_opt (assistantId useGraphInput) = true ->
  artifact (streamMessageV2 parsePartialJson replaceOrInsertMessageChunk
              useGraphInput params frames transport_fails hook)
  = cur_artifact
      (final_state
         (run_frames parsePartialJson replaceOrInsertMessageChunk
            (artifact hook) params frames (initial_loop hook))).
Proof.
  intros Ht Ha. unfold streamMessageV2. rewrite Ht, Ha. cbn [negb].
  destruct (run_frames _ _ _ _ _ _); reflexivity.
Qed.

(** C10.  When the thread id or the assistant id is missing (undefined
    or empty), [streamMessageV2] only notifies an error: the stream is not
    opened (no effect but the notification is added), and the messages,
    the artifact, the selection and the streaming flag are the ones
    before.  The function has no result other than the state. *)
Theorem streamMessageV2_requires_ids
  (frames : list Frame) (transport_fails : bool) (hook : Hook) :
  truthy_opt (threadId useGraphInput) = false
  \/ truthy_opt (assistantId useGraphInput) = false ->
  let hook' :=
    streamMessageV2 parsePartialJson replaceOrInsertMessageChunk
      useGraphInput params frames transport_fails hook in
  messages hook' = messages hook
  /\ artifact hook' = artifact hook
  /\ isStreaming hook' = isStreaming hook
  /\ selectedBlocks hook' = selectedBlocks hook
  /\ exists description,
       effects hook' = effects hook ++ [Toast "Error" description].
Proof.
  intros H hook'. subst hook'. unfold streamMessageV2.
  destruct (truthy_opt (threadId useGraphInput)) eqn:Ht; cbn [negb].
  - destruct H as [H|H]; [discriminate|]. rewrite H. cbn [negb].
    repeat split. eexists; reflexivity.
  - repeat split. eexists; reflexivity.
Qed.

End StreamMessage.

(** ** Highlighted-text edits, end to end *)

(** After the start frame that captures the highlight [hl] and a
    non-empty run of valid deltas, the artifact has exactly one snapshot
    more, and this last snapshot holds the text before the highlighted
    block, the deltas in order, and the text after the block.  The result
    depends on the deltas only through their concatenation. *)
Lemma highlighted_text_edit_append_only
  (parsePartialJson : str -> option ArtifactToolResponse)
  (replaceOrInsertMessageChunk :
     list BaseMessage -> MessageChunk -> list BaseMessage)
  (useGraphInput : UseGraphInput) (params : GraphInput) (hook : Hook)
  (art : ArtifactV3) (prevMarkdown : ArtifactMarkdownV3)
  (hl : TextHighlight) (capture : Frame) (ds : list str)
  (fs : list Frame) (transport_fails : bool) :
  truthy_opt (threadId useGraphInput) = true ->
  truthy_opt (assistantId useGraphInput) = true ->
  artifact hook = Some art ->
  prevCurrentContent (Some art) = Some (Markdown prevMarkdown) ->
  event capture = lit "on_chain_start" ->
  langgraph_node capture = lit "updateHighlightedText" ->
  input_highlightedText capture = Some hl ->
  Forall2 (Delta "updateHighlightedText") ds fs ->
  ds <> [] ->
  exists a',
    artifact (streamMessageV2 parsePartialJson replaceOrInsertMessageChunk
                useGraphInput params (capture :: fs) transport_fails hook)
    = Some a'
    /\ List.length (contents a') = S (List.length (contents art))
    /\ last_snapshot a'
       = Some (Markdown
                 {| md_index := next_index art;
                    md_title := md_title prevMarkdown;
                    fullMarkdown :=
                      (text_prefix hl ++ List.concat ds) ++ text_suffix hl |}).
Proof.
  intros Ht Has Ha Hprev Hev Hnode Hin Hds Hne.
  rewrite (streamMessageV2_artifact parsePartialJson
             replaceOrInsertMessageChunk useGraphInput params _ _ hook Ht Has).
  cbn [run_frames]. rewrite Ha.
  rewrite (step_capture_highlight parsePartialJson
             replaceOrInsertMessageChunk (Some art) params capture _ Hev
             Hnode), Hin.
  set (s := set_highlightedText (Some hl)
              (capture_run_id capture (initial_loop hook))).
  assert (Hs : updatedArtifactStartContent s = None).
  { unfold s, capture_run_id.
    destruct (negb _ && _); reflexivity. }
  assert (Hr : updatedArtifactRestContent s = None).
  { unfold s, capture_run_id.
    destruct (negb _ && _); reflexivity. }
  destruct (text_edit_run_snapshot parsePartialJson
              replaceOrInsertMessageChunk (Some art) params art prevMarkdown
              hl eq_refl Hprev ds fs s Hds Hne)
    as (s' & a' & E & Hc & Hlen & Hlast).
  - reflexivity.
  - rewrite Hs, Hr. split; reflexivity.
  - apply (Reserved_same art (initial_loop hook)).
    + unfold s. auto with loop.
    + apply Reserved_initial_loop. assumption.
  - exists a'. rewrite E. cbn [final_state].
    split; [exact Hc|]. split; [exact Hlen|].
    rewrite Hlast. unfold span_before. rewrite Hs. reflexivity.
Qed.
(* ================================================================== *)
(** * Properties of the setters *)
(* ================================================================== *)

Lemma type_is_code (a : ArtifactContent) :
  str_eqb (type a) (lit "code") = isArtifactCodeContent a.
Proof. destruct a; reflexivity. Qed.

(** C9.  [setArtifactContent idx content] leaves the messages and the
    selection alone and ends with the streaming flag cleared.  With an
    artifact, [currentIndex] becomes [idx], nothing is reported, and the
    snapshots are the ones before, in the same order, except that every
    code snapshot whose index is [idx] has its code replaced (by the
    content, passed through [reverseCleanContent]) and keeps its index,
    title and language; when no snapshot is a code snapshot at [idx], the
    snapshots are unchanged.  Without an artifact there is still none, and
    an error is notified. *)
Theorem setArtifactContent_frame
  (reverseCleanContent : str -> str) (idx : Z) (content : str)
  (hook : Hook) :
  let hook' := setArtifactContent reverseCleanContent idx content hook in
  messages hook' = messages hook
  /\ selectedBlocks hook' = selectedBlocks hook
  /\ isStreaming hook' = false
  /\ (forall prev,
        artifact hook = Some prev ->
        effects hook' = effects hook
        /\ exists a',
             artifact hook' = Some a'
             /\ currentIndex a' = idx
             /\ Forall2
                  (fun old new =>
                     if targeted idx old then
                       exists c,
                         old = Code c
                         /\ new = Code {| code_index := code_index c;
                                          code_title := code_title c;
                                          language := language c;
                                          code := reverseCleanContent content
                                       |}
                     else new = old)
                  (contents prev) (contents a')
             /\ (forallb (fun a => negb (targeted idx a)) (contents prev)
                 = true ->
                 contents a' = contents prev))
  /\ (artifact hook = None ->
      artifact hook' = None
      /\ effects hook'
         = effects hook ++ [Toast "Error" "No artifact found"]).
Proof.
  intros hook'. subst hook'. unfold setArtifactContent.
  destruct (artifact hook) as [prev|] eqn:Ha;
    cbn [messages selectedBlocks isStreaming artifact effects];
    refine (conj eq_refl (conj eq_refl (conj eq_refl (conj _ _)))).
  - intros prev' Hp. inversion Hp; subst prev'. split; [reflexivity|].
    eexists. split; [reflexivity|]. split; [reflexivity|].
    cbn [contents]. split.
    + induction (contents prev) as [|a l IH]; cbn [map]; constructor;
        [|exact IH].
      rewrite type_is_code. unfold targeted.
      destruct (index a =? idx); cbn [andb]; [|reflexivity].
      destruct a as [m|c]; cbn [isArtifactCodeContent]; [reflexivity|].
      exists c. split; reflexivity.
    + induction (contents prev) as [|a l IH]; cbn [map forallb];
        [reflexivity|].
      rewrite andb_true_iff, negb_true_iff. intros [Hn Hl].
      rewrite type_is_code. unfold targeted in Hn. rewrite Hn, (IH Hl).
      reflexivity.
  - discriminate.
  - intros prev Hp. discriminate.
  - intros _. split; reflexivity.
Qed.

(* ================================================================== *)
(** * Properties of [switchSelectedThread] *)
(* ================================================================== *)

(** The [map] callback appends the annotation to every message that
    carries a shared-run URL with the public prefix, whether or not the
    message already has one. *)
Lemma attach_shared_run_appends (msg : BaseMessage) (id : option str) :
  truthy_opt (langSmithRunURL msg) = true ->
  shared_run_id (langSmithRunURL msg) = Some id ->
  attach_shared_run msg
  = (with_tool_calls
       (Some (match tool_calls msg with Some l => l | None => [] end
              ++ [tool_ui_call (langSmithRunURL msg) id])) msg,
     false).
Proof.
  intros Hurl Hid. unfold attach_shared_run. rewrite Hurl, Hid. reflexivity.
Qed.
(* ================================================================== *)
(** * Scenarios of the specification *)
(* ================================================================== *)




(** C1: the ranged code edit does not append its first delta, so the
    result depends on how the replacement text is chunked.  The
    replacement ["XXX"] for the range 3..6 of ["abc123xyz"] gives
    ["abcxyz"] in one delta, ["abcXXxyz"] in the deltas ["X"], ["XX"], and
    ["abcXxyz"] in the deltas ["XX"], ["X"]; none is ["abcXXXxyz"]. *)
Theorem ranged_edit_drops_first_delta :
  last_code
    (streamMessageV2 no_parse keep_messages session range_3_6
       [content_delta "updateArtifact" (lit "XXX")] false code_hook)
  = Some (lit "abcxyz")
  /\ last_code
       (streamMessageV2 no_parse keep_messages session range_3_6
          [content_delta "updateArtifact" (lit "X");
           content_delta "updateArtifact" (lit "XX")] false code_hook)
     = Some (lit "abcXXxyz")
  /\ last_code
       (streamMessageV2 no_parse keep_messages session range_3_6
          [content_delta "updateArtifact" (lit "XX");
           content_delta "updateArtifact" (lit "X")] false code_hook)
     = Some (lit "abcXxyz").
Proof. repeat split; vm_compute; reflexivity. Qed.

(** The highlighted-text edit appends every delta: the same replacement
    gives the same text however it is chunked. *)
Example highlighted_text_scenario :
  artifact
    (streamMessageV2 no_parse keep_messages session no_range
       [capture_highlight hello_world;
        content_delta "updateHighlightedText" (lit "Hi");
        content_delta "updateHighlightedText" (lit " there")]
       false text_hook)
  = Some {| currentIndex := 2;
            contents :=
              [Markdown title_hello;
               Markdown {| md_index := 2;
                           md_title := lit "note";
                           fullMarkdown :=
                             lit "## Title" ++ [LF; LF] ++ lit "Hi there" |}]
         |}
  /\ artifact
       (streamMessageV2 no_parse keep_messages session no_range
          [capture_highlight hello_world;
           content_delta "updateHighlightedText" (lit "Hi there")]
          false text_hook)
     = artifact
         (streamMessageV2 no_parse keep_messages session no_range
            [capture_highlight hello_world;
             content_delta "updateHighlightedText" (lit "H");
             content_delta "updateHighlightedText" (lit "i ");
             content_delta "updateHighlightedText" (lit "there")]
            false text_hook).
Proof. split; vm_compute; reflexivity. Qed.

(** ** Generating an artifact *)

Lemma generateArtifact_delta_witness :
  cur_artifact after_two_fragments = None
  /\ exists content,
       cur_artifact
         (final_state
            (step parse_add keep_messages None no_range
               (tool_call_delta fragment_3) after_two_fragments))
       = Some {| currentIndex := 1; contents := [content] |}
       /\ index content = 1
       /\ type content = lit "code"
       /\ content_text content = lit "function add(a,b){".
Proof.
  split; [reflexivity|].
  destruct (generateArtifact_delta parse_add keep_messages None no_range
              (tool_call_delta fragment_3) after_two_fragments
              (conj eq_refl eq_refl))
    as (_ & _ & _ & H & _).
  apply (H {| tr_artifact := Some (lit "function add(a,b){");
              tr_title := None;
              tr_language := Some (lit "javascript");
              tr_type := Some (lit "code") |}); reflexivity.
Defined.

Example generateArtifact_scenario :
  artifact
    (streamMessageV2 parse_add keep_messages session no_range
       [tool_call_delta fragment_1; tool_call_delta fragment_2;
        tool_call_delta fragment_3] false text_hook)
  = Some {| currentIndex := 1;
            contents :=
              [Code {| code_index := 1;
                       code_title := [];
                       language := lit "javascript";
                       code := lit "function add(a,b){" |}] |}.
Proof. vm_compute. reflexivity. Qed.

(** ** Preconditions of a highlighted-text edit *)

Lemma highlighted_text_preconditions_witness :
  run_frames no_parse keep_messages (artifact text_hook) no_range
    [content_delta "updateHighlightedText" (lit "Hi");
     content_delta "rewriteArtifactTheme" (lit "Z")]
    (initial_loop text_hook)
  = run_frames no_parse keep_messages (artifact text_hook) no_range
      [content_delta "rewriteArtifactTheme" (lit "Z")]
      (toast_error "No highlighted text found" (initial_loop text_hook))
  /\ run_frames no_parse keep_messages (artifact code_hook) no_range
       [content_delta "updateHighlightedText" (lit "Hi");
        content_delta "rewriteArtifactTheme" (lit "Z")]
       (with_highlight hello_world code_hook)
     = Return
         (toast_error "Received non markdown block update"
            (with_highlight hello_world code_hook)).
Proof.
  split.
  - destruct (highlighted_text_preconditions no_parse keep_messages
                (artifact text_hook) no_range
                (content_delta "updateHighlightedText" (lit "Hi"))
                {| chunk_id := None; chunk_content := Some (lit "Hi");
                   chunk_tool_args := None |}
                [content_delta "rewriteArtifactTheme" (lit "Z")]
                (initial_loop text_hook) (conj eq_refl eq_refl) eq_refl)
      as (_ & H & _).
    apply H; [discriminate | reflexivity].
  - destruct (highlighted_text_preconditions no_parse keep_messages
                (artifact code_hook) no_range
                (content_delta "updateHighlightedText" (lit "Hi"))
                {| chunk_id := None; chunk_content := Some (lit "Hi");
                   chunk_tool_args := None |}
                [content_delta "rewriteArtifactTheme" (lit "Z")]
                (with_highlight hello_world code_hook)
                (conj eq_refl eq_refl) eq_refl)
      as (_ & _ & _ & H & _).
    apply (H abc123xyz); [discriminate | discriminate | reflexivity].
Defined.

(** C4, as stated, fails: a highlighted-text delta that meets a code
    snapshot ends the whole fold.  With a theme delta behind it, the theme
    delta is not processed (the artifact keeps its single snapshot, where
    the fold without the text delta adds one), and the run is not shared
    although its id was captured. *)
Lemma wrong_variant_ends_the_fold :
  artifact text_delta_on_code = artifact code_hook
  /\ effects text_delta_on_code
     = [StreamOpened; Toast "Error" "Received non markdown block update"]
  /\ artifact theme_delta_on_code <> artifact text_delta_on_code
  /\ effects theme_delta_on_code = [StreamOpened; ShareRun (lit "run-1")].
Proof.
  repeat split; try (vm_compute; reflexivity).
  vm_compute. discriminate.
Qed.

(** ** The language of a rewritten artifact *)

(** The four levels of the precedence, on the code document. *)
Example language_precedence_levels :
  resolveArtifactLanguage (artifact code_hook)
    {| highlighted := None; portLanguage := Some (lit "rust") |} python_meta
  = lit "rust"
  /\ resolveArtifactLanguage (artifact code_hook) no_range python_meta
     = lit "python"
  /\ resolveArtifactLanguage (artifact code_hook) no_range
       {| meta_type := lit "text"; meta_title := lit "t";
          programmingLanguage := Some (lit "python") |}
     = lit "snippet"
  /\ resolveArtifactLanguage None no_range
       {| meta_type := lit "text"; meta_title := lit "t";
          programmingLanguage := None |}
     = lit "other".
Proof. repeat split. Qed.

(** ** The setters *)

Lemma setArtifactContent_frame_witness :
  effects edited_code_hook = effects code_hook
  /\ exists a',
       artifact edited_code_hook = Some a'
       /\ currentIndex a' = 1
       /\ Forall2
            (fun old new =>
               if targeted 1 old then
                 exists c,
                   old = Code c
                   /\ new = Code {| code_index := code_index c;
                                    code_title := code_title c;
                                    language := language c;
                                    code := lit "abcXYZ" |}
               else new = old)
            [Code abc123xyz] (contents a')
       /\ (forallb (fun a => negb (targeted 1 a)) [Code abc123xyz] = true ->
           contents a' = [Code abc123xyz]).
Proof.
  exact (proj1 (proj2 (proj2 (proj2
           (setArtifactContent_frame (fun c => c) 1 (lit "abcXYZ")
              code_hook))))
           {| currentIndex := 1; contents := [Code abc123xyz] |} eq_refl).
Defined.

Lemma streamMessageV2_requires_ids_witness :
  messages fold_without_thread = messages code_hook
  /\ artifact fold_without_thread = artifact code_hook
  /\ isStreaming fold_without_thread = isStreaming code_hook
  /\ selectedBlocks fold_without_thread = selectedBlocks code_hook
  /\ exists description,
       effects fold_without_thread
       = effects code_hook ++ [Toast "Error" description].
Proof.
  apply (streamMessageV2_requires_ids no_parse keep_messages no_thread
           range_3_6 [content_delta "updateArtifact" (lit "XXX")] false
           code_hook).
  left. reflexivity.
Defined.

(** ** Switching to a thread *)

(** C8: [switchSelectedThread] attaches the annotation to a message that
    already carries it, and since it writes into the message records of
    the thread object, selecting the same thread object a second time
    annotates its messages twice; the share-run update of the fold leaves
    an annotated message alone. *)
Theorem switchSelectedThread_duplicates_annotation :
  messages
    (hook_after
       (switchSelectedThread as_current (thread_of [annotated_message])
          empty_hook))
  = [doubly_annotated_message]
  /\ messages (hook_after first_switch) = [annotated_message]
  /\ messages
       (hook_after
          (switchSelectedThread as_current (thread_after first_switch)
             (hook_after first_switch)))
     = [doubly_annotated_message]
  /\ onRunShared (Some (lit "m1")) (Some shared_url) [annotated_message]
     = Some [annotated_message]
  /\ onRunShared (Some (lit "m1")) (Some shared_url) [plain_message]
     = Some [annotated_message].
Proof. repeat split; vm_compute; reflexivity. Qed.

(** A shared-run URL without the public prefix makes the traversal throw:
    the messages of the hook are not replaced. *)
Example switchSelectedThread_foreign_url :
  threw (switchSelectedThread as_current (thread_of [foreign_message])
           text_hook) = true
  /\ messages
       (hook_after
          (switchSelectedThread as_current (thread_of [foreign_message])
             text_hook))
     = messages text_hook.
Proof. split; vm_compute; reflexivity. Qed.

(* ================================================================== *)
(** * Further facts about the frame loop *)
(* ================================================================== *)

Lemma and_then_go (c : Ctl) (k : Loop -> Ctl) (s' : Loop) :
  c >>= k = Go s' -> exists s1, c = Go s1 /\ k s1 = Go s'.
Proof.
  destruct c as [s1|s1|s1]; cbn [and_then]; intros H; try discriminate.
  exists s1. split; [reflexivity | exact H].
Qed.

(** The artifact and the flag after a write. *)
Lemma written_state (a : option ArtifactV3) (s : Loop) :
  cur_artifact (clear_first_update (set_cur_artifact a s)) = a
  /\ isFirstUpdate (clear_first_update (set_cur_artifact a s)) = false
  /\ newArtifactContent (clear_first_update (set_cur_artifact a s))
     = newArtifactContent s
  /\ rewriteArtifactMeta (clear_first_update (set_cur_artifact a s))
     = rewriteArtifactMeta s
  /\ logged (clear_first_update (set_cur_artifact a s)) = logged s.
Proof.
  unfold clear_first_update. cbn [isFirstUpdate set_cur_artifact].
  destruct (isFirstUpdate s) eqn:E; cbn; rewrite ?E; repeat split.
Qed.

(** Splits a goal along every [match] and [if] of a handler. *)
Ltac by_cases :=
  repeat match goal with
    | |- context [match ?x with _ => _ end] => destruct x eqn:?
    end.

(** Closes [handler f s = Go s' -> logged s' = logged s] once the handler
    is unfolded. *)
Ltac go_keeps_log :=
  by_cases; intros H; try discriminate H;
  injection H as <-; reflexivity.

Section LoopFacts.

Variable parsePartialJson : str -> option ArtifactToolResponse.
Variable replaceOrInsertMessageChunk :
  list BaseMessage -> MessageChunk -> list BaseMessage.
Variable artifact : option ArtifactV3.
Variable params : GraphInput.


(** Every report of the loop body goes with a [continue] or a [return]:
    a frame whose statements all fall through has reported nothing. *)
Lemma capture_run_id_log f s : logged (capture_run_id f s) = logged s.
Proof. unfold capture_run_id. destruct (negb _ && _); reflexivity. Qed.

Lemma on_chain_start_log f s s' :
  on_chain_start f s = Go s' -> logged s' = logged s.
Proof. unfold on_chain_start. go_keeps_log. Qed.

Lemma on_followup_log f s s' :
  on_followup replaceOrInsertMessageChunk f s = Go s' ->
  logged s' = logged s.
Proof. unfold on_followup, throw. go_keeps_log. Qed.

Lemma on_generateArtifact_log f s s' :
  on_generateArtifact parsePartialJson f s = Go s' -> logged s' = logged s.
Proof. unfold on_generateArtifact. go_keeps_log. Qed.

Lemma on_updateHighlightedText_log f s s' :
  on_updateHighlightedText artifact f s = Go s' -> logged s' = logged s.
Proof.
  unfold on_updateHighlightedText, throw, toast_error, reserve_index,
    clear_first_update.
  go_keeps_log.
Qed.

Lemma on_updateArtifact_log f s s' :
  on_updateArtifact artifact params f s = Go s' -> logged s' = logged s.
Proof.
  unfold on_updateArtifact, throw, toast_error, reserve_index,
    clear_first_update.
  go_keeps_log.
Qed.

Lemma on_rewriteArtifact_log f s s' :
  on_rewriteArtifact artifact params f s = Go s' -> logged s' = logged s.
Proof.
  unfold on_rewriteArtifact, throw, toast_error, reserve_index,
    clear_first_update.
  go_keeps_log.
Qed.

Lemma on_rewriteTheme_log f s s' :
  on_rewriteTheme artifact params f s = Go s' -> logged s' = logged s.
Proof.
  unfold on_rewriteTheme, throw, toast_error, reserve_index,
    clear_first_update.
  go_keeps_log.
Qed.

Lemma on_chat_model_end_log f s s' :
  on_chat_model_end f s = Go s' -> logged s' = logged s.
Proof. unfold on_chat_model_end, throw. go_keeps_log. Qed.

Lemma step_go_log f s s' :
  step parsePartialJson replaceOrInsertMessageChunk artifact params f s
  = Go s' ->
  logged s' = logged s.
Proof.
  unfold step. intros H.
  apply and_then_go in H. destruct H as (s3 & H & H3).
  apply and_then_go in H. destruct H as (s2 & H & H2).
  apply and_then_go in H. destruct H as (s1 & H & H1).
  injection H as <-.
  rewrite (on_chat_model_end_log _ _ _ H3).
  apply on_chain_start_log in H1. rewrite <- (capture_run_id_log f s).
  rewrite <- H1. clear H3 H1.
  unfold on_chat_model_stream in H2.
  destruct (event_is f "on_chat_model_stream");
    [|injection H2 as <-; reflexivity].
  apply and_then_go in H2. destruct H2 as (t5 & H2 & H6).
  apply and_then_go in H2. destruct H2 as (t4 & H2 & H5).
  apply and_then_go in H2. destruct H2 as (t3 & H2 & H4).
  apply and_then_go in H2. destruct H2 as (t2 & H2 & H3).
  apply and_then_go in H2. destruct H2 as (t1 & H2 & H1).
  rewrite (on_rewriteTheme_log _ _ _ H6), (on_rewriteArtifact_log _ _ _ H5),
    (on_updateArtifact_log _ _ _ H4),
    (on_updateHighlightedText_log _ _ _ H3),
    (on_generateArtifact_log _ _ _ H1).
  apply (on_followup_log _ _ _ H2).
Qed.

End LoopFacts.

(** The arguments of a snapshot write, read off the state the frame
    meets: capturing the run id, appending to the rewritten content and
    reserving the index change none of them. *)
Lemma write_args (a : ArtifactV3) (f : Frame) (s : Loop) (content : str) :
  prev_or (reserve_index a
             (set_newArtifactContent content (capture_run_id f s))) a
  = prev_or s a
  /\ index_or_next_truthy a
       (reserve_index a
          (set_newArtifactContent content (capture_run_id f s)))
     = index_or_next_truthy a (reserve_index a s)
  /\ isFirstUpdate
       (reserve_index a
          (set_newArtifactContent content (capture_run_id f s)))
     = isFirstUpdate s
  /\ newArtifactContent
       (reserve_index a
          (set_newArtifactContent content (capture_run_id f s)))
     = content
  /\ rewriteArtifactMeta
       (reserve_index a
          (set_newArtifactContent content (capture_run_id f s)))
     = rewriteArtifactMeta s.
Proof.
  unfold reserve_index, capture_run_id, prev_or, index_or_next_truthy.
  destruct (negb (truthy (runId s)) && truthy_opt (run_id f)); cbn;
    destruct (newArtifactIndex s) eqn:E; cbn; rewrite ?E; repeat split.
Qed.

(** What [updateRewrittenArtifact] leaves in a fold that has reserved its
    index: one snapshot more than before the fold, the last one, with the
    content, the title and, for code, the language it was given. *)
Lemma rewritten_write (art : ArtifactV3) (s : Loop) (content : str)
  (meta : RewriteArtifactMetaToolResponse) (lang : str) :
  Reserved art s ->
  List.length
    (contents
       (updateRewrittenArtifact (prev_or s art) content meta
          (index_or_next_truthy art (reserve_index art s))
          (isFirstUpdate s) lang))
  = S (List.length (contents art))
  /\ currentIndex
       (updateRewrittenArtifact (prev_or s art) content meta
          (index_or_next_truthy art (reserve_index art s))
          (isFirstUpdate s) lang)
     = Z.of_nat (List.length (contents art)) + 1
  /\ last_snapshot
       (updateRewrittenArtifact (prev_or s art) content meta
          (index_or_next_truthy art (reserve_index art s))
          (isFirstUpdate s) lang)
     = Some (if str_eqb (meta_type meta) (lit "code") then
               Code {| code_index :=
                         Z.of_nat (List.length (contents art)) + 1;
                       code_title := meta_title meta;
                       language := lang;
                       code := content |}
             else
               Markdown {| md_index :=
                             Z.of_nat (List.length (contents art)) + 1;
                           md_title := meta_title meta;
                           fullMarkdown := content |}).
Proof.
  intros Hres.
  assert (Hsame : reserve_index art s = s).
  { unfold reserve_index. destruct Hres as (Hi & _). rewrite Hi.
    reflexivity. }
  rewrite Hsame, (Reserved_index_or_next_truthy art s Hres).
  change (Z.of_nat (List.length (contents art)) + 1) with (next_index art).
  destruct (Reserved_index_of_rewritten (prev_or s art) content meta
              (next_index art) (isFirstUpdate s) lang)
    as (snapshot & Ew & Hidx).
  assert (Esnap :
    snapshot
    = if str_eqb (meta_type meta) (lit "code") then
        Code {| code_index := next_index art;
                code_title := meta_title meta;
                language := lang;
                code := content |}
      else
        Markdown {| md_index := next_index art;
                    md_title := meta_title meta;
                    fullMarkdown := content |}).
  { unfold updateRewrittenArtifact in Ew.
    assert (Hl : last_snapshot
                   (write_snapshot (prev_or s art) snapshot
                      (isFirstUpdate s)) = Some snapshot)
      by (apply last_snapshot_write; assumption).
    rewrite <- Ew in Hl.
    rewrite last_snapshot_write in Hl.
    - injection Hl as Hl. symmetry. exact Hl.
    - assumption.
    - destruct (str_eqb (meta_type meta) (lit "code")); reflexivity. }
  rewrite Ew. split; [|split].
  - destruct Hres as (Hi & a' & Ha & Hw).
    unfold write_snapshot, prev_or. rewrite Ha.
    destruct (isFirstUpdate s); cbn [contents].
    + subst a'. rewrite length_app. cbn [List.length]. lia.
    + rewrite length_map. apply Hw.
  - unfold write_snapshot. cbn [currentIndex]. exact Hidx.
  - rewrite <- Esnap. apply last_snapshot_write; assumption.
Qed.

(** ** Runs of deltas that rewrite the whole document *)

Section RewrittenRun.

Variable parsePartialJson : str -> option ArtifactToolResponse.
Variable replaceOrInsertMessageChunk :
  list BaseMessage -> MessageChunk -> list BaseMessage.
Variable artifact : option ArtifactV3.
Variable params : GraphInput.
Variable art : ArtifactV3.
Hypothesis Hart : artifact = Some art.

(** The metadata and the language every delta of the run hands to the
    updater, the frames of the run, and what their handler needs of the
    state. *)
Variable meta : RewriteArtifactMetaToolResponse.
Variable lang : str.
Variable InRun : Frame -> Prop.
Variable Ready : Loop -> Prop.

Hypothesis Hstep :
  forall f s,
    InRun f -> Ready s ->
    generates f = false
    /\ exists s2,
         step parsePartialJson replaceOrInsertMessageChunk artifact params
           f s
         = Go (clear_first_update
                 (set_cur_artifact
                    (Some (updateRewrittenArtifact (prev_or s art)
                             (if str_eqb (meta_type meta) (lit "code")
                              then removeCodeBlockFormatting
                                     (newArtifactContent s
                                      ++ content_or_empty f)
                              else newArtifactContent s
                                   ++ content_or_empty f)
                             meta
                             (index_or_next_truthy art
                                (reserve_index art s))
                             (isFirstUpdate s) lang))
                    s2))
         /\ newArtifactContent s2
            = newArtifactContent s ++ content_or_empty f
         /\ forall a, Ready (clear_first_update (set_cur_artifact a s2)).

Lemma rewritten_run (fs : list Frame) :
  forall s,
    Forall InRun fs -> fs <> [] -> Ready s -> Reserved art s ->
    exists s' a',
      run_frames parsePartialJson replaceOrInsertMessageChunk artifact
        params fs s = Go s'
      /\ Ready s'
      /\ newArtifactContent s'
         = newArtifactContent s ++ List.concat (map content_or_empty fs)
      /\ isFirstUpdate s' = false
      /\ cur_artifact s' = Some a'
      /\ List.length (contents a') = S (List.length (contents art))
      /\ currentIndex a' = Z.of_nat (List.length (contents art)) + 1
      /\ last_snapshot a'
         = Some (if str_eqb (meta_type meta) (lit "code") then
                   Code {| code_index :=
                             Z.of_nat (List.length (contents art)) + 1;
                           code_title := meta_title meta;
                           language := lang;
                           code :=
                             removeCodeBlockFormatting
                               (newArtifactContent s') |}
                 else
                   Markdown {| md_index :=
                                 Z.of_nat (List.length (contents art)) + 1;
                               md_title := meta_title meta;
                               fullMarkdown := newArtifactContent s' |}).
Proof.
  induction fs as [|f fs IH]; intros s Hall Hne Hready Hres;
    [contradiction|].
  apply Forall_cons_iff in Hall. destruct Hall as [Hf Hrest].
  destruct (Hstep f s Hf Hready) as (Hgen & s2 & E & Hc & Hready').
  pose proof (Reserved_step parsePartialJson replaceOrInsertMessageChunk
                artifact params art Hart f s Hgen Hres) as Hres1.
  cbn [run_frames]. rewrite E in Hres1 |- *. cbn [final_state] in Hres1.
  match type of Hres1 with
  | Reserved art (clear_first_update (set_cur_artifact ?a s2)) =>
      set (written := a) in *
  end.
  set (s1 := clear_first_update (set_cur_artifact written s2)) in *.
  destruct (written_state written s2) as (Ha1 & Hf1 & Hc1 & _ & _).
  fold s1 in Ha1, Hf1, Hc1. rewrite Hc in Hc1.
  destruct fs as [|f2 fs].
  - cbn [run_frames map List.concat]. rewrite app_nil_r.
    destruct (rewritten_write art s
                (if str_eqb (meta_type meta) (lit "code")
                 then removeCodeBlockFormatting
                        (newArtifactContent s ++ content_or_empty f)
                 else newArtifactContent s ++ content_or_empty f)
                meta lang Hres) as (Hlen & Hcur & Hlast).
    eexists s1, _.
    split; [reflexivity|]. split; [apply Hready'|]. split; [exact Hc1|].
    split; [exact Hf1|]. split; [exact Ha1|].
    split; [exact Hlen|]. split; [exact Hcur|].
    rewrite Hlast, Hc1.
    destruct (str_eqb (meta_type meta) (lit "code")); reflexivity.
  - destruct (IH s1 Hrest ltac:(discriminate) (Hready' written) Hres1)
      as (s' & a' & E' & Hr' & Hc' & Hf' & Ha' & Hlen' & Hcur' & Hlast').
    exists s', a'. split; [exact E'|]. split; [exact Hr'|]. split.
    + rewrite Hc', Hc1. cbn [map List.concat].
      rewrite <- !app_assoc. reflexivity.
    + split; [exact Hf'|]. split; [exact Ha'|]. split; [exact Hlen'|].
      split; [exact Hcur' | exact Hlast'].
Qed.

End RewrittenRun.

(* ================================================================== *)
(** * Splitting a document around a span *)
(* ================================================================== *)

Lemma len_nonneg (s : str) : 0 <= len s.
Proof. unfold len. lia. Qed.

Lemma slice_firstn (s : str) (i : Z) :
  0 <= i <= len s -> slice s 0 i = firstn (Z.to_nat i) s.
Proof.
  intros Hi. unfold slice, rel_index.
  destruct (0 <? 0) eqn:E0; [apply Z.ltb_lt in E0; lia|].
  destruct (i <? 0) eqn:Ei; [apply Z.ltb_lt in Ei; lia|].
  rewrite Z.min_l by lia. rewrite Z.min_l by lia.
  rewrite Z.sub_0_r. reflexivity.
Qed.

Lemma slice_from_skipn (s : str) (i : Z) :
  0 <= i -> slice_from s i = skipn (Z.to_nat i) s.
Proof.
  intros Hi. unfold slice_from, slice, rel_index.
  pose proof (len_nonneg s) as Hl.
  destruct (i <? 0) eqn:Ei; [apply Z.ltb_lt in Ei; lia|].
  destruct (len s <? 0) eqn:El; [apply Z.ltb_lt in El; lia|].
  rewrite (Z.min_l (len s)) by lia.
  destruct (Z.le_gt_cases i (len s)) as [Hle|Hgt].
  - rewrite Z.min_l by lia. apply firstn_all2.
    rewrite length_skipn. unfold len in *. lia.
  - rewrite Z.min_r by lia. rewrite Z.sub_diag. cbn [Z.to_nat firstn].
    symmetry. apply skipn_all2. unfold len in *. lia.
Qed.

Lemma slice_middle (s : str) (a b : Z) :
  0 <= a <= b -> b <= len s ->
  slice s a b = firstn (Z.to_nat (b - a)) (skipn (Z.to_nat a) s).
Proof.
  intros Ha Hb. unfold slice, rel_index.
  destruct (a <? 0) eqn:Ea; [apply Z.ltb_lt in Ea; lia|].
  destruct (b <? 0) eqn:Eb; [apply Z.ltb_lt in Eb; lia|].
  rewrite !Z.min_l by lia. reflexivity.
Qed.

(** The three parts of a string cut at two offsets in range give back
    the string. *)
Lemma slice_partition (s : str) (a b : Z) :
  0 <= a <= b -> b <= len s ->
  slice s 0 a ++ slice s a b ++ slice_from s b = s.
Proof.
  intros Ha Hb.
  rewrite slice_firstn by lia. rewrite slice_middle by lia.
  rewrite slice_from_skipn by lia.
  replace (Z.to_nat b) with (Z.to_nat (b - a) + Z.to_nat a)%nat by lia.
  rewrite <- skipn_skipn.
  rewrite (firstn_skipn (Z.to_nat (b - a)) (skipn (Z.to_nat a) s)).
  apply firstn_skipn.
Qed.

Lemma starts_with_app (p s : str) :
  starts_with p s = true -> s = p ++ skipn (List.length p) s.
Proof.
  revert s; induction p as [|x p IH]; intros [|y s]; simpl;
    try discriminate; try reflexivity.
  rewrite andb_true_iff. intros [Hxy Hp].
  apply N.eqb_eq in Hxy. subst y. f_equal. apply IH. assumption.
Qed.

Lemma starts_with_prefix (p t : str) : starts_with p (p ++ t) = true.
Proof.
  induction p as [|x p IH]; simpl; [reflexivity|].
  unfold char_eqb. rewrite N.eqb_refl. assumption.
Qed.

(** [indexOf_from] finds the first offset at which [sub] starts. *)
Lemma indexOf_from_found (sub : str) :
  forall s i r,
    indexOf_from s sub i = r -> r <> -1 -> 0 <= i ->
    exists n,
      r = i + Z.of_nat n
      /\ (n <= List.length s)%nat
      /\ starts_with sub (skipn n s) = true
      /\ forall m, (m < n)%nat -> starts_with sub (skipn m s) = false.
Proof.
  induction s as [|c s IH]; intros i r Hr Hne Hi; simpl in Hr.
  - destruct (starts_with sub []) eqn:E; [|congruence].
    exists 0%nat. split; [lia|]. split; [simpl; lia|].
    split; [assumption|]. intros m Hm. lia.
  - destruct (starts_with sub (c :: s)) eqn:E.
    + exists 0%nat. split; [lia|]. split; [simpl; lia|].
      split; [assumption|]. intros m Hm. lia.
    + destruct (IH (i + 1) r Hr Hne ltac:(lia))
        as (n & Hn & Hlen & Hst & Hfirst).
      exists (S n). split; [lia|]. split; [simpl; lia|].
      split; [assumption|].
      intros [|m] Hm; [exact E|]. apply Hfirst. lia.
Qed.

Lemma indexOf_from_missing (sub : str) :
  forall s i,
    0 <= i -> indexOf_from s sub i = -1 ->
    forall m, starts_with sub (skipn m s) = false.
Proof.
  induction s as [|c s IH]; intros i Hi Hr m; simpl in Hr.
  - destruct (starts_with sub []) eqn:E; [lia|].
    destruct m; exact E.
  - destruct (starts_with sub (c :: s)) eqn:E; [lia|].
    destruct m as [|m]; [exact E|]. apply (IH (i + 1)); [lia | exact Hr].
Qed.

Lemma indexOf_from_range (sub : str) :
  forall s i, 0 <= i -> indexOf_from s sub i = -1 \/ i <= indexOf_from s sub i.
Proof.
  induction s as [|c s IH]; intros i Hi; simpl.
  - destruct (starts_with sub []); [right; lia | left; reflexivity].
  - destruct (starts_with sub (c :: s)); [right; lia|].
    destruct (IH (i + 1) ltac:(lia)); [left; assumption | right; lia].
Qed.

(** The prefix and the suffix of a highlight whose block occurs, as parts
    of the document at the offset of the first occurrence. *)
Lemma text_span_offsets (hl : TextHighlight) :
  indexOf (th_fullMarkdown hl) (th_markdownBlock hl) <> -1 ->
  exists n,
    indexOf (th_fullMarkdown hl) (th_markdownBlock hl) = Z.of_nat n
    /\ (n <= List.length (th_fullMarkdown hl))%nat
    /\ text_prefix hl = firstn n (th_fullMarkdown hl)
    /\ skipn n (th_fullMarkdown hl) = th_markdownBlock hl ++ text_suffix hl
    /\ forall m,
         (m < n)%nat ->
         starts_with (th_markdownBlock hl) (skipn m (th_fullMarkdown hl))
         = false.
Proof.
  intros Hfound. unfold text_prefix, text_suffix.
  set (full := th_fullMarkdown hl) in *.
  set (block := th_markdownBlock hl) in *.
  destruct (indexOf_from_found block full 0 (indexOf full block) eq_refl
              Hfound ltac:(lia)) as (n & Hn & Hlen & Hst & Hfirst).
  exists n. rewrite Hn. cbn [Z.add].
  pose proof (starts_with_app block (skipn n full) Hst) as Hsplit.
  assert (Hb : (List.length block <= List.length full - n)%nat).
  { apply (f_equal (@List.length _)) in Hsplit.
    rewrite length_app, !length_skipn in Hsplit. lia. }
  rewrite slice_firstn by (unfold len; lia).
  rewrite slice_from_skipn by (unfold len; lia).
  rewrite Nat2Z.id.
  replace (Z.to_nat (Z.of_nat n + len block))
    with (List.length block + n)%nat by (unfold len; lia).
  rewrite <- skipn_skipn.
  split; [reflexivity|]. split; [exact Hlen|]. split; [reflexivity|].
  split; [exact Hsplit | exact Hfirst].
Qed.

(** X1.  When the highlighted block occurs in the document, the prefix
    and the suffix the first delta computes are the text before the first
    occurrence of the block and the text after it: with the block in
    between they give back the document, and the block does not start
    anywhere in the document before the end of the prefix. *)
Theorem highlight_span_partition (hl : TextHighlight) :
  indexOf (th_fullMarkdown hl) (th_markdownBlock hl) <> -1 ->
  text_prefix hl ++ th_markdownBlock hl ++ text_suffix hl
  = th_fullMarkdown hl
  /\ len (text_prefix hl)
     = indexOf (th_fullMarkdown hl) (th_markdownBlock hl)
  /\ forall m,
       (m < List.length (text_prefix hl))%nat ->
       starts_with (th_markdownBlock hl) (skipn m (th_fullMarkdown hl))
       = false.
Proof.
  intros Hfound.
  destruct (text_span_offsets hl Hfound)
    as (n & Hn & Hlen & Hpre & Hrest & Hfirst).
  assert (Hl : List.length (text_prefix hl) = n).
  { rewrite Hpre, length_firstn. lia. }
  split.
  - rewrite <- Hrest, Hpre. apply firstn_skipn.
  - split.
    + unfold len. rewrite Hl, Hn. reflexivity.
    + intros m Hm. apply Hfirst. rewrite Hl in Hm. exact Hm.
Qed.

(* ================================================================== *)
(** * Highlighted-text edits, from the start frame to the snapshot *)
(* ================================================================== *)

(** The span of a highlight whose block does not occur in the document. *)
Lemma text_span_of_missing_block (hl : TextHighlight) :
  indexOf (th_fullMarkdown hl) (th_markdownBlock hl) = -1 ->
  th_markdownBlock hl <> []
  /\ text_prefix hl
     = firstn (List.length (th_fullMarkdown hl) - 1) (th_fullMarkdown hl)
  /\ text_suffix hl
     = skipn (List.length (th_markdownBlock hl) - 1) (th_fullMarkdown hl).
Proof.
  intros Hmiss. unfold text_prefix, text_suffix. rewrite Hmiss.
  set (full := th_fullMarkdown hl) in *.
  set (block := th_markdownBlock hl) in *.
  assert (Hne : block <> []).
  { intros E. rewrite E in Hmiss. unfold indexOf in Hmiss.
    destruct full; simpl in Hmiss; discriminate. }
  split; [assumption|]. split.
  - unfold slice, rel_index.
    change (0 <? 0) with false. change (-1 <? 0) with true. cbv iota.
    pose proof (len_nonneg full) as Hl.
    rewrite Z.min_l by lia. cbn [Z.to_nat skipn].
    f_equal. unfold len. lia.
  - assert (Hpos : (0 < List.length block)%nat).
    { destruct block; [contradiction | simpl; lia]. }
    rewrite slice_from_skipn by (unfold len; lia).
    f_equal. unfold len. lia.
Qed.

(** A block that does not occur in a document is not between any two
    parts of it. *)
Lemma missing_block_is_no_part (full block pre post : str) :
  indexOf full block = -1 -> pre ++ block ++ post <> full.
Proof.
  intros Hmiss E.
  pose proof (indexOf_from_missing block full 0 ltac:(lia) Hmiss
                (List.length pre)) as H.
  rewrite <- E, skipn_app, skipn_all, Nat.sub_diag in H.
  cbn [skipn app] in H. rewrite starts_with_prefix in H. discriminate.
Qed.

Lemma highlight_span_partition_witness :
  text_prefix hello_world ++ th_markdownBlock hello_world
  ++ text_suffix hello_world
  = th_fullMarkdown hello_world
  /\ len (text_prefix hello_world)
     = indexOf (th_fullMarkdown hello_world) (th_markdownBlock hello_world)
  /\ forall m,
       (m < List.length (text_prefix hello_world))%nat ->
       starts_with (th_markdownBlock hello_world)
         (skipn m (th_fullMarkdown hello_world))
       = false.
Proof.
  apply (highlight_span_partition hello_world).
  vm_compute. discriminate.
Defined.

Section TextEditSpan.

Variable parsePartialJson : str -> option ArtifactToolResponse.
Variable replaceOrInsertMessageChunk :
  list BaseMessage -> MessageChunk -> list BaseMessage.
Variable params : GraphInput.
Variable art : ArtifactV3.
Variable prevMarkdown : ArtifactMarkdownV3.
Variable hl : TextHighlight.
Hypothesis Hprev :
  prevCurrentContent (Some art) = Some (Markdown prevMarkdown).

(** A run of valid deltas on the loop variables: nothing is reported,
    and every delta is appended to the prefix. *)
Lemma text_edit_span_run ds :
  forall fs s,
    Forall2 (Delta "updateHighlightedText") ds fs ->
    highlightedText s = Some hl ->
    (updatedArtifactStartContent s = None
     <-> updatedArtifactRestContent s = None) ->
    exists s',
      run_frames parsePartialJson replaceOrInsertMessageChunk (Some art)
        params fs s = Go s'
      /\ highlightedText s' = Some hl
      /\ logged s' = logged s
      /\ (ds <> [] ->
          updatedArtifactStartContent s'
          = Some (fst (span_before hl s) ++ List.concat ds)
          /\ updatedArtifactRestContent s' = Some (snd (span_before hl s))).
Proof.
  induction ds as [|d ds IH]; intros fs s Hall Hhl Hboth.
  - destruct fs as [|f fs']; [|inversion Hall].
    exists s. split; [reflexivity|]. split; [assumption|].
    split; [reflexivity|]. intros H; contradiction.
  - destruct fs as [|f fs']; [inversion Hall|].
    apply Forall2_cons_iff in Hall. destruct Hall as [Hd Hrest].
    destruct (text_edit_delta parsePartialJson replaceOrInsertMessageChunk
                (Some art) params art prevMarkdown hl eq_refl Hprev f d s Hd
                Hhl Hboth)
      as (s1 & E1 & Hs1 & Hr1 & Hh1 & _).
    assert (Hboth1 : updatedArtifactStartContent s1 = None
                     <-> updatedArtifactRestContent s1 = None).
    { rewrite Hs1, Hr1. split; discriminate. }
    pose proof (step_go_log parsePartialJson replaceOrInsertMessageChunk
                  (Some art) params f s s1 E1) as Hl1.
    destruct (IH fs' s1 Hrest Hh1 Hboth1) as (s' & E & Hh' & Hl' & Hspan).
    exists s'. cbn [run_frames]. rewrite E1.
    split; [exact E|]. split; [exact Hh'|].
    split; [rewrite Hl'; exact Hl1|]. intros _.
    destruct ds as [|d2 ds].
    + destruct fs' as [|f2 fs']; [|inversion Hrest].
      cbn [run_frames] in E. inversion E; subst s'.
      cbn [List.concat]. rewrite app_nil_r. split; assumption.
    + destruct (Hspan ltac:(discriminate)) as [Hs' Hr'].
      unfold span_before in Hs', Hr'. rewrite Hs1, Hr1 in Hs', Hr'.
      cbn [fst snd] in Hs', Hr'. rewrite Hs', Hr'.
      cbn [List.concat]. rewrite <- !app_assoc. split; reflexivity.
Qed.

(** The fold of a highlighted-text edit, from the start frame that
    captures the highlight through a non-empty run of valid deltas: the
    loop variables, the log and the artifact at the end. *)
Lemma text_edit_fold
  (hook : Hook) (capture : Frame) (ds : list str) (fs : list Frame) :
  artifact hook = Some art ->
  event capture = lit "on_chain_start" ->
  langgraph_node capture = lit "updateHighlightedText" ->
  input_highlightedText capture = Some hl ->
  Forall2 (Delta "updateHighlightedText") ds fs ->
  ds <> [] ->
  exists s' a',
    run_frames parsePartialJson replaceOrInsertMessageChunk (artifact hook)
      params (capture :: fs) (initial_loop hook) = Go s'
    /\ logged s' = []
    /\ updatedArtifactStartContent s'
       = Some (text_prefix hl ++ List.concat ds)
    /\ updatedArtifactRestContent s' = Some (text_suffix hl)
    /\ cur_artifact s' = Some a'
    /\ List.length (contents a') = S (List.length (contents art))
    /\ last_snapshot a'
       = Some (Markdown
                 {| md_index := Z.of_nat (List.length (contents art)) + 1;
                    md_title := md_title prevMarkdown;
                    fullMarkdown :=
                      text_prefix hl ++ List.concat ds ++ text_suffix hl |}).
Proof.
  intros Ha Hev Hnode Hin Hds Hne.
  cbn [run_frames]. rewrite Ha.
  rewrite (step_capture_highlight parsePartialJson
             replaceOrInsertMessageChunk (Some art) params capture _ Hev
             Hnode), Hin.
  set (s := set_highlightedText (Some hl)
              (capture_run_id capture (initial_loop hook))).
  assert (Hs : updatedArtifactStartContent s = None).
  { unfold s, capture_run_id. destruct (negb _ && _); reflexivity. }
  assert (Hr : updatedArtifactRestContent s = None).
  { unfold s, capture_run_id. destruct (negb _ && _); reflexivity. }
  assert (Hl : logged s = []).
  { unfold s, capture_run_id. destruct (negb _ && _); reflexivity. }
  assert (Hboth : updatedArtifactStartContent s = None
                  <-> updatedArtifactRestContent s = None).
  { rewrite Hs, Hr. split; reflexivity. }
  destruct (text_edit_span_run ds fs s Hds eq_refl Hboth)
    as (s' & E & _ & Hl' & Hspan).
  destruct (Hspan Hne) as [Hs' Hr'].
  unfold span_before in Hs', Hr'. rewrite Hs in Hs', Hr'.
  cbn [fst snd] in Hs', Hr'.
  destruct (text_edit_run_snapshot parsePartialJson
              replaceOrInsertMessageChunk (Some art) params art prevMarkdown
              hl eq_refl Hprev ds fs s Hds Hne eq_refl Hboth)
    as (s'' & a' & E'' & Hc & Hlen & Hlast).
  { apply (Reserved_same art (initial_loop hook)).
    - unfold s. auto with loop.
    - apply Reserved_initial_loop. assumption. }
  rewrite E in E''. injection E'' as <-.
  exists s', a'. split; [exact E|]. split; [rewrite Hl'; exact Hl|].
  split; [exact Hs'|]. split; [exact Hr'|]. split; [exact Hc|].
  split; [exact Hlen|].
  rewrite Hlast. unfold span_before. rewrite Hs. cbn [fst snd].
  unfold next_index. rewrite <- app_assoc. reflexivity.
Qed.

End TextEditSpan.

(** X2.  When the highlighted block does not occur in the document (so
    that [indexOf] gives [-1]), a highlighted-text edit goes through all
    the same and reports nothing: after the start frame and a non-empty
    run of valid deltas the loop is not left and the log is empty.  The
    block is then not empty and lies between no two parts of the document,
    so the span is no partition around it: the prefix is the document
    without its last character, the suffix is the document from the offset
    "length of the block minus one" on, and the new snapshot, the last one
    of the artifact, holds this prefix, the deltas and this suffix. *)
Theorem highlight_span_of_missing_block
  (parsePartialJson : str -> option ArtifactToolResponse)
  (replaceOrInsertMessageChunk :
     list BaseMessage -> MessageChunk -> list BaseMessage)
  (params : GraphInput) (hook : Hook) (art : ArtifactV3)
  (prevMarkdown : ArtifactMarkdownV3) (hl : TextHighlight)
  (capture : Frame) (ds : list str) (fs : list Frame) :
  artifact hook = Some art ->
  prevCurrentContent (Some art) = Some (Markdown prevMarkdown) ->
  event capture = lit "on_chain_start" ->
  langgraph_node capture = lit "updateHighlightedText" ->
  input_highlightedText capture = Some hl ->
  Forall2 (Delta "updateHighlightedText") ds fs ->
  ds <> [] ->
  indexOf (th_fullMarkdown hl) (th_markdownBlock hl) = -1 ->
  th_markdownBlock hl <> []
  /\ (forall pre post,
        pre ++ th_markdownBlock hl ++ post <> th_fullMarkdown hl)
  /\ exists s' a',
       run_frames parsePartialJson replaceOrInsertMessageChunk
         (artifact hook) params (capture :: fs) (initial_loop hook) = Go s'
       /\ logged s' = []
       /\ updatedArtifactStartContent s'
          = Some (firstn (List.length (th_fullMarkdown hl) - 1)
                    (th_fullMarkdown hl)
                  ++ List.concat ds)
       /\ updatedArtifactRestContent s'
          = Some (skipn (List.length (th_markdownBlock hl) - 1)
                    (th_fullMarkdown hl))
       /\ cur_artifact s' = Some a'
       /\ last_snapshot a'
          = Some (Markdown
                    {| md_index := Z.of_nat (List.length (contents art)) + 1;
                       md_title := md_title prevMarkdown;
                       fullMarkdown :=
                         firstn (List.length (th_fullMarkdown hl) - 1)
                           (th_fullMarkdown hl)
                         ++ List.concat ds
                         ++ skipn (List.length (th_markdownBlock hl) - 1)
                              (th_fullMarkdown hl) |}).
Proof.
  intros Ha Hprev Hev Hnode Hin Hds Hne Hmiss.
  destruct (text_span_of_missing_block hl Hmiss) as (Hblock & Hpre & Hsuf).
  split; [exact Hblock|]. split.
  { intros pre post. apply missing_block_is_no_part. exact Hmiss. }
  destruct (text_edit_fold parsePartialJson replaceOrInsertMessageChunk
              params art prevMarkdown hl Hprev hook capture ds fs Ha Hev
              Hnode Hin Hds Hne)
    as (s' & a' & E & Hl & Hs' & Hr' & Hc & _ & Hlast).
  exists s', a'. rewrite <- Hpre, <- Hsuf.
  split; [exact E|]. split; [exact Hl|]. split; [exact Hs'|].
  split; [exact Hr'|]. split; [exact Hc | exact Hlast].
Qed.

Lemma highlight_span_of_missing_block_witness :
  th_markdownBlock stale_highlight <> []
  /\ (forall pre post,
        pre ++ th_markdownBlock stale_highlight ++ post
        <> th_fullMarkdown stale_highlight)
  /\ exists s' a',
       run_frames no_parse keep_messages (artifact text_hook) no_range
         [capture_highlight stale_highlight;
          content_delta "updateHighlightedText" (lit "Hi")]
         (initial_loop text_hook) = Go s'
       /\ logged s' = []
       /\ updatedArtifactStartContent s'
          = Some (firstn (List.length (th_fullMarkdown stale_highlight) - 1)
                    (th_fullMarkdown stale_highlight)
                  ++ List.concat [lit "Hi"])
       /\ updatedArtifactRestContent s'
          = Some (skipn (List.length (th_markdownBlock stale_highlight) - 1)
                    (th_fullMarkdown stale_highlight))
       /\ cur_artifact s' = Some a'
       /\ last_snapshot a'
          = Some (Markdown
                    {| md_index :=
                         Z.of_nat
                           (List.length
                              (contents
                                 {| currentIndex := 1;
                                    contents := [Markdown title_hello] |}))
                         + 1;
                       md_title := md_title title_hello;
                       fullMarkdown :=
                         firstn
                           (List.length (th_fullMarkdown stale_highlight)
                            - 1)
                           (th_fullMarkdown stale_highlight)
                         ++ List.concat [lit "Hi"]
                         ++ skipn
                              (List.length
                                 (th_markdownBlock stale_highlight) - 1)
                              (th_fullMarkdown stale_highlight) |}).
Proof.
  apply (highlight_span_of_missing_block no_parse keep_messages no_range
           text_hook
           {| currentIndex := 1; contents := [Markdown title_hello] |}
           title_hello stale_highlight (capture_highlight stale_highlight)
           [lit "Hi"]
           [content_delta "updateHighlightedText" (lit "Hi")]);
    try reflexivity.
  - repeat constructor; discriminate.
  - discriminate.
Defined.

(** X3.  A highlighted-text edit appends every delta: after the start
    frame that captures the highlight and a non-empty run of valid deltas,
    the loop is not left, the prefix variable holds the text before the
    block followed by all the deltas in order (the first one included),
    the suffix variable holds the text after the block, and the artifact
    has exactly one snapshot more: the last one, a text snapshot at the
    index "number of snapshots before plus one" with the title of the
    previous snapshot, whose markdown is the prefix, the deltas and the
    suffix.  It depends on the deltas only through their concatenation,
    and when the block occurs in the document and the deltas spell the
    block again, it is the document itself. *)
Theorem highlighted_text_edit_materialized
  (parsePartialJson : str -> option ArtifactToolResponse)
  (replaceOrInsertMessageChunk :
     list BaseMessage -> MessageChunk -> list BaseMessage)
  (params : GraphInput) (hook : Hook) (art : ArtifactV3)
  (prevMarkdown : ArtifactMarkdownV3) (hl : TextHighlight)
  (capture : Frame) (ds : list str) (fs : list Frame) :
  artifact hook = Some art ->
  prevCurrentContent (Some art) = Some (Markdown prevMarkdown) ->
  event capture = lit "on_chain_start" ->
  langgraph_node capture = lit "updateHighlightedText" ->
  input_highlightedText capture = Some hl ->
  Forall2 (Delta "updateHighlightedText") ds fs ->
  ds <> [] ->
  exists s' a',
    run_frames parsePartialJson replaceOrInsertMessageChunk (artifact hook)
      params (capture :: fs) (initial_loop hook) = Go s'
    /\ updatedArtifactStartContent s'
       = Some (text_prefix hl ++ List.concat ds)
    /\ updatedArtifactRestContent s' = Some (text_suffix hl)
    /\ cur_artifact s' = Some a'
    /\ List.length (contents a') = S (List.length (contents art))
    /\ last_snapshot a'
       = Some (Markdown
                 {| md_index := Z.of_nat (List.length (contents art)) + 1;
                    md_title := md_title prevMarkdown;
                    fullMarkdown :=
                      text_prefix hl ++ List.concat ds ++ text_suffix hl |})
    /\ (indexOf (th_fullMarkdown hl) (th_markdownBlock hl) <> -1 ->
        List.concat ds = th_markdownBlock hl ->
        last_snapshot a'
        = Some (Markdown
                  {| md_index := Z.of_nat (List.length (contents art)) + 1;
                     md_title := md_title prevMarkdown;
                     fullMarkdown := th_fullMarkdown hl |})).
Proof.
  intros Ha Hprev Hev Hnode Hin Hds Hne.
  destruct (text_edit_fold parsePartialJson replaceOrInsertMessageChunk
              params art prevMarkdown hl Hprev hook capture ds fs Ha Hev
              Hnode Hin Hds Hne)
    as (s' & a' & E & _ & Hs' & Hr' & Hc & Hlen & Hlast).
  exists s', a'. split; [exact E|]. split; [exact Hs'|].
  split; [exact Hr'|]. split; [exact Hc|]. split; [exact Hlen|].
  split; [exact Hlast|].
  intros Hfound Hsame. rewrite Hlast, Hsame.
  destruct (text_span_offsets hl Hfound)
    as (n & _ & _ & Hpre & Hrest & _).
  rewrite <- Hrest, Hpre, firstn_skipn. reflexivity.
Qed.

Lemma highlighted_text_edit_materialized_witness :
  exists s' a',
    run_frames no_parse keep_messages (artifact text_hook) no_range
      [capture_highlight hello_world;
       content_delta "updateHighlightedText" (lit "Hi");
       content_delta "updateHighlightedText" (lit " there")]
      (initial_loop text_hook) = Go s'
    /\ updatedArtifactStartContent s'
       = Some (text_prefix hello_world
               ++ List.concat [lit "Hi"; lit " there"])
    /\ updatedArtifactRestContent s' = Some (text_suffix hello_world)
    /\ cur_artifact s' = Some a'
    /\ List.length (contents a')
       = S (List.length
              (contents {| currentIndex := 1;
                           contents := [Markdown title_hello] |}))
    /\ last_snapshot a'
       = Some (Markdown
                 {| md_index :=
                      Z.of_nat
                        (List.length
                           (contents {| currentIndex := 1;
                                        contents := [Markdown title_hello] |}))
                      + 1;
                    md_title := md_title title_hello;
                    fullMarkdown :=
                      text_prefix hello_world
                      ++ List.concat [lit "Hi"; lit " there"]
                      ++ text_suffix hello_world |})
    /\ (indexOf (th_fullMarkdown hello_world)
          (th_markdownBlock hello_world) <> -1 ->
        List.concat [lit "Hi"; lit " there"] = th_markdownBlock hello_world ->
        last_snapshot a'
        = Some (Markdown
                  {| md_index :=
                       Z.of_nat
                         (List.length
                            (contents
                               {| currentIndex := 1;
                                  contents := [Markdown title_hello] |}))
                       + 1;
                     md_title := md_title title_hello;
                     fullMarkdown := th_fullMarkdown hello_world |})).
Proof.
  apply (highlighted_text_edit_materialized no_parse keep_messages no_range
           text_hook
           {| currentIndex := 1; contents := [Markdown title_hello] |}
           title_hello hello_world (capture_highlight hello_world)
           [lit "Hi"; lit " there"]
           [content_delta "updateHighlightedText" (lit "Hi");
            content_delta "updateHighlightedText" (lit " there")]);
    try reflexivity.
  - repeat constructor; discriminate.
  - discriminate.
Defined.

(* ================================================================== *)
(** * What a fold never takes back *)
(* ================================================================== *)

Lemma advances_refl s : advances s s.
Proof.
  unfold advances. repeat split; auto;
    try (exists []; rewrite app_nil_r; reflexivity).
  intros p Hp. exists []. rewrite app_nil_r. assumption.
Qed.

Lemma advances_trans s1 s2 s3 :
  advances s1 s2 -> advances s2 s3 -> advances s1 s3.
Proof.
  intros (A1 & A2 & A3 & (a4 & A4) & A5 & A6 & A7 & (a8 & A8) & (a9 & A9))
         (B1 & B2 & B3 & (b4 & B4) & B5 & B6 & B7 & (b8 & B8) & (b9 & B9)).
  unfold advances.
  split; [intros H; rewrite <- (A1 H); apply B1; rewrite (A1 H); exact H|].
  split; [intros H; rewrite <- (A2 H); apply B2; rewrite (A2 H); exact H|].
  split; [intros i H; apply B3, A3, H|].
  split; [exists (a4 ++ b4); rewrite B4, A4, app_assoc; reflexivity|].
  split.
  { intros p H. destruct (A5 p H) as (x & Hx).
    destruct (B5 _ Hx) as (y & Hy). exists (x ++ y).
    rewrite Hy, app_assoc. reflexivity. }
  split; [intros r H; apply B6, A6, H|].
  split; [intros H; apply B7, A7, H|].
  split; [exists (a8 ++ b8); rewrite B8, A8, app_assoc; reflexivity|].
  exists (a9 ++ b9). rewrite B9, A9, app_assoc. reflexivity.
Qed.

(** Splits the goal along every [match] and [if]. *)
Ltac case_all :=
  repeat match goal with
    | |- context [match ?x with _ => _ end] => destruct x eqn:?
    end.

(** Closes one part of [advances] between explicit states. *)
Ltac advances_part :=
  intros; cbn in *;
  repeat match goal with
    | H1 : ?a = Some ?x, H2 : ?a = Some ?y |- _ =>
        rewrite H1 in H2; injection H2 as H2
    | H1 : ?a = Some _, H2 : ?a = None |- _ =>
        rewrite H1 in H2; discriminate H2
    | H : Some _ = Some _ |- _ => injection H as H
    | H : true = false |- _ => discriminate H
    | H : false = true |- _ => discriminate H
    end;
  subst;
  first [ assumption | reflexivity | discriminate | congruence
        | exists []; rewrite ?app_nil_r;
          first [reflexivity | assumption | congruence]
        | eexists; reflexivity ].

Ltac advances_explicit :=
  unfold advances; cbn;
  repeat match goal with |- _ /\ _ => split end;
  advances_part.

Lemma advances_and_then s0 c k :
  (forall s, advances s (final_state (k s))) ->
  advances s0 (final_state c) -> advances s0 (final_state (c >>= k)).
Proof.
  intros Hk Hc. destruct c; cbn in *; auto.
  apply (advances_trans s0 s); auto.
Qed.

Section Advances.

Variable parsePartialJson : str -> option ArtifactToolResponse.
Variable replaceOrInsertMessageChunk :
  list BaseMessage -> MessageChunk -> list BaseMessage.
Variable artifact : option ArtifactV3.
Variable params : GraphInput.

Lemma advances_capture_run_id f s : advances s (capture_run_id f s).
Proof.
  unfold capture_run_id.
  destruct (truthy (runId s)) eqn:Hr; cbn [negb andb];
    [apply advances_refl|].
  destruct (truthy_opt (run_id f)); [|apply advances_refl].
  unfold advances; cbn;
    repeat match goal with |- _ /\ _ => split end; advances_part.
Qed.

Lemma advances_on_chain_start f s :
  advances s (final_state (on_chain_start f s)).
Proof.
  unfold on_chain_start. case_all; cbn [final_state]; advances_explicit.
Qed.

Lemma advances_on_followup f s :
  advances s (final_state (on_followup replaceOrInsertMessageChunk f s)).
Proof.
  unfold on_followup, throw.
  destruct (node_is f "generateFollowup" || node_is f "respondToQuery");
    [|apply advances_refl].
  destruct (payload f) as [message|]; cbn [final_state];
    [|advances_explicit].
  destruct (truthy_opt (followupMessageId s)) eqn:Hf; cbn [negb].
  - advances_explicit.
  - unfold advances; cbn;
      repeat match goal with |- _ /\ _ => split end; advances_part.
Qed.

Lemma advances_on_generateArtifact f s :
  advances s (final_state (on_generateArtifact parsePartialJson f s)).
Proof.
  unfold on_generateArtifact. case_all; cbn [final_state];
    advances_explicit.
Qed.

Lemma advances_on_updateHighlightedText f s :
  advances s (final_state (on_updateHighlightedText artifact f s)).
Proof.
  unfold on_updateHighlightedText, throw, toast_error, reserve_index,
    clear_first_update.
  case_all; cbn [final_state]; advances_explicit.
Qed.

Lemma advances_on_updateArtifact f s :
  advances s (final_state (on_updateArtifact artifact params f s)).
Proof.
  unfold on_updateArtifact, throw, toast_error, reserve_index,
    clear_first_update.
  case_all; cbn [final_state]; advances_explicit.
Qed.

Lemma advances_on_rewriteArtifact f s :
  advances s (final_state (on_rewriteArtifact artifact params f s)).
Proof.
  unfold on_rewriteArtifact, throw, toast_error, reserve_index,
    clear_first_update.
  case_all; cbn [final_state]; advances_explicit.
Qed.

Lemma advances_on_rewriteTheme f s :
  advances s (final_state (on_rewriteTheme artifact params f s)).
Proof.
  unfold on_rewriteTheme, throw, toast_error, reserve_index,
    clear_first_update.
  case_all; cbn [final_state]; advances_explicit.
Qed.

Lemma advances_on_chat_model_end f s :
  advances s (final_state (on_chat_model_end f s)).
Proof.
  unfold on_chat_model_end, throw. case_all; cbn [final_state];
    advances_explicit.
Qed.

Lemma advances_step f s :
  advances s
    (final_state
       (step parsePartialJson replaceOrInsertMessageChunk artifact params
          f s)).
Proof.
  unfold step. repeat apply advances_and_then.
  - apply advances_on_chat_model_end.
  - intros s'. unfold on_chat_model_stream.
    destruct (event_is f "on_chat_model_stream"); [|apply advances_refl].
    repeat apply advances_and_then.
    + apply advances_on_rewriteTheme.
    + apply advances_on_rewriteArtifact.
    + apply advances_on_updateArtifact.
    + apply advances_on_updateHighlightedText.
    + apply advances_on_generateArtifact.
    + apply advances_on_followup.
  - apply advances_on_chain_start.
  - cbn [final_state]. apply advances_capture_run_id.
Qed.

(** A captured run id stays to the end of the loop. *)
Lemma run_frames_keeps_run_id (frames : list Frame) :
  forall s,
    truthy (runId s) = true ->
    runId
      (final_state
         (run_frames parsePartialJson replaceOrInsertMessageChunk artifact
            params frames s))
    = runId s.
Proof.
  induction frames as [|f rest IH]; intros s Hs; [reflexivity|].
  cbn [run_frames].
  pose proof (proj1 (advances_step f s) Hs) as Hstep.
  destruct (step parsePartialJson replaceOrInsertMessageChunk artifact
              params f s) as [s'|s'|s'];
    cbn [final_state] in *;
    try (rewrite IH; [exact Hstep | rewrite Hstep; exact Hs]).
  exact Hstep.
Qed.

(** X5.  Whatever the frames are, one fold never takes back the run id
    or the followup message id it has captured, the index it has reserved
    or the suffix of a span edit; the tool-call string, the prefix of a
    span edit, the rewritten content and the log of reported effects only
    grow at their end; a cleared first-update flag stays cleared. *)
Theorem run_frames_advances (frames : list Frame) :
  forall s,
    advances s
      (final_state
         (run_frames parsePartialJson replaceOrInsertMessageChunk artifact
            params frames s)).
Proof.
  induction frames as [|f rest IH]; intros s; [apply advances_refl|].
  cbn [run_frames].
  pose proof (advances_step f s) as Hstep.
  destruct (step parsePartialJson replaceOrInsertMessageChunk artifact
              params f s) as [s'|s'|s'];
    cbn [final_state] in *;
    try (apply (advances_trans s s'); [exact Hstep | apply IH]).
  exact Hstep.
Qed.

End Advances.

(* ================================================================== *)
(** * Frames the loop passes over, and the run id *)
(* ================================================================== *)

Section LoopExtras.

Variable parsePartialJson : str -> option ArtifactToolResponse.
Variable replaceOrInsertMessageChunk :
  list BaseMessage -> MessageChunk -> list BaseMessage.
Variable artifact : option ArtifactV3.
Variable params : GraphInput.

Local Abbreviation step' :=
  (step parsePartialJson replaceOrInsertMessageChunk artifact params).
Local Abbreviation run' :=
  (run_frames parsePartialJson replaceOrInsertMessageChunk artifact params).

Lemma step_advances_from_capture f s :
  advances (capture_run_id f s) (final_state (step' f s)).
Proof.
  unfold step. repeat apply advances_and_then.
  - apply advances_on_chat_model_end.
  - intros s'. unfold on_chat_model_stream.
    destruct (event_is f "on_chat_model_stream"); [|apply advances_refl].
    repeat apply advances_and_then.
    + apply advances_on_rewriteTheme.
    + apply advances_on_rewriteArtifact.
    + apply advances_on_updateArtifact.
    + apply advances_on_updateHighlightedText.
    + apply advances_on_generateArtifact.
    + apply advances_on_followup.
  - apply advances_on_chain_start.
  - cbn [final_state]. apply advances_refl.
Qed.

(** X6.  The run id of a fold is the one of the first frame that carries
    one: when no run id is captured yet and a frame carries one, that id
    is the run id at the end of the loop, whatever this frame and the
    frames behind it are. *)
Theorem run_id_of_first_frame (f : Frame) (rest : list Frame) (s : Loop) :
  truthy (runId s) = false ->
  truthy_opt (run_id f) = true ->
  runId (final_state (run' (f :: rest) s)) = to_text (run_id f).
Proof.
  intros Hs Hf.
  assert (Hc : runId (capture_run_id f s) = to_text (run_id f)).
  { unfold capture_run_id. rewrite Hs, Hf. reflexivity. }
  assert (Ht : truthy (runId (capture_run_id f s)) = true).
  { rewrite Hc. destruct (run_id f) as [[|x r]|]; try discriminate.
    reflexivity. }
  pose proof (step_advances_from_capture f s) as Hstep.
  assert (H1 : runId (final_state (step' f s)) = to_text (run_id f)).
  { rewrite <- Hc. apply (proj1 Hstep). exact Ht. }
  cbn [run_frames].
  destruct (step' f s) as [s'|s'|s']; cbn [final_state] in *;
    try exact H1;
    rewrite <- H1;
    apply (run_frames_keeps_run_id parsePartialJson
             replaceOrInsertMessageChunk artifact params rest s');
    rewrite H1; rewrite <- Hc; exact Ht.
Qed.

(** X7.  A frame that is not a stream frame never changes the artifact,
    the messages or the variables of a span edit, and never ends the fold;
    a stream frame from a node the loop does not handle changes nothing
    but the run id. *)
Theorem unrouted_frames (f : Frame) (s : Loop) :
  (event_is f "on_chat_model_stream" = false ->
   (forall s', step' f s <> Return s')
   /\ cur_artifact (final_state (step' f s)) = cur_artifact s
   /\ cur_messages (final_state (step' f s)) = cur_messages s
   /\ updatedArtifactStartContent (final_state (step' f s))
      = updatedArtifactStartContent s
   /\ updatedArtifactRestContent (final_state (step' f s))
      = updatedArtifactRestContent s
   /\ newArtifactContent (final_state (step' f s)) = newArtifactContent s)
  /\ (event_is f "on_chat_model_stream" = true ->
      known_node f = false ->
      step' f s = Go (capture_run_id f s)).
Proof.
  split.
  - intros Hev. unfold step, on_chat_model_stream. rewrite Hev.
    unfold on_chain_start, on_chat_model_end, throw, capture_run_id.
    cbn [and_then].
    destruct (negb (truthy (runId s)) && truthy_opt (run_id f));
      destruct (event_is f "on_chain_start"
                && node_is f "updateHighlightedText");
      cbn [and_then];
      destruct (event_is f "on_chat_model_end" && node_is f "rewriteArtifact"
                && name_is f "optionally_update_artifact_meta");
      try destruct (output_args f);
      cbn; repeat split; intros; discriminate.
  - intros Hev Hk. unfold known_node in Hk.
    repeat (apply orb_false_iff in Hk; destruct Hk as [Hk ?]).
    unfold step, on_chat_model_stream. rewrite Hev. cbn [and_then].
    assert (Hs : event_is f "on_chain_start" = false).
    { unfold event_is in *. apply str_eqb_eq in Hev. rewrite Hev.
      reflexivity. }
    assert (He : event_is f "on_chat_model_end" = false).
    { unfold event_is in *. apply str_eqb_eq in Hev. rewrite Hev.
      reflexivity. }
    rewrite on_chain_start_skip by assumption. cbn [and_then].
    rewrite on_followup_skip by assumption. cbn [and_then].
    rewrite on_generateArtifact_skip by assumption. cbn [and_then].
    rewrite on_updateHighlightedText_skip by assumption. cbn [and_then].
    rewrite on_updateArtifact_skip by assumption. cbn [and_then].
    rewrite on_rewriteArtifact_skip by assumption. cbn [and_then].
    rewrite on_rewriteTheme_skip by assumption. cbn [and_then].
    apply on_chat_model_end_skip. assumption.
Qed.

End LoopExtras.

(* ================================================================== *)
(** * Ranged code edits: the span and the preconditions *)
(* ================================================================== *)

Section RangedExtras.

Variable parsePartialJson : str -> option ArtifactToolResponse.
Variable replaceOrInsertMessageChunk :
  list BaseMessage -> MessageChunk -> list BaseMessage.
Variable artifact : option ArtifactV3.
Variable params : GraphInput.

Local Abbreviation run' :=
  (run_frames parsePartialJson replaceOrInsertMessageChunk artifact params).

(** X8.  For a stream frame of the node [updateArtifact], every failed
    precondition ends the whole fold, with the artifact and the messages
    as they were: no artifact before the fold, no highlight range in the
    parameters, no active snapshot, or an active snapshot that is not
    code, each with a notification; and a frame whose content is missing
    or empty, without any notification. *)
Theorem ranged_edit_preconditions
  (f : Frame) (rest : list Frame) (s : Loop) :
  StreamFrame "updateArtifact" f ->
  let s0 := capture_run_id f s in
  (artifact = None ->
   run' (f :: rest) s
   = Return (toast_error "Original artifact not found" s0))
  /\ (artifact <> None -> highlighted params = None ->
      run' (f :: rest) s
      = Return (toast_error "No highlighted text found" s0))
  /\ (forall art,
        artifact = Some art -> highlighted params <> None ->
        truthy_opt (payload_content f) = false ->
        run' (f :: rest) s = Return (reserve_index art s0)
        /\ logged (reserve_index art s0) = logged s)
  /\ (forall art,
        artifact = Some art -> highlighted params <> None ->
        truthy_opt (payload_content f) = true ->
        prevCurrentContent artifact = None ->
        run' (f :: rest) s
        = Return (toast_error "Original artifact not found"
                    (reserve_index art s0)))
  /\ (forall art m,
        artifact = Some art -> highlighted params <> None ->
        truthy_opt (payload_content f) = true ->
        prevCurrentContent artifact = Some (Markdown m) ->
        run' (f :: rest) s
        = Return (toast_error "Received non code block update"
                    (reserve_index art s0)))
  /\ (forall art,
        cur_artifact (reserve_index art s0) = cur_artifact s
        /\ cur_messages (reserve_index art s0) = cur_messages s).
Proof.
  intros Hf s0. cbn [run_frames].
  rewrite (step_updateArtifact parsePartialJson replaceOrInsertMessageChunk
             artifact params f s Hf).
  unfold on_updateArtifact. rewrite (node_is_true f _ (proj2 Hf)).
  fold s0.
  split; [intros ->; reflexivity|].
  split.
  { intros Ha Hh. destruct artifact; [|contradiction]. rewrite Hh.
    reflexivity. }
  split.
  { intros art Ha Hh Hc. rewrite Ha.
    destruct (highlighted params); [|contradiction]. rewrite Hc.
    split; [reflexivity|].
    unfold s0, reserve_index, capture_run_id.
    destruct (negb _ && _); cbn; destruct (newArtifactIndex s); reflexivity. }
  split.
  { intros art Ha Hh Hc Hp. rewrite Ha in Hp |- *.
    destruct (highlighted params); [|contradiction]. rewrite Hc, Hp.
    reflexivity. }
  split.
  { intros art m Ha Hh Hc Hp. rewrite Ha in Hp |- *.
    destruct (highlighted params); [|contradiction]. rewrite Hc, Hp.
    reflexivity. }
  intros art. unfold s0, reserve_index, capture_run_id.
  destruct (negb _ && _); cbn; destruct (newArtifactIndex s);
    split; reflexivity.
Qed.

End RangedExtras.

(** X4.  A ranged code edit computes its prefix and its suffix once, on
    the first valid delta, from the code of the active snapshot: the code
    up to [startCharIndex] and the code from [endCharIndex] on; valid
    deltas behind the first one are appended to the prefix in order, and
    the suffix stays.  For offsets in range, the prefix, the code between
    the two offsets and the suffix give back the code. *)
Theorem ranged_edit_span
  (parsePartialJson : str -> option ArtifactToolResponse)
  (replaceOrInsertMessageChunk :
     list BaseMessage -> MessageChunk -> list BaseMessage)
  (params : GraphInput) (hook : Hook) (art : ArtifactV3)
  (range : Highlight) (prevCode : ArtifactCodeV3)
  (d1 : str) (f1 : Frame) (ds : list str) (fs : list Frame) :
  artifact hook = Some art ->
  highlighted params = Some range ->
  prevCurrentContent (Some art) = Some (Code prevCode) ->
  Delta "updateArtifact" d1 f1 ->
  Forall2 (Delta "updateArtifact") ds fs ->
  exists s',
    run_frames parsePartialJson replaceOrInsertMessageChunk (artifact hook)
      params (f1 :: fs) (initial_loop hook) = Go s'
    /\ updatedArtifactStartContent s'
       = Some (slice (code prevCode) 0 (startCharIndex range)
               ++ List.concat ds)
    /\ updatedArtifactRestContent s'
       = Some (slice_from (code prevCode) (endCharIndex range))
    /\ (0 <= startCharIndex range <= endCharIndex range ->
        endCharIndex range <= len (code prevCode) ->
        slice (code prevCode) 0 (startCharIndex range)
        ++ slice (code prevCode) (startCharIndex range) (endCharIndex range)
        ++ slice_from (code prevCode) (endCharIndex range)
        = code prevCode).
Proof.
  intros Ha Hr Hp H1 Hds. rewrite Ha.
  destruct (ranged_edit_first parsePartialJson replaceOrInsertMessageChunk
              (Some art) params art range prevCode eq_refl Hr Hp f1 d1
              (initial_loop hook) H1 eq_refl eq_refl)
    as (s1 & E1 & Hs1 & Hr1 & _).
  destruct (ranged_edit_run parsePartialJson replaceOrInsertMessageChunk
              (Some art) params art range prevCode eq_refl Hr Hp ds fs s1
              _ _ Hds Hs1 Hr1)
    as (s' & E & Hs' & Hr').
  exists s'. cbn [run_frames]. rewrite E1.
  split; [exact E|]. split; [exact Hs'|]. split; [exact Hr'|].
  intros H0 Hlen. apply slice_partition; assumption.
Qed.

(* ================================================================== *)
(** * Whole-document rewrites and generation *)
(* ================================================================== *)

Section RewriteExtras.

Variable parsePartialJson : str -> option ArtifactToolResponse.
Variable replaceOrInsertMessageChunk :
  list BaseMessage -> MessageChunk -> list BaseMessage.
Variable artifact : option ArtifactV3.
Variable params : GraphInput.

Local Abbreviation step' :=
  (step parsePartialJson replaceOrInsertMessageChunk artifact params).
Local Abbreviation run' :=
  (run_frames parsePartialJson replaceOrInsertMessageChunk artifact params).

Lemma capture_run_id_fields f s :
  cur_artifact (capture_run_id f s) = cur_artifact s
  /\ cur_messages (capture_run_id f s) = cur_messages s
  /\ rewriteArtifactMeta (capture_run_id f s) = rewriteArtifactMeta s
  /\ newArtifactContent (capture_run_id f s) = newArtifactContent s
  /\ generateArtifactToolCallStr (capture_run_id f s)
     = generateArtifactToolCallStr s
  /\ logged (capture_run_id f s) = logged s
  /\ isFirstUpdate (capture_run_id f s) = isFirstUpdate s
  /\ newArtifactIndex (capture_run_id f s) = newArtifactIndex s.
Proof.
  unfold capture_run_id. destruct (negb _ && _); repeat split.
Qed.

Lemma step_end_event f s :
  event f = lit "on_chat_model_end" ->
  step' f s = on_chat_model_end f (capture_run_id f s).
Proof.
  intros Hev. unfold step. cbn [and_then].
  rewrite on_chain_start_skip
    by (unfold event_is; rewrite Hev; reflexivity).
  cbn [and_then]. unfold on_chat_model_stream.
  replace (event_is f "on_chat_model_stream") with false
    by (unfold event_is; rewrite Hev; reflexivity).
  reflexivity.
Qed.

(** X9.  The rewrite metadata: a delta of the node [rewriteArtifact]
    that arrives before any metadata is passed over (only the run id may
    be captured); the end frame of [optionally_update_artifact_meta] sets
    the metadata to the arguments of its tool call, also when metadata was
    captured before; when that frame has no such output, the failure is
    logged, the frame is skipped and the metadata stays. *)
Theorem rewrite_metadata_protocol (f : Frame) (s : Loop) :
  (StreamFrame "rewriteArtifact" f ->
   rewriteArtifactMeta s = None ->
   step' f s = Go (capture_run_id f s))
  /\ (event f = lit "on_chat_model_end" ->
      langgraph_node f = lit "rewriteArtifact" ->
      name f = Some (lit "optionally_update_artifact_meta") ->
      (forall args,
         output_args f = Some args ->
         step' f s
         = Go (set_rewriteArtifactMeta (Some args) (capture_run_id f s)))
      /\ (output_args f = None ->
          step' f s
          = Continue
              (report (ConsoleError "Failed to parse stream chunk")
                 (capture_run_id f s))
          /\ rewriteArtifactMeta (final_state (step' f s))
             = rewriteArtifactMeta s)).
Proof.
  split.
  - intros Hf Hm.
    rewrite (step_rewriteArtifact parsePartialJson
               replaceOrInsertMessageChunk artifact params f s Hf).
    unfold on_rewriteArtifact.
    rewrite (proj1 (proj2 (proj2 (capture_run_id_fields f s)))), Hm.
    reflexivity.
  - intros Hev Hnode Hname. rewrite (step_end_event f s Hev).
    unfold on_chat_model_end, event_is, name_is.
    rewrite Hev, (node_is_true f _ Hnode), Hname, !str_eqb_refl.
    cbn [andb]. split.
    + intros args Ha. rewrite Ha. reflexivity.
    + intros Ha. rewrite Ha. split; [reflexivity|].
      unfold throw. cbn [final_state].
      apply (proj1 (proj2 (proj2 (capture_run_id_fields f s)))).
Qed.

(** ** Theme rewrites and custom actions *)

Section Theme.

Variable art : ArtifactV3.
Variable prev : ArtifactContent.
Hypothesis Hart : artifact = Some art.
Hypothesis Hprev : prevCurrentContent artifact = Some prev.

Variable node : string.
Variable artifactType : str.
Hypothesis Hnode :
  (node = "rewriteArtifactTheme"%string /\ artifactType = lit "text")
  \/ (node = "rewriteCodeArtifactTheme"%string
      /\ artifactType = lit "code")
  \/ (node = "customAction"%string /\ artifactType = type prev).

(** One frame of a theme rewrite or of a custom action: the call of the
    snapshot updater, with every argument read off the state the frame
    meets. *)
Lemma step_rewriteTheme f s :
  StreamFrame node f ->
  generates f = false
  /\ exists s2,
       step' f s
       = Go (clear_first_update
               (set_cur_artifact
                  (Some (updateRewrittenArtifact (prev_or s art)
                           (if str_eqb artifactType (lit "code")
                            then removeCodeBlockFormatting
                                   (newArtifactContent s
                                    ++ content_or_empty f)
                            else newArtifactContent s ++ content_or_empty f)
                           {| meta_type := artifactType;
                              meta_title := title prev;
                              programmingLanguage :=
                                Some (theme_language params prev) |}
                           (index_or_next_truthy art (reserve_index art s))
                           (isFirstUpdate s)
                           (theme_language params prev)))
                  s2))
       /\ newArtifactContent s2
          = newArtifactContent s ++ content_or_empty f.
Proof.
  intros [Hev Hn].
  assert (Hlang :
    (if truthy_opt (portLanguage params)
     then to_text (portLanguage params)
     else match prev with
          | Code c => language c
          | Markdown _ => lit "other"
          end) = theme_language params prev).
  { unfold theme_language.
    destruct (portLanguage params) as [[|x r]|]; reflexivity. }
  assert (Hroute :
    node_is f "generateFollowup" = false
    /\ node_is f "respondToQuery" = false
    /\ node_is f "generateArtifact" = false
    /\ node_is f "updateHighlightedText" = false
    /\ node_is f "updateArtifact" = false
    /\ node_is f "rewriteArtifact" = false
    /\ (node_is f "rewriteArtifactTheme"
        || node_is f "rewriteCodeArtifactTheme"
        || node_is f "customAction") = true
    /\ (if node_is f "rewriteCodeArtifactTheme" then lit "code"
        else if node_is f "rewriteArtifactTheme" then lit "text"
        else type prev) = artifactType).
  { unfold node_is. rewrite Hn.
    destruct Hnode as [[-> ->] | [[-> ->] | [-> ->]]];
      repeat split; reflexivity. }
  destruct Hroute as (R1 & R2 & R3 & R4 & R5 & R6 & R7 & R8).
  split.
  { unfold generates. rewrite R3. apply andb_false_r. }
  rewrite (step_stream parsePartialJson replaceOrInsertMessageChunk
             artifact params f s Hev).
  rewrite on_followup_skip by assumption. cbn [and_then].
  rewrite on_generateArtifact_skip by assumption. cbn [and_then].
  rewrite on_updateHighlightedText_skip by assumption. cbn [and_then].
  rewrite on_updateArtifact_skip by assumption. cbn [and_then].
  rewrite on_rewriteArtifact_skip by assumption. cbn [and_then].
  unfold on_rewriteTheme. rewrite R7, Hart.
  pose proof Hprev as Hprev'. rewrite Hart in Hprev'. rewrite Hprev'.
  rewrite R8, Hlang.
  destruct (capture_run_id_fields f s)
    as (_ & _ & _ & Hc & _ & _ & _ & _).
  unfold content_or_empty. rewrite <- Hc.
  destruct (write_args art f s
              (newArtifactContent (capture_run_id f s)
               ++ to_text_or_empty (payload_content f)))
    as (W1 & W2 & W3 & W4 & _).
  rewrite W1, W2, W3, W4.
  eexists. split; [reflexivity | exact W4].
Qed.

(** A run of such frames in a fold that has reserved its index. *)
Lemma theme_run (fs : list Frame) (s : Loop) :
  Forall (StreamFrame node) fs -> fs <> [] -> Reserved art s ->
  exists s' a',
    run' fs s = Go s'
    /\ newArtifactContent s'
       = newArtifactContent s ++ List.concat (map content_or_empty fs)
    /\ isFirstUpdate s' = false
    /\ cur_artifact s' = Some a'
    /\ List.length (contents a') = S (List.length (contents art))
    /\ currentIndex a' = Z.of_nat (List.length (contents art)) + 1
    /\ last_snapshot a'
       = Some (if str_eqb artifactType (lit "code") then
                 Code {| code_index :=
                           Z.of_nat (List.length (contents art)) + 1;
                         code_title := title prev;
                         language := theme_language params prev;
                         code :=
                           removeCodeBlockFormatting
                             (newArtifactContent s') |}
               else
                 Markdown {| md_index :=
                               Z.of_nat (List.length (contents art)) + 1;
                             md_title := title prev;
                             fullMarkdown := newArtifactContent s' |}).
Proof.
  intros Hall Hne Hres.
  destruct (rewritten_run parsePartialJson replaceOrInsertMessageChunk
              artifact params art Hart
              {| meta_type := artifactType;
                 meta_title := title prev;
                 programmingLanguage := Some (theme_language params prev) |}
              (theme_language params prev) (StreamFrame node)
              (fun _ => True))
    with (fs := fs) (s := s)
    as (s' & a' & E & _ & Hc & Hf & Ha & Hlen & Hcur & Hlast);
    try assumption; try exact I.
  { intros f t Hf _.
    destruct (step_rewriteTheme f t Hf) as (Hgen & s2 & E & Hc).
    split; [exact Hgen|]. exists s2. cbn [meta_type].
    split; [exact E|]. split; [exact Hc|]. intros a. exact I. }
  exists s', a'. cbn [meta_type meta_title] in Hlast.
  split; [exact E|]. split; [exact Hc|]. split; [exact Hf|].
  split; [exact Ha|]. split; [exact Hlen|]. split; [exact Hcur|].
  exact Hlast.
Qed.

End Theme.

(** ** Rewrites *)

Section Rewrite.

Variable art : ArtifactV3.
Variable meta : RewriteArtifactMetaToolResponse.
Hypothesis Hart : artifact = Some art.

(** One delta of the rewrite model call that arrives once the metadata is
    captured: the call of the snapshot updater, with every argument read
    off the state the frame meets. *)
Lemma step_rewrite_delta f s :
  RewriteDelta f ->
  rewriteArtifactMeta s = Some meta ->
  generates f = false
  /\ exists s2,
       step' f s
       = Go (clear_first_update
               (set_cur_artifact
                  (Some (updateRewrittenArtifact (prev_or s art)
                           (if str_eqb (meta_type meta) (lit "code")
                            then removeCodeBlockFormatting
                                   (newArtifactContent s
                                    ++ content_or_empty f)
                            else newArtifactContent s ++ content_or_empty f)
                           meta
                           (index_or_next_truthy art (reserve_index art s))
                           (isFirstUpdate s)
                           (language_by_precedence (portLanguage params)
                              meta (prevCurrentContent artifact))))
                  s2))
       /\ newArtifactContent s2
          = newArtifactContent s ++ content_or_empty f
       /\ rewriteArtifactMeta s2 = Some meta.
Proof.
  intros [Hf Hname] Hmeta.
  split.
  { unfold generates, node_is. rewrite (proj2 Hf). apply andb_false_r. }
  rewrite (step_rewriteArtifact parsePartialJson replaceOrInsertMessageChunk
             artifact params f s Hf).
  destruct (capture_run_id_fields f s)
    as (_ & _ & Hm & Hc & _ & _ & _ & _).
  unfold on_rewriteArtifact. rewrite Hm, Hmeta.
  rewrite (node_is_true f _ (proj2 Hf)). unfold name_is.
  rewrite Hname, str_eqb_refl. cbn [andb].
  rewrite (resolveArtifactLanguage_precedence artifact params meta).
  rewrite Hart.
  unfold content_or_empty. rewrite <- Hc.
  destruct (write_args art f s
              (newArtifactContent (capture_run_id f s)
               ++ to_text_or_empty (payload_content f)))
    as (W1 & W2 & W3 & W4 & W5).
  rewrite W1, W2, W3, W4.
  eexists. split; [reflexivity|]. split; [exact W4|].
  rewrite W5. exact Hmeta.
Qed.

(** A run of such deltas in a fold that has reserved its index. *)
Lemma rewrite_run (fs : list Frame) (s : Loop) :
  Forall RewriteDelta fs -> fs <> [] ->
  rewriteArtifactMeta s = Some meta -> Reserved art s ->
  exists s' a',
    run' fs s = Go s'
    /\ rewriteArtifactMeta s' = Some meta
    /\ newArtifactContent s'
       = newArtifactContent s ++ List.concat (map content_or_empty fs)
    /\ isFirstUpdate s' = false
    /\ cur_artifact s' = Some a'
    /\ List.length (contents a') = S (List.length (contents art))
    /\ currentIndex a' = Z.of_nat (List.length (contents art)) + 1
    /\ last_snapshot a'
       = Some (if str_eqb (meta_type meta) (lit "code") then
                 Code {| code_index :=
                           Z.of_nat (List.length (contents art)) + 1;
                         code_title := meta_title meta;
                         language :=
                           language_by_precedence (portLanguage params)
                             meta (prevCurrentContent artifact);
                         code :=
                           removeCodeBlockFormatting
                             (newArtifactContent s') |}
               else
                 Markdown {| md_index :=
                               Z.of_nat (List.length (contents art)) + 1;
                             md_title := meta_title meta;
                             fullMarkdown := newArtifactContent s' |}).
Proof.
  intros Hall Hne Hmeta Hres.
  apply (rewritten_run parsePartialJson replaceOrInsertMessageChunk
           artifact params art Hart meta
           (language_by_precedence (portLanguage params) meta
              (prevCurrentContent artifact))
           RewriteDelta (fun t => rewriteArtifactMeta t = Some meta));
    try assumption.
  intros f t Hf Ht.
  destruct (step_rewrite_delta f t Hf Ht) as (Hgen & s2 & E & Hc & Hm).
  split; [exact Hgen|]. exists s2.
  split; [exact E|]. split; [exact Hc|]. intros a.
  rewrite (proj1 (proj2 (proj2 (proj2 (written_state a s2))))).
  exact Hm.
Qed.

End Rewrite.

(** ** Generating an artifact *)

Lemma on_generateArtifact_outcome f s :
  node_is f "generateArtifact" = true ->
  exists s1,
    (on_generateArtifact parsePartialJson f s = Go s1
     \/ on_generateArtifact parsePartialJson f s = Continue s1)
    /\ generateArtifactToolCallStr s1
       = generateArtifactToolCallStr s ++ to_text (payload_tool_args f)
    /\ logged s1 = logged s
    /\ cur_messages s1 = cur_messages s
    /\ (cur_artifact s1 = cur_artifact s
        \/ cur_artifact s1 = None
        \/ exists content,
             cur_artifact s1
             = Some {| currentIndex := 1; contents := [content] |}).
Proof.
  intros Hn. unfold on_generateArtifact. rewrite Hn.
  cbn [generateArtifactToolCallStr set_generateArtifactToolCallStr].
  destruct (parsePartialJson _) as [parsed|].
  - match goal with
    | |- context [if ?c then _ else _] => destruct c
    end.
    + eexists. split; [left; reflexivity|].
      split; [reflexivity|]. split; [reflexivity|]. split; [reflexivity|].
      cbn [cur_artifact set_cur_artifact].
      destruct (createNewGeneratedArtifactFromTool _);
        [right; right; eexists; reflexivity | right; left; reflexivity].
    + eexists. split; [left; reflexivity|].
      split; [reflexivity|]. split; [reflexivity|]. split; [reflexivity|].
      left. reflexivity.
  - eexists. split; [right; reflexivity|].
    split; [reflexivity|]. split; [reflexivity|]. split; [reflexivity|].
    left. reflexivity.
Qed.

(** X11.  A run of deltas of the node [generateArtifact] never ends the
    fold and reports nothing; the accumulated tool-call string grows by
    the arguments of every frame in order, and by the text ["undefined"]
    for a frame that carries no arguments; the messages stay, and the
    artifact is the one before the run, or has been cleared, or is a new
    artifact with [currentIndex = 1] and a single snapshot. *)
Theorem generateArtifact_run (fs : list Frame) :
  forall s,
    Forall (StreamFrame "generateArtifact") fs ->
    exists s',
      run' fs s = Go s'
      /\ generateArtifactToolCallStr s'
         = generateArtifactToolCallStr s
           ++ List.concat (map (fun f => to_text (payload_tool_args f)) fs)
      /\ logged s' = logged s
      /\ cur_messages s' = cur_messages s
      /\ (cur_artifact s' = cur_artifact s
          \/ cur_artifact s' = None
          \/ exists content,
               cur_artifact s'
               = Some {| currentIndex := 1; contents := [content] |}).
Proof.
  induction fs as [|f fs IH]; intros s Hall.
  - exists s. cbn [run_frames map List.concat]. rewrite app_nil_r.
    repeat split; auto.
  - apply Forall_cons_iff in Hall. destruct Hall as [Hf Hrest].
    cbn [run_frames].
    rewrite (step_generateArtifact parsePartialJson
               replaceOrInsertMessageChunk artifact params f s Hf).
    destruct (capture_run_id_fields f s)
      as (Ha & Hm & _ & _ & Hb & Hl & _ & _).
    destruct (on_generateArtifact_outcome f (capture_run_id f s)
                (node_is_true f _ (proj2 Hf)))
      as (s1 & Hgo & Hb1 & Hl1 & Hm1 & Ha1).
    destruct (IH s1 Hrest) as (s' & E & Hb' & Hl' & Hm' & Ha').
    exists s'.
    split.
    { destruct Hgo as [-> | ->]; exact E. }
    split.
    { rewrite Hb', Hb1, Hb. cbn [map List.concat].
      rewrite <- app_assoc. reflexivity. }
    split; [congruence|]. split; [congruence|].
    destruct Ha' as [H | [H | H]];
      [|right; left; exact H | right; right; exact H].
    rewrite H, <- Ha. exact Ha1.
Qed.

End RewriteExtras.

(** X10.  A fold that is a non-empty run of stream frames of a theme
    rewrite or of a custom action, on an artifact with an active snapshot:
    the loop is not left; the rewritten content is the content of every
    frame in order (nothing for a missing or empty content), however the
    text is chunked; and the artifact has exactly one snapshot more, the
    last one, which is also the current one.  That snapshot is at the
    index "number of snapshots before plus one", has the title of the
    previous snapshot and holds the whole rewritten content; it is text
    for [rewriteArtifactTheme], code for [rewriteCodeArtifactTheme], and
    of the type of the previous snapshot for [customAction]; when it is
    code, the content has passed the fence stripper and the language is
    the override [portLanguage] when present, else the language of the
    previous snapshot when that is code, else ["other"]. *)
Theorem theme_rewrite_run
  (parsePartialJson : str -> option ArtifactToolResponse)
  (replaceOrInsertMessageChunk :
     list BaseMessage -> MessageChunk -> list BaseMessage)
  (params : GraphInput) (hook : Hook) (art : ArtifactV3)
  (prev : ArtifactContent) (node : string) (artifactType : str)
  (fs : list Frame) :
  artifact hook = Some art ->
  prevCurrentContent (Some art) = Some prev ->
  (node = "rewriteArtifactTheme"%string /\ artifactType = lit "text")
  \/ (node = "rewriteCodeArtifactTheme"%string
      /\ artifactType = lit "code")
  \/ (node = "customAction"%string /\ artifactType = type prev) ->
  Forall (StreamFrame node) fs ->
  fs <> [] ->
  exists s' a',
    run_frames parsePartialJson replaceOrInsertMessageChunk (artifact hook)
      params fs (initial_loop hook) = Go s'
    /\ newArtifactContent s' = List.concat (map content_or_empty fs)
    /\ isFirstUpdate s' = false
    /\ cur_artifact s' = Some a'
    /\ List.length (contents a') = S (List.length (contents art))
    /\ currentIndex a' = Z.of_nat (List.length (contents art)) + 1
    /\ last_snapshot a'
       = Some (if str_eqb artifactType (lit "code") then
                 Code {| code_index :=
                           Z.of_nat (List.length (contents art)) + 1;
                         code_title := title prev;
                         language := theme_language params prev;
                         code :=
                           removeCodeBlockFormatting
                             (List.concat (map content_or_empty fs)) |}
               else
                 Markdown {| md_index :=
                               Z.of_nat (List.length (contents art)) + 1;
                             md_title := title prev;
                             fullMarkdown :=
                               List.concat (map content_or_empty fs) |}).
Proof.
  intros Ha Hprev Hnode Hall Hne. rewrite Ha.
  destruct (theme_run parsePartialJson replaceOrInsertMessageChunk
              (Some art) params art prev eq_refl Hprev node artifactType
              Hnode fs (initial_loop hook) Hall Hne
              (Reserved_initial_loop hook art Ha))
    as (s' & a' & E & Hc & Hf & Hcur & Hlen & Hidx & Hlast).
  change (newArtifactContent (initial_loop hook)) with (@nil char) in Hc.
  cbn [app] in Hc. rewrite Hc in Hlast.
  exists s', a'. split; [exact E|]. split; [exact Hc|]. split; [exact Hf|].
  split; [exact Hcur|]. split; [exact Hlen|]. split; [exact Hidx|].
  exact Hlast.
Qed.

(** X12.  A fold that is the end frame carrying the rewrite metadata
    followed by a non-empty run of deltas of the rewrite model call, on an
    artifact: the loop is not left; the metadata stays the captured one;
    the rewritten content is the content of every delta in order (nothing
    for a missing or empty content), however the text is chunked; and the
    artifact has exactly one snapshot more, the last one, which is also
    the current one.  That snapshot is at the index "number of snapshots
    before plus one", has the title of the metadata and holds the whole
    rewritten content; it is code exactly when the metadata declares
    code, and then the content has passed the fence stripper and the
    language is the one the precedence gives (override, declared language,
    title of the previous snapshot, ["other"]). *)
Theorem rewriteArtifact_run
  (parsePartialJson : str -> option ArtifactToolResponse)
  (replaceOrInsertMessageChunk :
     list BaseMessage -> MessageChunk -> list BaseMessage)
  (params : GraphInput) (hook : Hook) (art : ArtifactV3)
  (meta : RewriteArtifactMetaToolResponse) (meta_frame : Frame)
  (fs : list Frame) :
  artifact hook = Some art ->
  event meta_frame = lit "on_chat_model_end" ->
  langgraph_node meta_frame = lit "rewriteArtifact" ->
  name meta_frame = Some (lit "optionally_update_artifact_meta") ->
  output_args meta_frame = Some meta ->
  Forall RewriteDelta fs ->
  fs <> [] ->
  exists s' a',
    run_frames parsePartialJson replaceOrInsertMessageChunk (artifact hook)
      params (meta_frame :: fs) (initial_loop hook) = Go s'
    /\ rewriteArtifactMeta s' = Some meta
    /\ newArtifactContent s' = List.concat (map content_or_empty fs)
    /\ isFirstUpdate s' = false
    /\ cur_artifact s' = Some a'
    /\ List.length (contents a') = S (List.length (contents art))
    /\ currentIndex a' = Z.of_nat (List.length (contents art)) + 1
    /\ last_snapshot a'
       = Some (if str_eqb (meta_type meta) (lit "code") then
                 Code {| code_index :=
                           Z.of_nat (List.length (contents art)) + 1;
                         code_title := meta_title meta;
                         language :=
                           language_by_precedence (portLanguage params)
                             meta (prevCurrentContent (Some art));
                         code :=
                           removeCodeBlockFormatting
                             (List.concat (map content_or_empty fs)) |}
               else
                 Markdown {| md_index :=
                               Z.of_nat (List.length (contents art)) + 1;
                             md_title := meta_title meta;
                             fullMarkdown :=
                               List.concat (map content_or_empty fs) |}).
Proof.
  intros Ha Hev Hnode Hname Hout Hall Hne. rewrite Ha.
  cbn [run_frames].
  rewrite (step_end_event parsePartialJson replaceOrInsertMessageChunk
             (Some art) params meta_frame (initial_loop hook) Hev).
  unfold on_chat_model_end, event_is, name_is.
  rewrite Hev, (node_is_true meta_frame _ Hnode), Hname, !str_eqb_refl.
  cbn [andb]. rewrite Hout.
  set (s := set_rewriteArtifactMeta (Some meta)
              (capture_run_id meta_frame (initial_loop hook))).
  assert (Hres : Reserved art s).
  { apply (Reserved_same art (initial_loop hook)).
    - unfold s. auto with loop.
    - apply Reserved_initial_loop. assumption. }
  assert (Hc0 : newArtifactContent s = []).
  { unfold s, capture_run_id. destruct (negb _ && _); reflexivity. }
  destruct (rewrite_run parsePartialJson replaceOrInsertMessageChunk
              (Some art) params art meta eq_refl fs s Hall Hne eq_refl Hres)
    as (s' & a' & E & Hm & Hc & Hf & Hcur & Hlen & Hidx & Hlast).
  rewrite Hc0 in Hc. cbn [app] in Hc. rewrite Hc in Hlast.
  exists s', a'. split; [exact E|]. split; [exact Hm|]. split; [exact Hc|].
  split; [exact Hf|]. split; [exact Hcur|]. split; [exact Hlen|].
  split; [exact Hidx | exact Hlast].
Qed.

(* ================================================================== *)
(** * The identifier of a shared run *)
(* ================================================================== *)

Lemma cut_none (sep : str) :
  forall s before,
    (forall m, starts_with sep (skipn m s) = false) ->
    cut sep s before = None.
Proof.
  induction s as [|c s IH]; intros before H; cbn [cut].
  - pose proof (H 0%nat) as H0. cbn [skipn] in H0. rewrite H0. reflexivity.
  - pose proof (H 0%nat) as H0. cbn [skipn] in H0. rewrite H0.
    apply IH. intros m. apply (H (S m)).
Qed.

Lemma cut_unfold (sep s before : str) :
  cut sep s before
  = if starts_with sep s then Some (before, skipn (List.length sep) s)
    else match s with
         | [] => None
         | c :: s' => cut sep s' (before ++ [c])
         end.
Proof. destruct s; reflexivity. Qed.

Lemma cut_head (sep t : str) :
  cut sep (sep ++ t) [] = Some ([], t).
Proof.
  rewrite cut_unfold, starts_with_prefix.
  rewrite skipn_app, skipn_all, Nat.sub_diag. reflexivity.
Qed.

Lemma cut_slash (seg t : str) :
  forallb (fun c => negb (char_eqb c slash)) seg = true ->
  forall before,
    cut [slash] (seg ++ slash :: t) before = Some (before ++ seg, t).
Proof.
  induction seg as [|c seg IH]; intros Hseg before.
  - cbn. rewrite app_nil_r. reflexivity.
  - cbn [forallb] in Hseg. apply andb_true_iff in Hseg.
    destruct Hseg as [Hc Hseg]. apply negb_true_iff in Hc.
    cbn [app cut starts_with]. unfold char_eqb in *.
    rewrite N.eqb_sym in Hc. rewrite Hc. cbn [andb].
    rewrite (IH Hseg), <- app_assoc. reflexivity.
Qed.

Lemma cut_no_slash (seg : str) :
  forallb (fun c => negb (char_eqb c slash)) seg = true ->
  forall before, cut [slash] seg before = None.
Proof.
  induction seg as [|c seg IH]; intros Hseg before; [reflexivity|].
  cbn [forallb] in Hseg. apply andb_true_iff in Hseg.
  destruct Hseg as [Hc Hseg]. apply negb_true_iff in Hc.
  cbn [cut starts_with]. unfold char_eqb in *.
  rewrite N.eqb_sym in Hc. rewrite Hc. cbn [andb]. apply IH. assumption.
Qed.

(** X13.  The identifier of the annotation is the first path segment
    behind the public prefix: for a URL made of the prefix, a segment
    without a slash, and nothing or a slash and more behind it, in which
    the prefix does not occur a second time, the identifier is that
    segment; a URL in which the prefix does not occur at all makes the
    computation throw. *)
Theorem shared_run_id_segment (seg tail url : str) :
  (forallb (fun c => negb (char_eqb c slash)) seg = true ->
   tail = [] \/ (exists t, tail = slash :: t) ->
   indexOf (seg ++ tail) public_prefix = -1 ->
   shared_run_id (Some (public_prefix ++ seg ++ tail)) = Some (Some seg))
  /\ (indexOf url public_prefix = -1 ->
      shared_run_id (Some url) = None).
Proof.
  split.
  - intros Hseg Htail Hmiss. unfold shared_run_id, split_1.
    fold public_prefix. rewrite cut_head.
    assert (H0 : split_0 (seg ++ tail) public_prefix = seg ++ tail).
    { unfold split_0.
      rewrite (cut_none public_prefix (seg ++ tail) []
                 (indexOf_from_missing public_prefix (seg ++ tail) 0
                    ltac:(lia) Hmiss)).
      reflexivity. }
    rewrite H0. unfold split_0.
    destruct Htail as [-> | (t & ->)].
    + rewrite app_nil_r, (cut_no_slash seg Hseg). reflexivity.
    + rewrite (cut_slash seg t Hseg). reflexivity.
  - intros Hmiss. unfold shared_run_id, split_1. fold public_prefix.
    rewrite (cut_none public_prefix url []
               (indexOf_from_missing public_prefix url 0 ltac:(lia) Hmiss)).
    reflexivity.
Qed.

Lemma shared_run_id_segment_witness :
  shared_run_id
    (Some (public_prefix ++ lit "abc123" ++ slash :: lit "r"))
  = Some (Some (lit "abc123"))
  /\ shared_run_id (Some (lit "https://example.com/r/abc123")) = None.
Proof.
  split.
  - apply (proj1 (shared_run_id_segment (lit "abc123") (slash :: lit "r")
                    (lit "https://example.com/r/abc123")));
      [reflexivity | right; eexists; reflexivity | reflexivity].
  - apply (proj2 (shared_run_id_segment (lit "abc123") (slash :: lit "r")
                    (lit "https://example.com/r/abc123"))).
    reflexivity.
Defined.

(* ================================================================== *)
(** * Annotating messages with the shared run *)
(* ================================================================== *)

Lemma has_tool_ui_appended (msg : BaseMessage) (l : list ToolCall)
  (url id : option str) :
  has_tool_ui (with_tool_calls (Some (l ++ [tool_ui_call url id])) msg)
  = true.
Proof.
  unfold has_tool_ui, with_tool_calls. cbn [tool_calls].
  rewrite existsb_app. cbn. rewrite orb_true_r. reflexivity.
Qed.

(** X14.  The update of the messages once the run is shared, when the
    identifier can be computed: it keeps the number and the order of the
    messages, their ids, contents and metadata; it appends the annotation
    to exactly the messages that have the id of the followup message and
    no annotation yet, and leaves every other message as it is; afterwards
    every message with that id carries the annotation, and applying the
    update again changes nothing. *)
Theorem onRunShared_attaches_once
  (followupMessageId sharedRunURL id : option str)
  (prevMessages : list BaseMessage) :
  shared_run_id sharedRunURL = Some id ->
  exists newMsgs,
    onRunShared followupMessageId sharedRunURL prevMessages = Some newMsgs
    /\ Forall2
         (fun msg msg' =>
            if opt_str_eqb (msg_id msg) followupMessageId
               && negb (has_tool_ui msg)
            then msg' = with_tool_calls
                          (Some (calls_of msg
                                 ++ [tool_ui_call sharedRunURL id])) msg
            else msg' = msg)
         prevMessages newMsgs
    /\ Forall
         (fun msg' =>
            opt_str_eqb (msg_id msg') followupMessageId = true ->
            has_tool_ui msg' = true)
         newMsgs
    /\ onRunShared followupMessageId sharedRunURL newMsgs = Some newMsgs.
Proof.
  intros Hid.
  induction prevMessages as [|msg rest IH].
  - exists []. repeat split; constructor.
  - destruct IH as (rest' & E & Hrel & Hall & Hidem).
    cbn [onRunShared]. rewrite E, Hid.
    destruct (opt_str_eqb (msg_id msg) followupMessageId
              && negb (has_tool_ui msg)) eqn:Hc.
    + set (msg' := with_tool_calls
                     (Some (calls_of msg ++ [tool_ui_call sharedRunURL id]))
                     msg).
      assert (Hsame :
        with_tool_calls
          match tool_calls msg with
          | Some calls => Some (calls ++ [tool_ui_call sharedRunURL id])
          | None => Some [tool_ui_call sharedRunURL id]
          end msg = msg').
      { unfold msg', calls_of. destruct (tool_calls msg); reflexivity. }
      rewrite Hsame. exists (msg' :: rest').
      split; [reflexivity|]. split.
      { constructor; [rewrite Hc; reflexivity | exact Hrel]. }
      split.
      { constructor; [|exact Hall]. intros _.
        apply has_tool_ui_appended. }
      cbn [onRunShared]. rewrite Hidem.
      assert (Hui : has_tool_ui msg' = true)
        by apply has_tool_ui_appended.
      rewrite Hui, andb_false_r. reflexivity.
    + exists (msg :: rest').
      split; [reflexivity|]. split.
      { constructor; [rewrite Hc; reflexivity | exact Hrel]. }
      split.
      { constructor; [|exact Hall]. intros Hm. rewrite Hm in Hc.
        cbn [andb] in Hc. apply negb_false_iff in Hc. exact Hc. }
      cbn [onRunShared]. rewrite Hidem, Hc. reflexivity.
Qed.

Lemma onRunShared_attaches_once_witness :
  exists newMsgs,
    onRunShared (Some (lit "m1")) (Some shared_url)
      [plain_message; foreign_message] = Some newMsgs
    /\ Forall2
         (fun msg msg' =>
            if opt_str_eqb (msg_id msg) (Some (lit "m1"))
               && negb (has_tool_ui msg)
            then msg' = with_tool_calls
                          (Some (calls_of msg
                                 ++ [tool_ui_call (Some shared_url)
                                       (Some (lit "abc123"))])) msg
            else msg' = msg)
         [plain_message; foreign_message] newMsgs
    /\ Forall
         (fun msg' =>
            opt_str_eqb (msg_id msg') (Some (lit "m1")) = true ->
            has_tool_ui msg' = true)
         newMsgs
    /\ onRunShared (Some (lit "m1")) (Some shared_url) newMsgs
       = Some newMsgs.
Proof.
  apply (onRunShared_attaches_once (Some (lit "m1")) (Some shared_url)
           (Some (lit "abc123")) [plain_message; foreign_message]).
  reflexivity.
Defined.

(* ================================================================== *)
(** * Switching to a thread: what replaces what *)
(* ================================================================== *)

Section SwitchExtras.

Variable DeprecatedArtifact : Type.
Variable convertToArtifactV3 : DeprecatedArtifact -> ArtifactV3.

Local Abbreviation switch :=
  (switchSelectedThread convertToArtifactV3).

Local Abbreviation thread_artifact :=
  (castArtifact convertToArtifactV3).

Lemma attach_all_well_formed (msgs : list BaseMessage) :
  Forall (fun msg =>
            truthy_opt (langSmithRunURL msg) = true ->
            shared_run_id (langSmithRunURL msg) <> None) msgs ->
  exists msgs',
    attach_all msgs = (msgs', false)
    /\ Forall2
         (fun msg msg' =>
            if truthy_opt (langSmithRunURL msg) then
              exists id,
                shared_run_id (langSmithRunURL msg) = Some id
                /\ msg' = with_tool_calls
                            (Some (calls_of msg
                                   ++ [tool_ui_call (langSmithRunURL msg)
                                         id])) msg
            else msg' = msg)
         msgs msgs'.
Proof.
  induction msgs as [|msg rest IH]; intros Hall.
  - exists []. split; [reflexivity | constructor].
  - apply Forall_cons_iff in Hall. destruct Hall as [Hm Hrest].
    destruct (IH Hrest) as (rest' & E & Hrel).
    cbn [attach_all]. unfold attach_shared_run.
    destruct (truthy_opt (langSmithRunURL msg)) eqn:Hu.
    + specialize (Hm eq_refl).
      destruct (shared_run_id (langSmithRunURL msg)) as [id|] eqn:Hid;
        [|destruct (Hm eq_refl)].
      rewrite E. eexists. split; [reflexivity|].
      constructor; [|exact Hrel]. rewrite Hu. exists id.
      split; [exact Hid | reflexivity].
    + rewrite E. eexists. split; [reflexivity|].
      constructor; [|exact Hrel]. rewrite Hu. reflexivity.
Qed.

(** X15.  Switching to a thread whose messages carry only shared-run
    URLs with the public prefix (or none) does not throw; the artifact of
    the hook becomes the one of the thread; the messages of the hook are
    the messages of the thread, in the same number and order, each one as
    it was when it has no URL and with one more tool call, the annotation
    at the end of its tool calls, when it has one; the thread object holds
    these same records afterwards. *)
Theorem switchSelectedThread_well_formed
  (thread : Thread DeprecatedArtifact) (msgs : list BaseMessage)
  (hook : Hook) :
  values_messages thread = Some msgs ->
  msgs <> [] ->
  Forall (fun msg =>
            truthy_opt (langSmithRunURL msg) = true ->
            shared_run_id (langSmithRunURL msg) <> None) msgs ->
  threw (switch thread hook) = false
  /\ artifact (hook_after (switch thread hook)) = thread_artifact thread
  /\ Forall2
       (fun msg msg' =>
          if truthy_opt (langSmithRunURL msg) then
            exists id,
              shared_run_id (langSmithRunURL msg) = Some id
              /\ msg' = with_tool_calls
                          (Some (calls_of msg
                                 ++ [tool_ui_call (langSmithRunURL msg) id]))
                          msg
          else msg' = msg)
       msgs (messages (hook_after (switch thread hook)))
  /\ values_messages (thread_after (switch thread hook))
     = Some (messages (hook_after (switch thread hook))).
Proof.
  intros Hv Hne Hall.
  destruct (attach_all_well_formed msgs Hall) as (msgs' & E & Hrel).
  unfold switchSelectedThread. rewrite Hv.
  destruct msgs as [|m0 rest]; [contradiction|].
  rewrite E. cbn. repeat split; assumption.
Qed.

(** X16.  Switching to a thread replaces the state and does not merge
    it: the artifact afterwards, the thread object afterwards and whether
    the call throws do not depend on the hook before, and neither do the
    messages afterwards unless the call throws; a thread without messages
    leaves no message.  When the call throws, the artifact is replaced all
    the same, while the messages are still the ones of the hook before. *)
Theorem switchSelectedThread_replaces
  (thread : Thread DeprecatedArtifact) (hook hook2 : Hook) :
  artifact (hook_after (switch thread hook)) = thread_artifact thread
  /\ threw (switch thread hook) = threw (switch thread hook2)
  /\ thread_after (switch thread hook) = thread_after (switch thread hook2)
  /\ (threw (switch thread hook) = false ->
      messages (hook_after (switch thread hook))
      = messages (hook_after (switch thread hook2)))
  /\ (threw (switch thread hook) = true ->
      messages (hook_after (switch thread hook)) = messages hook)
  /\ (values_messages thread = None \/ values_messages thread = Some [] ->
      messages (hook_after (switch thread hook)) = []
      /\ threw (switch thread hook) = false)
  /\ selectedBlocks (hook_after (switch thread hook)) = selectedBlocks hook
  /\ isStreaming (hook_after (switch thread hook)) = isStreaming hook.
Proof.
  unfold switchSelectedThread, castArtifact.
  destruct (values_messages thread) as [[|m0 rest]|].
  - cbn. repeat split; try discriminate.
  - destruct (attach_all (m0 :: rest)) as [msgs' failed]. cbn.
    destruct failed; repeat split;
      try solve [reflexivity | discriminate | intros; reflexivity
                | match goal with
                  | H : _ \/ _ |- _ => destruct H; discriminate
                  end].
  - cbn. repeat split; try discriminate.
Qed.

End SwitchExtras.

Lemma switchSelectedThread_well_formed_witness :
  threw (switchSelectedThread as_current
           (thread_of [plain_message; local_message]) empty_hook) = false
  /\ artifact (hook_after (switchSelectedThread as_current
                             (thread_of [plain_message; local_message])
                             empty_hook))
     = castArtifact as_current (thread_of [plain_message; local_message])
  /\ Forall2
       (fun msg msg' =>
          if truthy_opt (langSmithRunURL msg) then
            exists id,
              shared_run_id (langSmithRunURL msg) = Some id
              /\ msg' = with_tool_calls
                          (Some (calls_of msg
                                 ++ [tool_ui_call (langSmithRunURL msg) id]))
                          msg
          else msg' = msg)
       [plain_message; local_message]
       (messages (hook_after (switchSelectedThread as_current
                                (thread_of [plain_message; local_message])
                                empty_hook)))
  /\ values_messages (thread_after (switchSelectedThread as_current
                                      (thread_of
                                         [plain_message; local_message])
                                      empty_hook))
     = Some (messages (hook_after (switchSelectedThread as_current
                                     (thread_of
                                        [plain_message; local_message])
                                     empty_hook))).
Proof.
  apply (switchSelectedThread_well_formed unit as_current
           (thread_of [plain_message; local_message])
           [plain_message; local_message] empty_hook).
  - reflexivity.
  - discriminate.
  - apply Forall_cons; [intros _; vm_compute; discriminate|].
    apply Forall_cons; [intros H; vm_compute in H; discriminate|].
    apply Forall_nil.
Defined.

(* ================================================================== *)
(** * Editing and selecting snapshots by hand *)
(* ================================================================== *)

Section SetterExtras.

Variable reverseCleanContent : str -> str.

Local Abbreviation set_content :=
  (setArtifactContent reverseCleanContent).

(** X17.  Manual edits compose as writes to a store keyed by the snapshot
    index: of two edits at the same index only the later one is seen; two
    edits at different indices give the same snapshots in either order;
    the selected index is the one of the later edit; an edit overrides an
    earlier selection, and a selection after an edit keeps the snapshots
    of the edit. *)
Theorem setArtifactContent_compose
  (i j : Z) (c1 c2 : str) (hook : Hook) :
  artifact (set_content i c2 (set_content i c1 hook))
  = artifact (set_content i c2 hook)
  /\ (i <> j ->
      option_map contents
        (artifact (set_content j c2 (set_content i c1 hook)))
      = option_map contents
          (artifact (set_content i c1 (set_content j c2 hook))))
  /\ option_map currentIndex
       (artifact (set_content j c2 (set_content i c1 hook)))
     = option_map (fun _ => j) (artifact hook)
  /\ artifact (set_content j c2 (setSelectedArtifact i hook))
     = artifact (set_content j c2 hook)
  /\ option_map contents
       (artifact (setSelectedArtifact j (set_content i c1 hook)))
     = option_map contents (artifact (set_content i c1 hook)).
Proof.
  unfold setArtifactContent, setSelectedArtifact.
  destruct (artifact hook) as [prev|]; cbn;
    [|repeat split; reflexivity].
  split.
  { do 2 f_equal. rewrite map_map. apply map_ext. intros [m|c]; cbn.
    - destruct (md_index m =? i) eqn:E; cbn; rewrite ?E; reflexivity.
    - destruct (code_index c =? i) eqn:E; cbn; rewrite ?E; reflexivity. }
  split.
  { intros Hij. f_equal. rewrite !map_map. apply map_ext.
    intros [m|c]; cbn.
    - destruct (md_index m =? i) eqn:Ei, (md_index m =? j) eqn:Ej;
        cbn; rewrite ?Ei, ?Ej; reflexivity.
    - destruct (code_index c =? i) eqn:Ei, (code_index c =? j) eqn:Ej;
        cbn; rewrite ?Ei, ?Ej; cbn; try reflexivity.
      apply Z.eqb_eq in Ei, Ej. congruence. }
  repeat split; reflexivity.
Qed.

End SetterExtras.

Section SelectExtras.

Variable parsePartialJson : str -> option ArtifactToolResponse.
Variable replaceOrInsertMessageChunk :
  list BaseMessage -> MessageChunk -> list BaseMessage.

(** X18.  Selecting an index that no snapshot has is accepted without
    any report, and makes the next ranged edit fail: the fold ends at the
    first delta with the notification that the original artifact was not
    found, neither the artifact nor the messages change, the frames behind
    are not read and the run is not shared. *)
Theorem edit_after_selecting_missing_index
  (useGraphInput : UseGraphInput) (params : GraphInput)
  (a : ArtifactV3) (idx : Z) (f : Frame) (rest : list Frame)
  (transport_fails : bool) (hook : Hook) :
  truthy_opt (threadId useGraphInput) = true ->
  truthy_opt (assistantId useGraphInput) = true ->
  artifact hook = Some a ->
  find (fun c => index c =? idx) (contents a) = None ->
  highlighted params <> None ->
  StreamFrame "updateArtifact" f ->
  truthy_opt (payload_content f) = true ->
  artifact (setSelectedArtifact idx hook)
  = Some {| currentIndex := idx; contents := contents a |}
  /\ effects (setSelectedArtifact idx hook) = effects hook
  /\ artifact
       (streamMessageV2 parsePartialJson replaceOrInsertMessageChunk
          useGraphInput params (f :: rest) transport_fails
          (setSelectedArtifact idx hook))
     = artifact (setSelectedArtifact idx hook)
  /\ messages
       (streamMessageV2 parsePartialJson replaceOrInsertMessageChunk
          useGraphInput params (f :: rest) transport_fails
          (setSelectedArtifact idx hook))
     = messages hook
  /\ effects
       (streamMessageV2 parsePartialJson replaceOrInsertMessageChunk
          useGraphInput params (f :: rest) transport_fails
          (setSelectedArtifact idx hook))
     = effects hook
       ++ [StreamOpened; Toast "Error" "Original artifact not found"].
Proof.
  intros Ht Ha Hart Hfind Hh Hf Hc.
  assert (Esel : setSelectedArtifact idx hook
                 = {| messages := messages hook;
                      artifact :=
                        Some {| currentIndex := idx;
                                contents := contents a |};
                      selectedBlocks := selectedBlocks hook;
                      isStreaming := false;
                      effects := effects hook |}).
  { unfold setSelectedArtifact. rewrite Hart. reflexivity. }
  rewrite Esel. cbn [artifact effects messages].
  split; [reflexivity|]. split; [reflexivity|].
  unfold streamMessageV2. rewrite Ht, Ha. cbn [negb].
  cbn [run_frames artifact].
  rewrite (step_updateArtifact parsePartialJson replaceOrInsertMessageChunk
             _ params f _ Hf).
  unfold on_updateArtifact. rewrite (node_is_true f _ (proj2 Hf)).
  destruct (highlighted params) as [range|]; [|contradiction].
  rewrite Hc. cbn [negb].
  unfold prevCurrentContent. cbn [currentIndex contents]. rewrite Hfind.
  unfold settle, toast_error, report, reserve_index, capture_run_id,
    initial_loop.
  cbn. destruct (truthy_opt (run_id f)); cbn; repeat split; reflexivity.
Qed.

End SelectExtras.

Lemma edit_after_selecting_missing_index_witness :
  artifact (setSelectedArtifact 7 code_hook)
  = Some {| currentIndex := 7; contents := [Code abc123xyz] |}
  /\ effects (setSelectedArtifact 7 code_hook) = effects code_hook
  /\ artifact
       (streamMessageV2 no_parse keep_messages session range_3_6
          [content_delta "updateArtifact" (lit "X")] false
          (setSelectedArtifact 7 code_hook))
     = artifact (setSelectedArtifact 7 code_hook)
  /\ messages
       (streamMessageV2 no_parse keep_messages session range_3_6
          [content_delta "updateArtifact" (lit "X")] false
          (setSelectedArtifact 7 code_hook))
     = messages code_hook
  /\ effects
       (streamMessageV2 no_parse keep_messages session range_3_6
          [content_delta "updateArtifact" (lit "X")] false
          (setSelectedArtifact 7 code_hook))
     = effects code_hook
       ++ [StreamOpened; Toast "Error" "Original artifact not found"].
Proof.
  apply (edit_after_selecting_missing_index no_parse keep_messages session
           range_3_6 {| currentIndex := 1; contents := [Code abc123xyz] |}
           7 (content_delta "updateArtifact" (lit "X")) [] false code_hook).
  - reflexivity.
  - reflexivity.
  - reflexivity.
  - reflexivity.
  - discriminate.
  - split; reflexivity.
  - reflexivity.
Defined.

(* ================================================================== *)
(** * The effects of one fold *)
(* ================================================================== *)

Lemma reports_only_refl s : reports_only s s.
Proof. exists []. rewrite app_nil_r. split; reflexivity. Qed.

Lemma reports_only_trans s1 s2 s3 :
  reports_only s1 s2 -> reports_only s2 s3 -> reports_only s1 s3.
Proof.
  intros (a & Ha & Fa) (b & Hb & Fb). exists (a ++ b).
  rewrite Hb, Ha, app_assoc, forallb_app, Fa, Fb. split; reflexivity.
Qed.

Ltac reports_explicit :=
  unfold reports_only; cbn;
  first [ exists []; rewrite app_nil_r; split; reflexivity
        | eexists; split; reflexivity ].

Lemma reports_only_and_then s0 c k :
  (forall s, reports_only s (final_state (k s))) ->
  reports_only s0 (final_state c) ->
  reports_only s0 (final_state (c >>= k)).
Proof.
  intros Hk Hc. destruct c; cbn in *; auto.
  apply (reports_only_trans s0 s); auto.
Qed.

Section Effects.

Variable parsePartialJson : str -> option ArtifactToolResponse.
Variable replaceOrInsertMessageChunk :
  list BaseMessage -> MessageChunk -> list BaseMessage.

Section Handlers.

Variable artifact : option ArtifactV3.
Variable params : GraphInput.

Lemma reports_only_capture_run_id f s :
  reports_only s (capture_run_id f s).
Proof.
  unfold capture_run_id. destruct (negb _ && _); reports_explicit.
Qed.

Lemma reports_only_on_chain_start f s :
  reports_only s (final_state (on_chain_start f s)).
Proof.
  unfold on_chain_start. case_all; cbn [final_state]; reports_explicit.
Qed.

Lemma reports_only_on_followup f s :
  reports_only s
    (final_state (on_followup replaceOrInsertMessageChunk f s)).
Proof.
  unfold on_followup, throw. case_all; cbn [final_state];
    reports_explicit.
Qed.

Lemma reports_only_on_generateArtifact f s :
  reports_only s
    (final_state (on_generateArtifact parsePartialJson f s)).
Proof.
  unfold on_generateArtifact. case_all; cbn [final_state];
    reports_explicit.
Qed.

Lemma reports_only_on_updateHighlightedText f s :
  reports_only s (final_state (on_updateHighlightedText artifact f s)).
Proof.
  unfold on_updateHighlightedText, throw, toast_error, reserve_index,
    clear_first_update.
  case_all; cbn [final_state]; reports_explicit.
Qed.

Lemma reports_only_on_updateArtifact f s :
  reports_only s (final_state (on_updateArtifact artifact params f s)).
Proof.
  unfold on_updateArtifact, throw, toast_error, reserve_index,
    clear_first_update.
  case_all; cbn [final_state]; reports_explicit.
Qed.

Lemma reports_only_on_rewriteArtifact f s :
  reports_only s (final_state (on_rewriteArtifact artifact params f s)).
Proof.
  unfold on_rewriteArtifact, throw, toast_error, reserve_index,
    clear_first_update.
  case_all; cbn [final_state]; reports_explicit.
Qed.

Lemma reports_only_on_rewriteTheme f s :
  reports_only s (final_state (on_rewriteTheme artifact params f s)).
Proof.
  unfold on_rewriteTheme, throw, toast_error, reserve_index,
    clear_first_update.
  case_all; cbn [final_state]; reports_explicit.
Qed.

Lemma reports_only_on_chat_model_end f s :
  reports_only s (final_state (on_chat_model_end f s)).
Proof.
  unfold on_chat_model_end, throw. case_all; cbn [final_state];
    reports_explicit.
Qed.

Lemma reports_only_step f s :
  reports_only s
    (final_state
       (step parsePartialJson replaceOrInsertMessageChunk artifact params
          f s)).
Proof.
  unfold step. repeat apply reports_only_and_then.
  - apply reports_only_on_chat_model_end.
  - intros s'. unfold on_chat_model_stream.
    destruct (event_is f "on_chat_model_stream");
      [|apply reports_only_refl].
    repeat apply reports_only_and_then.
    + apply reports_only_on_rewriteTheme.
    + apply reports_only_on_rewriteArtifact.
    + apply reports_only_on_updateArtifact.
    + apply reports_only_on_updateHighlightedText.
    + apply reports_only_on_generateArtifact.
    + apply reports_only_on_followup.
  - apply reports_only_on_chain_start.
  - cbn [final_state]. apply reports_only_capture_run_id.
Qed.

Lemma reports_only_run_frames (frames : list Frame) :
  forall s,
    reports_only s
      (final_state
         (run_frames parsePartialJson replaceOrInsertMessageChunk artifact
            params frames s)).
Proof.
  induction frames as [|f rest IH]; intros s; [apply reports_only_refl|].
  cbn [run_frames].
  pose proof (reports_only_step f s) as Hstep.
  destruct (step parsePartialJson replaceOrInsertMessageChunk artifact
              params f s) as [s'|s'|s'];
    cbn [final_state] in *;
    try (apply (reports_only_trans s s'); [exact Hstep | apply IH]).
  exact Hstep.
Qed.

End Handlers.

(** X19.  What one call of [streamMessageV2] does besides updating the
    state: it never removes or reorders an effect that was there; with
    both ids it opens the stream once, first; everything it emits then is
    an error report (a notification or a console error), except that the
    run may be shared, at most once, as the last effect, with the
    non-empty run id the loop ended with; without an id nothing is opened
    or shared.  The selection is never changed, and the streaming flag is
    cleared whenever the stream was opened. *)
Theorem streamMessageV2_effects
  (useGraphInput : UseGraphInput) (params : GraphInput)
  (frames : list Frame) (transport_fails : bool) (hook : Hook) :
  exists reports share,
    effects (streamMessageV2 parsePartialJson replaceOrInsertMessageChunk
               useGraphInput params frames transport_fails hook)
    = effects hook
      ++ (if truthy_opt (threadId useGraphInput)
             && truthy_opt (assistantId useGraphInput)
          then [StreamOpened] else [])
      ++ reports ++ share
    /\ forallb is_report reports = true
    /\ (share = []
        \/ truthy_opt (threadId useGraphInput)
           && truthy_opt (assistantId useGraphInput) = true
           /\ truthy
                (runId
                   (final_state
                      (run_frames parsePartialJson
                         replaceOrInsertMessageChunk (artifact hook) params
                         frames (initial_loop hook)))) = true
           /\ share
              = [ShareRun
                   (runId
                      (final_state
                         (run_frames parsePartialJson
                            replaceOrInsertMessageChunk (artifact hook)
                            params frames (initial_loop hook))))])
    /\ selectedBlocks
         (streamMessageV2 parsePartialJson replaceOrInsertMessageChunk
            useGraphInput params frames transport_fails hook)
       = selectedBlocks hook
    /\ (truthy_opt (threadId useGraphInput)
        && truthy_opt (assistantId useGraphInput) = true ->
        isStreaming
          (streamMessageV2 parsePartialJson replaceOrInsertMessageChunk
             useGraphInput params frames transport_fails hook)
        = false).
Proof.
  unfold streamMessageV2.
  destruct (truthy_opt (threadId useGraphInput)); cbn [negb andb];
    [|exists [Toast "Error" "Thread ID not found"], [];
      repeat split; auto; discriminate].
  destruct (truthy_opt (assistantId useGraphInput)); cbn [negb];
    [|exists [Toast "Error" "Assistant ID not found"], [];
      repeat split; auto; discriminate].
  destruct (reports_only_run_frames (artifact hook) params frames
              (initial_loop hook)) as (l & Hl & Fl).
  change (logged (initial_loop hook)) with (@nil Effect) in Hl.
  cbn [app] in Hl.
  destruct (run_frames parsePartialJson replaceOrInsertMessageChunk
              (artifact hook) params frames (initial_loop hook))
    as [s|s|s]; cbn [final_state] in *; unfold settle; cbn [effects
      selectedBlocks isStreaming]; rewrite Hl.
  1, 2:
    destruct (truthy (runId s)) eqn:Hr;
    [ exists (l ++ if transport_fails
                   then [ConsoleError "Failed to stream message"] else []),
             [ShareRun (runId s)]
    | exists (l ++ if transport_fails
                   then [ConsoleError "Failed to stream message"] else []),
             [] ];
    (split; [cbn [app]; rewrite <- !app_assoc; reflexivity|]);
    (split; [rewrite forallb_app, Fl; destruct transport_fails;
             reflexivity|]);
    (split; [first [left; reflexivity | right; repeat split; reflexivity]
            |split; [reflexivity | intros _; reflexivity]]).
  exists l, []. rewrite !app_nil_r.
  split; [reflexivity|]. split; [exact Fl|].
  split; [left; reflexivity|]. split; [reflexivity | intros _; reflexivity].
Qed.

End Effects.

(* ================================================================== *)
(** * The fence stripper returns a part of its input *)
(* ================================================================== *)

Lemma trimStart_suffix (s : str) :
  exists pre, s = pre ++ trimStart s.
Proof.
  induction s as [|c s IH]; [exists []; reflexivity|].
  cbn [trimStart]. destruct (is_space c).
  - destruct IH as (pre & E). exists (c :: pre). cbn. rewrite <- E.
    reflexivity.
  - exists []. reflexivity.
Qed.

Lemma trimEnd_prefix (s : str) :
  exists post, s = trimEnd s ++ post.
Proof.
  unfold trimEnd. destruct (trimStart_suffix (rev s)) as (pre & E).
  exists (rev pre). rewrite <- rev_app_distr, <- E, rev_involutive.
  reflexivity.
Qed.

Lemma trim_part (s : str) :
  exists pre post, s = pre ++ trim s ++ post.
Proof.
  unfold trim. destruct (trimStart_suffix s) as (pre & E).
  destruct (trimEnd_prefix (trimStart s)) as (post & E').
  exists pre, post. rewrite <- E'. exact E.
Qed.

Lemma trimStart_idem (s : str) : trimStart (trimStart s) = trimStart s.
Proof.
  induction s as [|c s IH]; [reflexivity|].
  cbn [trimStart]. destruct (is_space c) eqn:E; [exact IH|].
  cbn [trimStart]. rewrite E. reflexivity.
Qed.

Lemma trimStart_snoc (l : str) (x : char) :
  is_space x = false -> trimStart (l ++ [x]) = trimStart l ++ [x].
Proof.
  intros Hx. induction l as [|c l IH]; cbn [app trimStart].
  - rewrite Hx. reflexivity.
  - destruct (is_space c); [exact IH | reflexivity].
Qed.

Lemma trimEnd_cons (x : char) (s : str) :
  is_space x = false -> trimEnd (x :: s) = x :: trimEnd s.
Proof.
  intros Hx. unfold trimEnd. cbn [rev].
  rewrite (trimStart_snoc _ _ Hx), rev_app_distr. reflexivity.
Qed.

Lemma trim_idem (s : str) : trim (trim s) = trim s.
Proof.
  unfold trim.
  assert (Hs : trimStart (trimEnd (trimStart s)) = trimEnd (trimStart s)).
  { destruct (trimStart s) as [|x t] eqn:E; [reflexivity|].
    assert (Hx : is_space x = false).
    { clear - E. induction s as [|c s IH]; [discriminate|].
      cbn [trimStart] in E. destruct (is_space c) eqn:Ec; [auto|].
      injection E as -> _. exact Ec. }
    rewrite (trimEnd_cons _ _ Hx). cbn [trimStart]. rewrite Hx.
    reflexivity. }
  rewrite Hs. unfold trimEnd at 1 2. rewrite rev_involutive.
  rewrite trimStart_idem. reflexivity.
Qed.

(** X20.  The fence stripper returns a contiguous part of its input: it
    never adds or changes a character.  When it changes the text at all,
    the text was a fenced block, the result is at least eight characters
    shorter (the two fences and their line breaks), and it has no white
    space left at either end. *)
Theorem removeCodeBlockFormatting_part (text : str) :
  (exists pre post, text = pre ++ removeCodeBlockFormatting text ++ post)
  /\ (removeCodeBlockFormatting text <> text ->
      Fenced text
      /\ (List.length (removeCodeBlockFormatting text) + 8
          <= List.length text)%nat
      /\ trim (removeCodeBlockFormatting text)
         = removeCodeBlockFormatting text).
Proof.
  unfold removeCodeBlockFormatting.
  destruct (negb (truthy text)).
  { split; [exists [], []; rewrite app_nil_r; reflexivity|].
    intros H; contradiction. }
  destruct (match_group1 text codeBlockRegex) as [g|] eqn:E.
  2:{ split; [exists [], []; rewrite app_nil_r; reflexivity|].
      intros H; contradiction. }
  apply match_fenced_inv in E. destruct E as (lang & Hlang & E).
  destruct (trim_part g) as (pre & post & Hg).
  assert (Hlen : (List.length (trim g) <= List.length g)%nat).
  { rewrite Hg at 2. rewrite !length_app. lia. }
  split.
  - exists (fence ++ lang ++ LF :: pre), (post ++ LF :: fence).
    rewrite E. unfold wrap_in_fence. rewrite Hg at 1.
    rewrite <- ?app_assoc. cbn [app]. rewrite <- ?app_assoc. reflexivity.
  - intros _. split; [exists lang, g; auto|]. split; [|apply trim_idem].
    rewrite E. unfold wrap_in_fence, fence.
    rewrite ?length_app; cbn [List.length]; rewrite ?length_app;
      cbn [List.length]. lia.
Qed.

(* ================================================================== *)
(** * The properties above on concrete folds *)
(* ================================================================== *)

Lemma ranged_edit_span_witness :
  exists s',
    run_frames no_parse keep_messages (artifact code_hook) range_3_6
      [content_delta "updateArtifact" (lit "X");
       content_delta "updateArtifact" (lit "YZ")]
      (initial_loop code_hook) = Go s'
    /\ updatedArtifactStartContent s'
       = Some (slice (code abc123xyz) 0 (startCharIndex span_3_6)
               ++ List.concat [lit "YZ"])
    /\ updatedArtifactRestContent s'
       = Some (slice_from (code abc123xyz) (endCharIndex span_3_6))
    /\ (0 <= startCharIndex span_3_6 <= endCharIndex span_3_6 ->
        endCharIndex span_3_6 <= len (code abc123xyz) ->
        slice (code abc123xyz) 0 (startCharIndex span_3_6)
        ++ slice (code abc123xyz) (startCharIndex span_3_6)
             (endCharIndex span_3_6)
        ++ slice_from (code abc123xyz) (endCharIndex span_3_6)
        = code abc123xyz).
Proof.
  apply (ranged_edit_span no_parse keep_messages range_3_6 code_hook
           code_artifact span_3_6 abc123xyz (lit "X")
           (content_delta "updateArtifact" (lit "X")) [lit "YZ"]
           [content_delta "updateArtifact" (lit "YZ")]).
  - reflexivity.
  - reflexivity.
  - reflexivity.
  - split; [split; reflexivity | split; [reflexivity | discriminate]].
  - constructor; [|constructor].
    split; [split; reflexivity | split; [reflexivity | discriminate]].
Defined.

Lemma run_id_of_first_frame_witness :
  runId
    (final_state
       (run_frames no_parse keep_messages (artifact text_hook) no_range
          [capture_highlight hello_world;
           content_delta "updateHighlightedText" (lit "Hi")]
          (initial_loop text_hook)))
  = to_text (run_id (capture_highlight hello_world)).
Proof.
  apply (run_id_of_first_frame no_parse keep_messages (artifact text_hook)
           no_range (capture_highlight hello_world)
           [content_delta "updateHighlightedText" (lit "Hi")]
           (initial_loop text_hook)).
  - reflexivity.
  - reflexivity.
Defined.

Lemma unrouted_frames_witness :
  cur_artifact
    (final_state
       (step no_parse keep_messages (artifact text_hook) no_range
          (capture_highlight hello_world) (initial_loop text_hook)))
  = cur_artifact (initial_loop text_hook)
  /\ step no_parse keep_messages (artifact text_hook) no_range stray_delta
       (initial_loop text_hook)
     = Go (capture_run_id stray_delta (initial_loop text_hook)).
Proof.
  split.
  - apply (proj1 (unrouted_frames no_parse keep_messages
                    (artifact text_hook) no_range
                    (capture_highlight hello_world)
                    (initial_loop text_hook))).
    reflexivity.
  - apply (proj2 (unrouted_frames no_parse keep_messages
                    (artifact text_hook) no_range stray_delta
                    (initial_loop text_hook))).
    + reflexivity.
    + reflexivity.
Defined.

Lemma ranged_edit_preconditions_witness :
  run_frames no_parse keep_messages (artifact code_hook) no_range
    [content_delta "updateArtifact" (lit "X")] (initial_loop code_hook)
  = Return
      (toast_error "No highlighted text found"
         (capture_run_id (content_delta "updateArtifact" (lit "X"))
            (initial_loop code_hook))).
Proof.
  apply (proj1 (proj2
           (ranged_edit_preconditions no_parse keep_messages
              (artifact code_hook) no_range
              (content_delta "updateArtifact" (lit "X")) []
              (initial_loop code_hook)
              (conj eq_refl eq_refl)))).
  - discriminate.
  - reflexivity.
Defined.

Lemma rewrite_metadata_protocol_witness :
  step no_parse keep_messages (artifact code_hook) no_range
    (rewrite_delta (lit "x")) (initial_loop code_hook)
  = Go (capture_run_id (rewrite_delta (lit "x")) (initial_loop code_hook)).
Proof.
  apply (proj1 (rewrite_metadata_protocol no_parse keep_messages
                  (artifact code_hook) no_range (rewrite_delta (lit "x"))
                  (initial_loop code_hook))).
  - split; reflexivity.
  - reflexivity.
Defined.

Lemma theme_rewrite_run_witness :
  exists s' a',
    run_frames no_parse keep_messages (artifact code_hook) no_range
      [content_delta "rewriteCodeArtifactTheme" (lit "let a");
       content_delta "rewriteCodeArtifactTheme" (lit " = 1;")]
      (initial_loop code_hook) = Go s'
    /\ newArtifactContent s'
       = List.concat
           (map content_or_empty
              [content_delta "rewriteCodeArtifactTheme" (lit "let a");
               content_delta "rewriteCodeArtifactTheme" (lit " = 1;")])
    /\ isFirstUpdate s' = false
    /\ cur_artifact s' = Some a'
    /\ List.length (contents a')
       = S (List.length (contents code_artifact))
    /\ currentIndex a'
       = Z.of_nat (List.length (contents code_artifact)) + 1
    /\ last_snapshot a'
       = Some (if str_eqb (lit "code") (lit "code") then
                 Code {| code_index :=
                           Z.of_nat (List.length (contents code_artifact))
                           + 1;
                         code_title := title (Code abc123xyz);
                         language :=
                           theme_language no_range (Code abc123xyz);
                         code :=
                           removeCodeBlockFormatting
                             (List.concat
                                (map content_or_empty
                                   [content_delta "rewriteCodeArtifactTheme"
                                      (lit "let a");
                                    content_delta "rewriteCodeArtifactTheme"
                                      (lit " = 1;")])) |}
               else
                 Markdown {| md_index :=
                               Z.of_nat
                                 (List.length (contents code_artifact))
                               + 1;
                             md_title := title (Code abc123xyz);
                             fullMarkdown :=
                               List.concat
                                 (map content_or_empty
                                    [content_delta
                                       "rewriteCodeArtifactTheme"
                                       (lit "let a");
                                     content_delta
                                       "rewriteCodeArtifactTheme"
                                       (lit " = 1;")]) |}).
Proof.
  apply (theme_rewrite_run no_parse keep_messages no_range code_hook
           code_artifact (Code abc123xyz) "rewriteCodeArtifactTheme"
           (lit "code")
           [content_delta "rewriteCodeArtifactTheme" (lit "let a");
            content_delta "rewriteCodeArtifactTheme" (lit " = 1;")]).
  - reflexivity.
  - reflexivity.
  - right. left. split; reflexivity.
  - constructor; [split; reflexivity|].
    constructor; [split; reflexivity | constructor].
  - discriminate.
Defined.

Lemma rewriteArtifact_run_witness :
  exists s' a',
    run_frames no_parse keep_messages (artifact code_hook) no_range
      [python_meta_frame; rewrite_delta (lit "x = "); rewrite_delta (lit "1")]
      (initial_loop code_hook) = Go s'
    /\ rewriteArtifactMeta s' = Some python_meta
    /\ newArtifactContent s'
       = List.concat
           (map content_or_empty
              [rewrite_delta (lit "x = "); rewrite_delta (lit "1")])
    /\ isFirstUpdate s' = false
    /\ cur_artifact s' = Some a'
    /\ List.length (contents a')
       = S (List.length (contents code_artifact))
    /\ currentIndex a'
       = Z.of_nat (List.length (contents code_artifact)) + 1
    /\ last_snapshot a'
       = Some (if str_eqb (meta_type python_meta) (lit "code") then
                 Code {| code_index :=
                           Z.of_nat (List.length (contents code_artifact))
                           + 1;
                         code_title := meta_title python_meta;
                         language :=
                           language_by_precedence (portLanguage no_range)
                             python_meta
                             (prevCurrentContent (Some code_artifact));
                         code :=
                           removeCodeBlockFormatting
                             (List.concat
                                (map content_or_empty
                                   [rewrite_delta (lit "x = ");
                                    rewrite_delta (lit "1")])) |}
               else
                 Markdown {| md_index :=
                               Z.of_nat
                                 (List.length (contents code_artifact))
                               + 1;
                             md_title := meta_title python_meta;
                             fullMarkdown :=
                               List.concat
                                 (map content_or_empty
                                    [rewrite_delta (lit "x = ");
                                     rewrite_delta (lit "1")]) |}).
Proof.
  apply (rewriteArtifact_run no_parse keep_messages no_range code_hook
           code_artifact python_meta python_meta_frame
           [rewrite_delta (lit "x = "); rewrite_delta (lit "1")]).
  - reflexivity.
  - reflexivity.
  - reflexivity.
  - reflexivity.
  - reflexivity.
  - constructor; [split; [split|]; reflexivity|].
    constructor; [split; [split|]; reflexivity | constructor].
  - discriminate.
Defined.

Lemma generateArtifact_run_witness :
  exists s',
    run_frames parse_add keep_messages (artifact empty_hook) no_range
      [tool_call_delta fragment_1; tool_call_delta fragment_2]
      (initial_loop empty_hook) = Go s'
    /\ generateArtifactToolCallStr s'
       = generateArtifactToolCallStr (initial_loop empty_hook)
         ++ List.concat
              (map (fun f => to_text (payload_tool_args f))
                 [tool_call_delta fragment_1; tool_call_delta fragment_2])
    /\ logged s' = logged (initial_loop empty_hook)
    /\ cur_messages s' = cur_messages (initial_loop empty_hook)
    /\ (cur_artifact s' = cur_artifact (initial_loop empty_hook)
        \/ cur_artifact s' = None
        \/ exists content,
             cur_artifact s'
             = Some {| currentIndex := 1; contents := [content] |}).
Proof.
  apply (generateArtifact_run parse_add keep_messages (artifact empty_hook)
           no_range
           [tool_call_delta fragment_1; tool_call_delta fragment_2]
           (initial_loop empty_hook)).
  constructor; [split; reflexivity|].
  constructor; [split; reflexivity | constructor].
Defined.

Lemma removeCodeBlockFormatting_part_witness :
  Fenced (wrap_in_fence (lit "js") (lit "let x"))
  /\ (List.length
        (removeCodeBlockFormatting (wrap_in_fence (lit "js") (lit "let x")))
      + 8
      <= List.length (wrap_in_fence (lit "js") (lit "let x")))%nat
  /\ trim (removeCodeBlockFormatting
             (wrap_in_fence (lit "js") (lit "let x")))
     = removeCodeBlockFormatting (wrap_in_fence (lit "js") (lit "let x")).
Proof.
  apply (proj2 (removeCodeBlockFormatting_part
                  (wrap_in_fence (lit "js") (lit "let x")))).
  vm_compute. discriminate.
Defined.

(* ================================================================== *)
(** * Chat messages *)
(* ================================================================== *)

Section FollowupExtras.

Variable parsePartialJson : str -> option ArtifactToolResponse.
Variable replaceOrInsertMessageChunk :
  list BaseMessage -> MessageChunk -> list BaseMessage.
Variable artifact : option ArtifactV3.
Variable params : GraphInput.

Local Abbreviation step' :=
  (step parsePartialJson replaceOrInsertMessageChunk artifact params).
Local Abbreviation run' :=
  (run_frames parsePartialJson replaceOrInsertMessageChunk artifact params).

Lemma step_followup (m : MessageChunk) (f : Frame) (s : Loop) :
  FollowupFrame m f ->
  exists s1,
    step' f s
    = Go (set_cur_messages
            (replaceOrInsertMessageChunk (cur_messages s) m) s1)
    /\ cur_artifact s1 = cur_artifact s
    /\ logged s1 = logged s
    /\ followupMessageId s1
       = (if truthy_opt (followupMessageId s) then followupMessageId s
          else chunk_id m).
Proof.
  intros (Hev & Hn & Hp).
  rewrite (step_stream parsePartialJson replaceOrInsertMessageChunk
             artifact params f s Hev).
  assert (Hroute :
    (node_is f "generateFollowup" || node_is f "respondToQuery") = true
    /\ node_is f "generateArtifact" = false
    /\ node_is f "updateHighlightedText" = false
    /\ node_is f "updateArtifact" = false
    /\ node_is f "rewriteArtifact" = false
    /\ node_is f "rewriteArtifactTheme" = false
    /\ node_is f "rewriteCodeArtifactTheme" = false
    /\ node_is f "customAction" = false).
  { unfold node_is. destruct Hn as [-> | ->]; repeat split; reflexivity. }
  destruct Hroute as (R1 & R2 & R3 & R4 & R5 & R6 & R7 & R8).
  unfold on_followup at 1. rewrite R1, Hp. cbn [and_then].
  rewrite on_generateArtifact_skip by assumption. cbn [and_then].
  rewrite on_updateHighlightedText_skip by assumption. cbn [and_then].
  rewrite on_updateArtifact_skip by assumption. cbn [and_then].
  rewrite on_rewriteArtifact_skip by assumption. cbn [and_then].
  rewrite on_rewriteTheme_skip by assumption.
  assert (Hid : followupMessageId (capture_run_id f s)
                = followupMessageId s).
  { unfold capture_run_id. destruct (negb _ && _); reflexivity. }
  destruct (capture_run_id_fields f s)
    as (Ha & Hm & _ & _ & _ & Hl & _ & _).
  rewrite Hid.
  destruct (truthy_opt (followupMessageId s)); cbn [negb].
  - exists (capture_run_id f s). rewrite Hm. auto.
  - exists (set_followupMessageId (chunk_id m) (capture_run_id f s)).
    cbn. rewrite Hm. auto.
Qed.

(** X21.  A run of chat-message frames (nodes [generateFollowup] and
    [respondToQuery]) never ends the fold and reports nothing: every chunk
    is handed to [replaceOrInsertMessageChunk] in order, on the messages
    the chunk before has left; the artifact is not touched; the id of the
    followup message is the one captured before the run if there is one,
    and otherwise the id of the first chunk when that chunk has one. *)
Theorem followup_run (ms : list MessageChunk) :
  forall (fs : list Frame) (s : Loop),
    Forall2 FollowupFrame ms fs ->
    exists s',
      run' fs s = Go s'
      /\ cur_messages s'
         = fold_left replaceOrInsertMessageChunk ms (cur_messages s)
      /\ cur_artifact s' = cur_artifact s
      /\ logged s' = logged s
      /\ (truthy_opt (followupMessageId s) = true ->
          followupMessageId s' = followupMessageId s)
      /\ (truthy_opt (followupMessageId s) = false ->
          forall m rest,
            ms = m :: rest -> truthy_opt (chunk_id m) = true ->
            followupMessageId s' = chunk_id m).
Proof.
  induction ms as [|m ms IH]; intros fs s Hall.
  - destruct fs as [|f fs]; [|inversion Hall].
    exists s. cbn. repeat split; auto. intros _ m rest H. discriminate.
  - destruct fs as [|f fs]; [inversion Hall|].
    apply Forall2_cons_iff in Hall. destruct Hall as [Hf Hrest].
    destruct (step_followup m f s Hf) as (s1 & E & Ha & Hl & Hid).
    cbn [run_frames]. rewrite E.
    destruct (IH fs
                (set_cur_messages
                   (replaceOrInsertMessageChunk (cur_messages s) m) s1)
                Hrest)
      as (s' & E' & Hm' & Ha' & Hl' & Hk' & _).
    cbn in Hm', Ha', Hl', Hk'.
    exists s'. split; [exact E'|]. split; [exact Hm'|].
    split; [congruence|]. split; [congruence|]. split.
    + intros Ht. rewrite Ht in Hid. rewrite <- Hid. apply Hk'.
      rewrite Hid. exact Ht.
    + intros Hfalse m0 rest H Htm. injection H as <- _.
      rewrite Hfalse in Hid. rewrite <- Hid. apply Hk'.
      rewrite Hid. exact Htm.
Qed.

End FollowupExtras.

Lemma followup_run_witness :
  exists s',
    run_frames no_parse insert_chunk None no_range
      [reply_frame "generateFollowup" (reply_chunk "m1" "Hel");
       reply_frame "generateFollowup" (reply_chunk "m1" "lo")]
      (initial_loop empty_hook) = Go s'
    /\ cur_messages s'
       = fold_left insert_chunk
           [reply_chunk "m1" "Hel"; reply_chunk "m1" "lo"]
           (cur_messages (initial_loop empty_hook))
    /\ cur_artifact s' = cur_artifact (initial_loop empty_hook)
    /\ logged s' = logged (initial_loop empty_hook)
    /\ (truthy_opt (followupMessageId (initial_loop empty_hook)) = true ->
        followupMessageId s' = followupMessageId (initial_loop empty_hook))
    /\ (truthy_opt (followupMessageId (initial_loop empty_hook)) = false ->
        forall m rest,
          [reply_chunk "m1" "Hel"; reply_chunk "m1" "lo"] = m :: rest ->
          truthy_opt (chunk_id m) = true ->
          followupMessageId s' = chunk_id m).
Proof.
  apply (followup_run no_parse insert_chunk None no_range
           [reply_chunk "m1" "Hel"; reply_chunk "m1" "lo"]
           [reply_frame "generateFollowup" (reply_chunk "m1" "Hel");
            reply_frame "generateFollowup" (reply_chunk "m1" "lo")]
           (initial_loop empty_hook)).
  constructor; [split; [reflexivity | split; [left; reflexivity
                                              | reflexivity]]|].
  constructor; [split; [reflexivity | split; [left; reflexivity
                                              | reflexivity]]|].
  constructor.
Defined.

(* ================================================================== *)
(** * One new version per fold *)
(* ================================================================== *)

Section SingleVersionFold.

Variable parsePartialJson : str -> option ArtifactToolResponse.
Variable replaceOrInsertMessageChunk :
  list BaseMessage -> MessageChunk -> list BaseMessage.
Variable params : GraphInput.




End SingleVersionFold.



(* ================================================================== *)
(** * The language of a rewritten artifact *)
(* ================================================================== *)


